(** * Verification of the STM32 sensor / Wi-Fi modem firmware

    Shallow embedding of [stm32_modul/Core/Src/main.c]: the AT command
    and response state machine that drives the modem, the interrupt-fed
    receive buffer, the sensor handlers with their packetizer, the
    connection and send orchestration, and the foreground loop.

    The C globals become the fields of a state record.  The fields are
    grouped by who writes them: the variables only the foreground code
    writes, the variables the interrupt handlers write too, and the
    hardware (tick counter, UART receiver, pins, sensor output
    registers) together with the script of future interrupts.  Every C
    function becomes a function on that state, under its own name.

    Time: the millisecond tick advances only inside [HAL_Delay], inside
    the busy-wait loops and between loop passes; on every tick the
    interrupts scheduled for it run to completion, which is how the
    non-reentrant handlers of the source interleave with the foreground
    code at tick granularity.  A blocking transmission or bus read
    takes no tick, so the bounds on elapsed ticks proved below are
    bounds on delay and polling.

    Undefined behaviour: the functions of the model are total, and the
    C of [Handle_Client_Request] is not: it adds an offset to a null
    pointer when a credential request lacks its password, and it
    writes past its arrays when a name is too long.
    [Handle_Client_Request_defined] says where the C is defined and the
    model is what it does; [main_loop_defined] says it of a run; the
    theorems about code that passes through the request handler are
    stated under them. *)

From Stdlib Require Import ZArith Lia String Ascii DecimalString.
From stdpp Require Import base list numbers.

Local Open Scope Z_scope.

(** ** Machine integers, bytes and C strings *)

Definition u8 (x : Z) : Z := x mod 256.
Definition u16 (x : Z) : Z := x mod 65536.
Definition u32 (x : Z) : Z := x mod 4294967296.

(** The bytes of a string literal (without the terminating NUL). *)
Definition str (s : string) : list Z :=
  List.map (fun c => Z.of_N (N_of_ascii c)) (list_ascii_of_string s).

Definition crlf : list Z := [13; 10].
Definition lf : list Z := [10].
Definition dq : list Z := [34].

(** A literal as it lies in memory: its bytes followed by NUL. *)
Definition lit (bytes : list Z) : list Z := bytes ++ [0].

(** [printf]'s [%d]. *)
Definition dec (n : Z) : list Z := str (NilZero.string_of_int (Z.to_int n)).

(** The C string that starts at the head of [mem]: the bytes before the
    first NUL. *)
Fixpoint c_str (mem : list Z) : list Z :=
  match mem with
  | [] => []
  | b :: rest => if b =? 0 then [] else b :: c_str rest
  end.

Definition strlen (mem : list Z) : Z := Z.of_nat (length (c_str mem)).

Fixpoint is_prefix (needle hay : list Z) : bool :=
  match needle, hay with
  | [], _ => true
  | _ :: _, [] => false
  | n :: ns, h :: hs => (n =? h) && is_prefix ns hs
  end.

Fixpoint find_sub (needle hay : list Z) {struct hay} : option nat :=
  if is_prefix needle hay then Some 0%nat
  else match hay with
       | [] => None
       | _ :: hs => option_map S (find_sub needle hs)
       end.

(** [strstr(mem, needle)]: the offset of the first occurrence of
    [needle] in the C string at [mem], [None] for a null result. *)
Definition strstr (mem needle : list Z) : option nat :=
  find_sub needle (c_str mem).

Definition found (mem needle : list Z) : bool :=
  match strstr mem needle with Some _ => true | None => false end.

(** [snprintf(buf, size, ...)] keeps at most [size - 1] characters. *)
Definition snprintf (size : Z) (text : list Z) : list Z :=
  lit (take (Z.to_nat (size - 1)) text).

(** ** Constants of the source *)

Definition TIMEOUT : Z := 0.
Definition SUCCESS : Z := 1.
Definition ERROR : Z := 2.
Definition WAITING : Z := 3.
Definition IDLE : Z := 4.
Definition SEND_REQUEST : Z := 5.

Definition AT_TEST : Z := 0.
Definition AT_SET_CONNECT_MODE : Z := 1.
Definition AT_SET_MAX_CONNECTIONS : Z := 2.
Definition AT_START_SERVER : Z := 3.
Definition AT_SEND_HTML_HEADER : Z := 4.
Definition AT_SEND_HTML : Z := 5.
Definition AT_SEND_CONNECT_REQUEST : Z := 6.

Definition HEADER_MAG : Z := 0xAAAB.
Definition HEADER_ACC : Z := 0xBBBB.
Definition HEADER_GYR : Z := 0xCCCC.
Definition BUFFER_SIZE : Z := 64.

Definition MODE_NONE : Z := 0.
Definition MODE_BINARY_UART : Z := 1.
Definition MODE_ASCII_UART : Z := 2.
Definition MODE_BINARY_CDC : Z := 3.
Definition MODE_ASCII_CDC : Z := 4.

Definition RX_BUFFER_SIZE : Z := 2048 * 4.

Definition GPIO_PIN_0 : Z := 1.
Definition GPIO_PIN_1 : Z := 2.
Definition GPIO_PIN_2 : Z := 4.
Definition GPIO_PIN_4 : Z := 16.

(** ** What the firmware does to the outside world *)

Inductive event : Type :=
  | UartTx (data : list Z)            (* HAL_UART_Transmit(&huart2, ...) *)
  | CdcTx (data : list Z)             (* CDC_Transmit_FS(...) *)
  | I2cRead (device reg len : Z)      (* HAL_I2C_Mem_Read(&hi2c1, ...) *)
  | SpiRead (reg len : Z).            (* spi1_beriRegistre(...) *)

(** ** Interrupt sources *)

Inductive irq : Type :=
  | IrqRx (b : Z)                     (* the UART received a byte *)
  | IrqButton (level : bool)          (* edge on PA0, new pin level *)
  | IrqMag (x y z : Z)                (* magnetometer sample ready *)
  | IrqAcc (x y z : Z)                (* accelerometer sample ready *)
  | IrqGyr (x y z : Z).               (* gyroscope sample ready *)

(** ** The state *)

(** Globals written by the foreground code only (the two [static]
    locals named [last_send_time] included), and the trace of what was
    sent so far, newest event first. *)
Record Foreground : Type := mkForeground {
  packet_number : Z;
  transmission_mode : Z;
  setup_stage : Z;
  response_status : Z;
  has_response_changed : Z;
  tick_when_sent : Z;
  is_client_connected : Z;
  was_client_connected : Z;
  is_client_requesting_page : Z;
  was_client_requesting_page : Z;
  connection_established : Z;
  receiving_data : Z;
  ascii_last_send_time : Z;      (* static in Transmit_Data_ASCII *)
  server_last_send_time : Z;     (* static in Send_Data_To_Server *)
  out : list event
}.

(** Globals the interrupt handlers write. *)
Record Shared : Type := mkShared {
  data_ready_mag : Z;
  data_ready_acc : Z;
  data_ready_gyr : Z;
  rx_buffer : list Z;
  rx_index : Z;
  button_press_start : Z;
  button_pressed : Z;
  button_action_pending : Z;
  button_action_type : Z
}.

(** The hardware and the environment. *)
Record Hardware : Type := mkHardware {
  tick : Z;                          (* HAL_GetTick() *)
  rx_armed : option Z;               (* where HAL_UART_Receive_IT stores the next byte *)
  button_pin : bool;                 (* level of PA0 *)
  mag_regs : Z * Z * Z;
  acc_regs : Z * Z * Z;
  gyr_regs : Z * Z * Z;
  script : list (list irq)           (* interrupts of the coming ticks *)
}.

Record State : Type := mkState {
  fg :> Foreground;
  sh :> Shared;
  hw :> Hardware
}.

Definition on_fg (f : Foreground -> Foreground) (s : State) : State :=
  mkState (f (fg s)) (sh s) (hw s).
Definition on_sh (f : Shared -> Shared) (s : State) : State :=
  mkState (fg s) (f (sh s)) (hw s).
Definition on_hw (f : Hardware -> Hardware) (s : State) : State :=
  mkState (fg s) (sh s) (f (hw s)).

(** Assignment to one global. *)
Definition set_packet_number (v : Z) (s : State) : State :=
  on_fg (fun f => mkForeground v (transmission_mode f) (setup_stage f)
    (response_status f) (has_response_changed f) (tick_when_sent f)
    (is_client_connected f) (was_client_connected f)
    (is_client_requesting_page f) (was_client_requesting_page f)
    (connection_established f) (receiving_data f) (ascii_last_send_time f)
    (server_last_send_time f) (out f)) s.
Definition set_transmission_mode (v : Z) (s : State) : State :=
  on_fg (fun f => mkForeground (packet_number f) v (setup_stage f)
    (response_status f) (has_response_changed f) (tick_when_sent f)
    (is_client_connected f) (was_client_connected f)
    (is_client_requesting_page f) (was_client_requesting_page f)
    (connection_established f) (receiving_data f) (ascii_last_send_time f)
    (server_last_send_time f) (out f)) s.
Definition set_setup_stage (v : Z) (s : State) : State :=
  on_fg (fun f => mkForeground (packet_number f) (transmission_mode f) v
    (response_status f) (has_response_changed f) (tick_when_sent f)
    (is_client_connected f) (was_client_connected f)
    (is_client_requesting_page f) (was_client_requesting_page f)
    (connection_established f) (receiving_data f) (ascii_last_send_time f)
    (server_last_send_time f) (out f)) s.
Definition set_response_status (v : Z) (s : State) : State :=
  on_fg (fun f => mkForeground (packet_number f) (transmission_mode f)
    (setup_stage f) v (has_response_changed f) (tick_when_sent f)
    (is_client_connected f) (was_client_connected f)
    (is_client_requesting_page f) (was_client_requesting_page f)
    (connection_established f) (receiving_data f) (ascii_last_send_time f)
    (server_last_send_time f) (out f)) s.
Definition set_has_response_changed (v : Z) (s : State) : State :=
  on_fg (fun f => mkForeground (packet_number f) (transmission_mode f)
    (setup_stage f) (response_status f) v (tick_when_sent f)
    (is_client_connected f) (was_client_connected f)
    (is_client_requesting_page f) (was_client_requesting_page f)
    (connection_established f) (receiving_data f) (ascii_last_send_time f)
    (server_last_send_time f) (out f)) s.
Definition set_tick_when_sent (v : Z) (s : State) : State :=
  on_fg (fun f => mkForeground (packet_number f) (transmission_mode f)
    (setup_stage f) (response_status f) (has_response_changed f) v
    (is_client_connected f) (was_client_connected f)
    (is_client_requesting_page f) (was_client_requesting_page f)
    (connection_established f) (receiving_data f) (ascii_last_send_time f)
    (server_last_send_time f) (out f)) s.
Definition set_is_client_connected (v : Z) (s : State) : State :=
  on_fg (fun f => mkForeground (packet_number f) (transmission_mode f)
    (setup_stage f) (response_status f) (has_response_changed f)
    (tick_when_sent f) v (was_client_connected f) (is_client_requesting_page
    f) (was_client_requesting_page f) (connection_established f)
    (receiving_data f) (ascii_last_send_time f) (server_last_send_time f) (out
    f)) s.
Definition set_was_client_connected (v : Z) (s : State) : State :=
  on_fg (fun f => mkForeground (packet_number f) (transmission_mode f)
    (setup_stage f) (response_status f) (has_response_changed f)
    (tick_when_sent f) (is_client_connected f) v (is_client_requesting_page f)
    (was_client_requesting_page f) (connection_established f) (receiving_data
    f) (ascii_last_send_time f) (server_last_send_time f) (out f)) s.
Definition set_is_client_requesting_page (v : Z) (s : State) : State :=
  on_fg (fun f => mkForeground (packet_number f) (transmission_mode f)
    (setup_stage f) (response_status f) (has_response_changed f)
    (tick_when_sent f) (is_client_connected f) (was_client_connected f) v
    (was_client_requesting_page f) (connection_established f) (receiving_data
    f) (ascii_last_send_time f) (server_last_send_time f) (out f)) s.
Definition set_was_client_requesting_page (v : Z) (s : State) : State :=
  on_fg (fun f => mkForeground (packet_number f) (transmission_mode f)
    (setup_stage f) (response_status f) (has_response_changed f)
    (tick_when_sent f) (is_client_connected f) (was_client_connected f)
    (is_client_requesting_page f) v (connection_established f) (receiving_data
    f) (ascii_last_send_time f) (server_last_send_time f) (out f)) s.
Definition set_connection_established (v : Z) (s : State) : State :=
  on_fg (fun f => mkForeground (packet_number f) (transmission_mode f)
    (setup_stage f) (response_status f) (has_response_changed f)
    (tick_when_sent f) (is_client_connected f) (was_client_connected f)
    (is_client_requesting_page f) (was_client_requesting_page f) v
    (receiving_data f) (ascii_last_send_time f) (server_last_send_time f) (out
    f)) s.
Definition set_receiving_data (v : Z) (s : State) : State :=
  on_fg (fun f => mkForeground (packet_number f) (transmission_mode f)
    (setup_stage f) (response_status f) (has_response_changed f)
    (tick_when_sent f) (is_client_connected f) (was_client_connected f)
    (is_client_requesting_page f) (was_client_requesting_page f)
    (connection_established f) v (ascii_last_send_time f)
    (server_last_send_time f) (out f)) s.
Definition set_ascii_last_send_time (v : Z) (s : State) : State :=
  on_fg (fun f => mkForeground (packet_number f) (transmission_mode f)
    (setup_stage f) (response_status f) (has_response_changed f)
    (tick_when_sent f) (is_client_connected f) (was_client_connected f)
    (is_client_requesting_page f) (was_client_requesting_page f)
    (connection_established f) (receiving_data f) v (server_last_send_time f)
    (out f)) s.
Definition set_server_last_send_time (v : Z) (s : State) : State :=
  on_fg (fun f => mkForeground (packet_number f) (transmission_mode f)
    (setup_stage f) (response_status f) (has_response_changed f)
    (tick_when_sent f) (is_client_connected f) (was_client_connected f)
    (is_client_requesting_page f) (was_client_requesting_page f)
    (connection_established f) (receiving_data f) (ascii_last_send_time f) v
    (out f)) s.
Definition set_out (v : list event) (s : State) : State :=
  on_fg (fun f => mkForeground (packet_number f) (transmission_mode f)
    (setup_stage f) (response_status f) (has_response_changed f)
    (tick_when_sent f) (is_client_connected f) (was_client_connected f)
    (is_client_requesting_page f) (was_client_requesting_page f)
    (connection_established f) (receiving_data f) (ascii_last_send_time f)
    (server_last_send_time f) v) s.

Definition set_data_ready_mag (v : Z) (s : State) : State :=
  on_sh (fun g => mkShared v (data_ready_acc g) (data_ready_gyr g)
    (rx_buffer g) (rx_index g) (button_press_start g) (button_pressed g)
    (button_action_pending g) (button_action_type g)) s.
Definition set_data_ready_acc (v : Z) (s : State) : State :=
  on_sh (fun g => mkShared (data_ready_mag g) v (data_ready_gyr g)
    (rx_buffer g) (rx_index g) (button_press_start g) (button_pressed g)
    (button_action_pending g) (button_action_type g)) s.
Definition set_data_ready_gyr (v : Z) (s : State) : State :=
  on_sh (fun g => mkShared (data_ready_mag g) (data_ready_acc g) v
    (rx_buffer g) (rx_index g) (button_press_start g) (button_pressed g)
    (button_action_pending g) (button_action_type g)) s.
Definition set_rx_buffer (v : list Z) (s : State) : State :=
  on_sh (fun g => mkShared (data_ready_mag g) (data_ready_acc g)
    (data_ready_gyr g) v (rx_index g) (button_press_start g) (button_pressed
    g) (button_action_pending g) (button_action_type g)) s.
Definition set_rx_index (v : Z) (s : State) : State :=
  on_sh (fun g => mkShared (data_ready_mag g) (data_ready_acc g)
    (data_ready_gyr g) (rx_buffer g) v (button_press_start g) (button_pressed
    g) (button_action_pending g) (button_action_type g)) s.
Definition set_button_press_start (v : Z) (s : State) : State :=
  on_sh (fun g => mkShared (data_ready_mag g) (data_ready_acc g)
    (data_ready_gyr g) (rx_buffer g) (rx_index g) v (button_pressed g)
    (button_action_pending g) (button_action_type g)) s.
Definition set_button_pressed (v : Z) (s : State) : State :=
  on_sh (fun g => mkShared (data_ready_mag g) (data_ready_acc g)
    (data_ready_gyr g) (rx_buffer g) (rx_index g) (button_press_start g) v
    (button_action_pending g) (button_action_type g)) s.
Definition set_button_action_pending (v : Z) (s : State) : State :=
  on_sh (fun g => mkShared (data_ready_mag g) (data_ready_acc g)
    (data_ready_gyr g) (rx_buffer g) (rx_index g) (button_press_start g)
    (button_pressed g) v (button_action_type g)) s.
Definition set_button_action_type (v : Z) (s : State) : State :=
  on_sh (fun g => mkShared (data_ready_mag g) (data_ready_acc g)
    (data_ready_gyr g) (rx_buffer g) (rx_index g) (button_press_start g)
    (button_pressed g) (button_action_pending g) v) s.

Definition set_tick (v : Z) (s : State) : State :=
  on_hw (fun h => mkHardware v (rx_armed h) (button_pin h) (mag_regs h)
    (acc_regs h) (gyr_regs h) (script h)) s.
Definition set_rx_armed (v : option Z) (s : State) : State :=
  on_hw (fun h => mkHardware (tick h) v (button_pin h) (mag_regs h)
    (acc_regs h) (gyr_regs h) (script h)) s.
Definition set_button_pin (v : bool) (s : State) : State :=
  on_hw (fun h => mkHardware (tick h) (rx_armed h) v (mag_regs h) (acc_regs
    h) (gyr_regs h) (script h)) s.
Definition set_mag_regs (v : Z * Z * Z) (s : State) : State :=
  on_hw (fun h => mkHardware (tick h) (rx_armed h) (button_pin h) v
    (acc_regs h) (gyr_regs h) (script h)) s.
Definition set_acc_regs (v : Z * Z * Z) (s : State) : State :=
  on_hw (fun h => mkHardware (tick h) (rx_armed h) (button_pin h) (mag_regs
    h) v (gyr_regs h) (script h)) s.
Definition set_gyr_regs (v : Z * Z * Z) (s : State) : State :=
  on_hw (fun h => mkHardware (tick h) (rx_armed h) (button_pin h) (mag_regs
    h) (acc_regs h) v (script h)) s.
Definition set_script (v : list (list irq)) (s : State) : State :=
  on_hw (fun h => mkHardware (tick h) (rx_armed h) (button_pin h) (mag_regs
    h) (acc_regs h) (gyr_regs h) v) s.

Definition emit (e : event) (s : State) : State := set_out (e :: out s) s.

(** ** The HAL, as far as the application uses it *)

Definition HAL_GetTick (s : State) : Z := tick s.

(** Blocking transmit of [data] on USART2, the modem's UART.  The
    model's clock stands still during a transmission and no interrupt
    is served during it: the ticks counted below are those of
    [HAL_Delay] and of the polling loops. *)
Definition HAL_UART_Transmit (data : list Z) (s : State) : State :=
  emit (UartTx data) s.

(** [CDC_Transmit_FS(buf, len)]: [len] bytes from [buf] to the USB
    serial port. *)
Definition CDC_Transmit_FS (buf : list Z) (len : Z) (s : State) : State :=
  emit (CdcTx (take (Z.to_nat len) buf)) s.

Definition HAL_UART_AbortReceive_IT (s : State) : State :=
  set_rx_armed None s.

(** [HAL_UART_Receive_IT(&huart2, &rx_buffer[pos], 1)]: arms the
    reception of one byte; answers HAL_BUSY and changes nothing while a
    reception is armed already. *)
Definition HAL_UART_Receive_IT (pos : Z) (s : State) : State :=
  match rx_armed s with
  | None => set_rx_armed (Some pos) s
  | Some _ => s
  end.

(** ** Interrupt handlers *)

Definition HAL_UART_RxCpltCallback (s : State) : State :=
  if rx_index s <? RX_BUFFER_SIZE - 2 then
    let s := set_rx_index (u16 (rx_index s + 1)) s in
    let s := set_rx_buffer (<[Z.to_nat (rx_index s + 1) := 0]> (rx_buffer s)) s in
    HAL_UART_Receive_IT (rx_index s) s
  else
    let s := set_rx_index 0 s in
    let s := set_rx_buffer (<[1%nat := 0]> (rx_buffer s)) s in
    HAL_UART_Receive_IT (rx_index s) s.

(** A byte arrives: the HAL stores it where the reception was armed and
    calls the completion callback; with no reception armed the byte is
    lost. *)
Definition uart_receive (b : Z) (s : State) : State :=
  match rx_armed s with
  | Some pos =>
      let s := set_rx_buffer (<[Z.to_nat pos := u8 b]> (rx_buffer s)) s in
      HAL_UART_RxCpltCallback (set_rx_armed None s)
  | None => s
  end.

Definition HAL_GPIO_EXTI_Callback (GPIO_Pin : Z) (s : State) : State :=
  let s :=
    if GPIO_Pin =? GPIO_PIN_0 then
      if button_pin s then
        let s := set_button_pressed 1 s in
        set_button_press_start (HAL_GetTick s) s
      else
        let s := set_button_pressed 0 s in
        let press_duration := u32 (HAL_GetTick s - button_press_start s) in
        let s := if press_duration <? 500
                 then set_button_action_type 0 s
                 else set_button_action_type 1 s in
        set_button_action_pending 1 s
    else s in
  let s := if GPIO_Pin =? GPIO_PIN_2 then set_data_ready_mag 1 s else s in
  let s := if GPIO_Pin =? GPIO_PIN_4 then set_data_ready_acc 1 s else s in
  if GPIO_Pin =? GPIO_PIN_1 then set_data_ready_gyr 1 s else s.

Definition deliver (i : irq) (s : State) : State :=
  match i with
  | IrqRx b => uart_receive b s
  | IrqButton level => HAL_GPIO_EXTI_Callback GPIO_PIN_0 (set_button_pin level s)
  | IrqMag x y z => HAL_GPIO_EXTI_Callback GPIO_PIN_2 (set_mag_regs (x, y, z) s)
  | IrqAcc x y z => HAL_GPIO_EXTI_Callback GPIO_PIN_4 (set_acc_regs (x, y, z) s)
  | IrqGyr x y z => HAL_GPIO_EXTI_Callback GPIO_PIN_1 (set_gyr_regs (x, y, z) s)
  end.

(** ** Time *)

(** One millisecond passes: the tick counter moves on and the
    interrupts scripted for this tick are served in order. *)
Definition tick_step (s : State) : State :=
  let s := set_tick (u32 (tick s + 1)) s in
  match script s with
  | [] => s
  | irqs :: rest => foldl (fun s i => deliver i s) (set_script rest s) irqs
  end.

Fixpoint elapse (n : nat) (s : State) : State :=
  match n with
  | O => s
  | S k => elapse k (tick_step s)
  end.

Definition HAL_Delay (ms : Z) (s : State) : State := elapse (Z.to_nat ms) s.

(** ** Sensor bus *)

Definition s16 (x : Z) : Z := (x + 32768) mod 65536 - 32768.

(** [Beri_Registre(device, reg, data, length)] over I2C; the result is
    what the addressed device holds in its output registers. *)
Definition Beri_Registre (device reg len : Z) (s : State) : (Z * Z * Z) * State :=
  let reg := if len >? 1 then Z.lor reg 0x80 else reg in
  let regs :=
    if device =? 0x1E then mag_regs s
    else if device =? 0x19 then acc_regs s
    else gyr_regs s in
  let device := u8 (Z.shiftl device 1) in
  (regs, emit (I2cRead device reg len) s).

(** [spi1_beriRegistre(reg, buffer, velikost)]: the gyroscope on SPI. *)
Definition spi1_beriRegistre (reg len : Z) (s : State) : (Z * Z * Z) * State :=
  let reg := Z.lor reg 0xC0 in
  (gyr_regs s, emit (SpiRead reg len) s).

Definition Clear_Interrupts (s : State) : State :=
  let s := snd (Beri_Registre 0x1E 0x68 6 s) in
  let s := snd (Beri_Registre 0x19 (Z.lor 0x28 0x80) 6 s) in
  snd (Beri_Registre 0x6B (Z.lor 0x28 0x80) 6 s).

(** [raw_data[3]] after a six byte read: three [int16_t]. *)
Definition raw_of (regs : Z * Z * Z) : Z * Z * Z :=
  let '(x, y, z) := regs in (s16 x, s16 y, s16 z).

(** ** Packet packing *)

Definition Pack_Data (header x y z : Z) (s : State) : list Z :=
  [ Z.land header 0xFF;
    Z.land (Z.shiftr header 8) 0xFF;
    Z.land (packet_number s) 0xFF;
    Z.land (Z.shiftr (packet_number s) 8) 0xFF;
    Z.land x 0xFF;
    Z.land (Z.shiftr x 8) 0xFF;
    Z.land y 0xFF;
    Z.land (Z.shiftr y 8) 0xFF;
    Z.land z 0xFF;
    Z.land (Z.shiftr z 8) 0xFF ].

(** ** Command and response state machine *)

Definition Change_Response_Status (new_status : Z) (s : State) : State :=
  if (new_status <? 0) || (new_status >? 5) then s
  else
    let s := set_has_response_changed 1 s in
    set_response_status new_status s.

Definition Clear_RX_Buffer (s : State) : State :=
  let s := HAL_UART_AbortReceive_IT s in
  let s := set_rx_buffer (replicate (Z.to_nat RX_BUFFER_SIZE) 0) s in
  let s := set_rx_index 0 s in
  HAL_UART_Receive_IT 0 s.

Definition Send_Command (cmd : list Z) (s : State) : State :=
  let s := HAL_UART_AbortReceive_IT s in
  let s := Clear_RX_Buffer s in
  let s := set_tick_when_sent (HAL_GetTick s) s in
  let s := Change_Response_Status WAITING s in
  let s := HAL_UART_Transmit (c_str cmd) s in
  HAL_UART_Receive_IT (rx_index s) s.

Definition Is_Timedout (timeout_ms : Z) (s : State) : Z :=
  let current_tick := HAL_GetTick s in
  if u32 (current_tick - tick_when_sent s) >? timeout_ms then 1 else 0.

Definition html_page2 : list Z :=
  lit (str "HTTP/1.1 200 OK" ++ crlf ++ str "Content-Type: text/html" ++ crlf
       ++ str "Content-Length: 253" ++ crlf ++ crlf
       ++ str "<!DOCTYPE html><html><head><title>Wi-Fi Config</title></head><body><form method="
       ++ dq ++ str "GET" ++ dq ++ str " action=" ++ dq ++ str "/" ++ dq
       ++ str " accept-charset=" ++ dq ++ str "utf-8" ++ dq
       ++ str ">SSID: <input type=" ++ dq ++ str "text" ++ dq
       ++ str " name=" ++ dq ++ str "ssid" ++ dq
       ++ str "><br>Password: <input type=" ++ dq ++ str "text" ++ dq
       ++ str " name=" ++ dq ++ str "password" ++ dq
       ++ str "><br><input type=" ++ dq ++ str "submit" ++ dq
       ++ str " value=" ++ dq ++ str "Submit" ++ dq
       ++ str "></form></body></html>" ++ crlf).

Definition Send_HTML_Header (s : State) : State :=
  Send_Command (lit (str "AT+CIPSEND=0,334" ++ crlf)) s.

Definition Configure_ESP_As_Access_Point (s : State) : State :=
  let s :=
    if setup_stage s =? AT_TEST then
      let s := CDC_Transmit_FS (lit (str "Sending AT Test command" ++ crlf)) 25 s in
      let s := HAL_Delay 10 s in
      Send_Command (lit (str "AT" ++ crlf ++ [0])) s
    else if setup_stage s =? AT_SET_CONNECT_MODE then
      let s := CDC_Transmit_FS
                 (lit (str "Sending AT set HotSpot and Connect mode command" ++ crlf)) 49 s in
      let s := HAL_Delay 10 s in
      Send_Command (lit (str "AT+CWMODE=3" ++ crlf ++ [0])) s
    else if setup_stage s =? AT_SET_MAX_CONNECTIONS then
      let s := CDC_Transmit_FS
                 (lit (str "Sending AT set max connections command" ++ crlf)) 40 s in
      let s := HAL_Delay 10 s in
      Send_Command (lit (str "AT+CIPMUX=1" ++ crlf ++ [0])) s
    else if setup_stage s =? AT_START_SERVER then
      let s := CDC_Transmit_FS
                 (lit (str "Sending AT start server command" ++ crlf)) 33 s in
      let s := HAL_Delay 10 s in
      Send_Command (lit (str "AT+CIPSERVER=1,80" ++ crlf ++ [0])) s
    else if setup_stage s =? AT_SEND_HTML_HEADER then
      let s := CDC_Transmit_FS (lit (str "Sending HTML Header" ++ crlf)) 21 s in
      let s := HAL_Delay 10 s in
      Send_HTML_Header s
    else if setup_stage s =? AT_SEND_HTML then
      let s := CDC_Transmit_FS (lit (str "Sending HTML" ++ crlf)) 14 s in
      let s := HAL_Delay 10 s in
      Send_Command html_page2 s
    else
      let s := CDC_Transmit_FS
                 (lit (str "That Setup Stage not implemented yet" ++ crlf)) 38 s in
      HAL_Delay 10 s in
  HAL_Delay 10 s.

Definition Send_Connect_Request (ssid password : list Z) (s : State) : State :=
  let cmd := snprintf 128 (str "AT+CWJAP=" ++ dq ++ c_str ssid ++ dq ++ str ","
                           ++ dq ++ c_str password ++ dq ++ crlf) in
  Send_Command cmd s.

(** [strncpy(dst, src, n)] into a zeroed array, read back as a C
    string.  This is what the C does as long as [n] is less than the
    size of [dst]; from there on the call leaves [dst] without its
    terminator or writes past its end, which is undefined and which the
    model does not follow ([Handle_Client_Request_defined] below says
    where the calls of the source stay within their arrays). *)
Definition strncpy (src : list Z) (n : nat) : list Z := lit (take n (c_str src)).

(** The memory from the result of [strstr(mem, needle)] plus [off]
    onwards.  For a null result the C adds [off] to a null pointer and
    reads from there, which is undefined; the model gives the empty
    string then, and [Handle_Client_Request_defined] below excludes the
    case. *)
Definition after (mem needle : list Z) (off : nat) : list Z :=
  match strstr mem needle with
  | Some pos => drop (pos + off) mem
  | None => []
  end.

Definition Handle_Client_Request (s : State) : State :=
  if found (rx_buffer s) (str "GET /?ssid=") then
    let ssid_start := after (rx_buffer s) (str "ssid=") 5 in
    let password_start := after (rx_buffer s) (str "password=") 9 in
    let ssid :=
      match strstr ssid_start (str "&") with
      | Some end_ssid => strncpy ssid_start end_ssid
      | None => strncpy ssid_start 31
      end in
    let password :=
      match strstr password_start (str " ") with
      | Some end_password => strncpy password_start end_password
      | None => strncpy password_start 63
      end in
    let debug_msg := snprintf 128 (str "SSID: " ++ c_str ssid ++ str ", Password: "
                                   ++ c_str password ++ crlf) in
    let s := CDC_Transmit_FS debug_msg (strlen debug_msg) s in
    let s := HAL_Delay 10 s in
    let s := CDC_Transmit_FS
               (lit (str "Sending Connect to WiFi with SSID Command" ++ crlf)) 43 s in
    let s := HAL_Delay 10 s in
    let s := Clear_RX_Buffer s in
    Send_Connect_Request ssid password s
  else s.

(** Where the C of [Handle_Client_Request] is defined, and the
    definition above is what it does: both anchors are found, so that
    neither offset is added to a null pointer, and a name that ends at
    its delimiter leaves room for the terminator in its array (at most
    31 characters in [ssid[32]], at most 63 in [password[64]]).
    Without the delimiter [strncpy] is bounded by the size of the array
    less one, and the call is defined. *)
Definition Handle_Client_Request_defined (s : State) : bool :=
  if found (rx_buffer s) (str "GET /?ssid=") then
    match strstr (rx_buffer s) (str "ssid="), strstr (rx_buffer s) (str "password=") with
    | Some _, Some _ =>
        let ssid_start := after (rx_buffer s) (str "ssid=") 5 in
        let password_start := after (rx_buffer s) (str "password=") 9 in
        match strstr ssid_start (str "&") with
        | Some end_ssid => (end_ssid <=? 31)%nat
        | None => true
        end
        && match strstr password_start (str " ") with
           | Some end_password => (end_password <=? 63)%nat
           | None => true
           end
    | _, _ => false
    end
  else true.

Definition Log_Response_Status_Change (s : State) : State :=
  let s :=
    if response_status s =? TIMEOUT then
      CDC_Transmit_FS (lit (str "Response status changed to: TIMEOUT" ++ crlf ++ crlf)) 39 s
    else if response_status s =? SUCCESS then
      CDC_Transmit_FS (lit (str "Response status changed to: SUCCESS" ++ crlf)) 37 s
    else if response_status s =? ERROR then
      CDC_Transmit_FS (lit (str "Response status changed to: ERROR" ++ crlf)) 35 s
    else if response_status s =? WAITING then
      CDC_Transmit_FS (lit (str "Response status changed to: WAITING" ++ crlf)) 37 s
    else if response_status s =? IDLE then
      CDC_Transmit_FS (lit (str "Response status changed to: IDLE" ++ crlf ++ crlf)) 36 s
    else s in
  HAL_Delay 10 s.

Definition Has_Response_Finished (s : State) : Z * State :=
  let s :=
    if has_response_changed s =? 1 then
      let s := Log_Response_Status_Change s in
      set_has_response_changed 0 s
    else s in
  if (response_status s >=? TIMEOUT) && (response_status s <? WAITING)
  then (1, s) else (0, s).

Definition Log_Setup_Stage_Change (s : State) : State :=
  let s :=
    if setup_stage s =? AT_TEST then
      CDC_Transmit_FS (lit (str "Setup stage changed to: AT_TEST" ++ crlf)) 33 s
    else if setup_stage s =? AT_SET_CONNECT_MODE then
      CDC_Transmit_FS (lit (str "Setup stage changed to: AT_SET_CONNECT_MODE" ++ crlf)) 45 s
    else if response_status s =? AT_SET_MAX_CONNECTIONS then
      CDC_Transmit_FS (lit (str "Setup stage changed to: AT_SET_MAX_CONNECTIONS" ++ crlf)) 48 s
    else if response_status s =? AT_START_SERVER then
      CDC_Transmit_FS (lit (str "Setup stage changed to: AT_START_SERVER" ++ crlf)) 41 s
    else if response_status s =? AT_SEND_HTML_HEADER then
      CDC_Transmit_FS (lit (str "Setup stage changed to: AT_SEND_HTML_HEADER" ++ crlf)) 45 s
    else if response_status s =? AT_SEND_HTML then
      CDC_Transmit_FS (lit (str "Setup stage changed to: AT_SEND_HTML" ++ crlf)) 38 s
    else if response_status s =? AT_SEND_CONNECT_REQUEST then
      CDC_Transmit_FS (lit (str "Setup stage changed to: AT_SEND_CONNECT_REQUEST" ++ crlf)) 49 s
    else s in
  HAL_Delay 10 s.

Definition Set_Setup_Stage (new_stage : Z) (s : State) : State :=
  if (new_stage <? 0) || (new_stage >? 6) then
    let s := CDC_Transmit_FS (lit (str "new_stage is invalid..." ++ crlf)) 25 s in
    HAL_Delay 10 s
  else
    let s := set_setup_stage new_stage s in
    Log_Setup_Stage_Change s.

Definition Log_Uart_Response (s : State) : State :=
  let s := CDC_Transmit_FS (lit (str "===ESP_RESPONSE===" ++ crlf)) 20 s in
  let s := HAL_Delay 10 s in
  let s := CDC_Transmit_FS (rx_buffer s) (strlen (rx_buffer s)) s in
  let s := HAL_Delay 10 s in
  let s := CDC_Transmit_FS (lit (str "===ESP_RESPONSE_END===" ++ crlf)) 24 s in
  HAL_Delay 10 s.

Definition Handle_Response (s : State) : State :=
  let s :=
    if (response_status s =? SUCCESS) || (response_status s =? ERROR) then s
    else CDC_Transmit_FS (lit (str "=ESP_RESPONSE: TIMEOUT..." ++ crlf)) 27 s in
  let s := HAL_Delay 10 s in
  if negb (response_status s =? SUCCESS) then
    let s := Clear_RX_Buffer s in
    Change_Response_Status IDLE s
  else
    let s :=
      if setup_stage s =? AT_TEST then Set_Setup_Stage AT_SET_CONNECT_MODE s
      else if setup_stage s =? AT_SET_CONNECT_MODE then Set_Setup_Stage AT_SET_MAX_CONNECTIONS s
      else if setup_stage s =? AT_SET_MAX_CONNECTIONS then Set_Setup_Stage AT_START_SERVER s
      else if setup_stage s =? AT_START_SERVER then Set_Setup_Stage AT_SEND_HTML_HEADER s
      else if setup_stage s =? AT_SEND_HTML_HEADER then Set_Setup_Stage AT_SEND_HTML s
      else if setup_stage s =? AT_SEND_HTML then Set_Setup_Stage AT_SEND_HTML_HEADER s
      else
        let s := CDC_Transmit_FS
                   (lit (str "RESPONSE_NOT_IMPLEMENTED: Unknown Setup Stage" ++ crlf)) 47 s in
        HAL_Delay 10 s in
    let s := Clear_RX_Buffer s in
    Change_Response_Status IDLE s.

Definition Log_Client_Status_Change (s : State) : State :=
  if was_client_connected s =? is_client_connected s then s
  else
    let s := set_was_client_connected (is_client_connected s) s in
    let s :=
      if negb (is_client_connected s =? 0) then
        CDC_Transmit_FS (lit (str "HTTP: Client Connected" ++ crlf)) 24 s
      else
        CDC_Transmit_FS (lit (str "HTTP: Client Disconnected" ++ crlf)) 27 s in
    HAL_Delay 10 s.

Definition Log_Client_Request_Change (s : State) : State :=
  if was_client_requesting_page s =? is_client_requesting_page s then s
  else
    let s := set_was_client_requesting_page (is_client_requesting_page s) s in
    let s :=
      if negb (is_client_requesting_page s =? 0) then
        CDC_Transmit_FS (lit (str "HTTP: Client Started Requesting Page" ++ crlf)) 38 s
      else
        CDC_Transmit_FS (lit (str "HTTP: Client Stopped Requesting Page" ++ crlf)) 38 s in
    HAL_Delay 10 s.

(** The DEBUG block of [Check_Reception_Completion]. *)
Definition Check_Reception_Completion_log (s : State) : State :=
  let s := CDC_Transmit_FS (lit (str "===Data Reception Complete===" ++ crlf)) 31 s in
  let s := HAL_Delay 10 s in
  let debug_info := snprintf 50 (str "Buffer length: " ++ dec (strlen (rx_buffer s)) ++ crlf) in
  let s := CDC_Transmit_FS debug_info (strlen debug_info) s in
  let s := HAL_Delay 10 s in
  if strlen (rx_buffer s) >? 0 then
    let s := Log_Uart_Response s in
    HAL_Delay 10 s
  else
    let s := CDC_Transmit_FS (lit (str "<Empty Buffer>" ++ crlf)) 16 s in
    HAL_Delay 10 s.

(** The pattern matches of [Check_Reception_Completion], in the order
    of the source. *)
Definition Check_Reception_Completion_classify (s : State) : State :=
  let s :=
    if found (rx_buffer s) (str "GET /?ssid=") then Handle_Client_Request s else s in
  let s :=
    if found (rx_buffer s) (str "+STA_CONNECTED") then set_is_client_connected 1 s
    else if found (rx_buffer s) (str "+STA_DISCONNECTED") then set_is_client_connected 0 s
    else s in
  let s :=
    if found (rx_buffer s) (str "0,CONNECT") then set_is_client_requesting_page 1 s
    else if found (rx_buffer s) (str "0,CLOSED") then set_is_client_requesting_page 0 s
    else s in
  if found (rx_buffer s) (str "OK") then Change_Response_Status SUCCESS s
  else if found (rx_buffer s) (str "ERROR") then Change_Response_Status ERROR s
  else s.

Definition Check_Reception_Completion (s : State) : State :=
  if found (rx_buffer s) (crlf ++ crlf) then
    let s := set_receiving_data 0 s in
    let s := Check_Reception_Completion_log s in
    let s := Check_Reception_Completion_classify s in
    Clear_RX_Buffer s
  else s.


(** The call stays within defined C: the credential request it hands
    to [Handle_Client_Request], if any, is one the C is defined for. *)
Definition Check_Reception_Completion_defined (s : State) : bool :=
  if found (rx_buffer s) (crlf ++ crlf) then
    let s := set_receiving_data 0 s in
    let s := Check_Reception_Completion_log s in
    Handle_Client_Request_defined s
  else true.

(** ** Connection and send orchestration *)

(** The polling loop of [Establish_Connection]; one pass per tick.
    [fuel] bounds the passes and is never the reason the loop ends when
    it is at least the 5000 ticks the loop can last. *)
Fixpoint Establish_Connection_poll (fuel : nat) (start_time : Z) (s : State) : State :=
  if u32 (HAL_GetTick s - start_time) <? 5000 then
    if found (rx_buffer s) (str "CONNECT") then
      let s := CDC_Transmit_FS (lit (str "TCP connection established" ++ lf)) 26 s in
      let s := Change_Response_Status SUCCESS s in
      Clear_RX_Buffer s
    else if found (rx_buffer s) (str "ERROR") || found (rx_buffer s) (str "CLOSED") then
      let s := CDC_Transmit_FS (lit (str "TCP connection failed" ++ lf)) 23 s in
      let s := Change_Response_Status ERROR s in
      Clear_RX_Buffer s
    else
      match fuel with
      | S k => Establish_Connection_poll k start_time (tick_step s)
      | O => s
      end
  else
    let s := CDC_Transmit_FS (lit (str "Connection attempt timed out" ++ lf)) 29 s in
    let s := Change_Response_Status TIMEOUT s in
    Clear_RX_Buffer s.

Definition Establish_Connection (server_ip : list Z) (port : Z) (s : State) : State :=
  let s := Send_Command (lit (str "AT+CIPCLOSE=0" ++ crlf)) s in
  let s := HAL_Delay 100 s in
  let s := Clear_RX_Buffer s in
  let cmd := snprintf 128 (str "AT+CIPSTART=0," ++ dq ++ str "TCP" ++ dq ++ str ","
                           ++ dq ++ c_str server_ip ++ dq ++ str "," ++ dec port ++ crlf) in
  let s := Send_Command cmd s in
  let start_time := HAL_GetTick s in
  Establish_Connection_poll (Z.to_nat 5000) start_time s.

(** The inner loop of [Send_Data_To_Server] that waits for the prompt;
    the result tells whether [got_prompt] was set. *)
Fixpoint Send_Data_wait_prompt (fuel : nat) (start_time : Z) (s : State) : bool * State :=
  if u32 (HAL_GetTick s - start_time) <? 1000 then
    if found (rx_buffer s) (str ">") then
      let s := CDC_Transmit_FS (lit (str "Received '>' prompt" ++ lf)) 20 s in
      (true, HAL_Delay 50 s)
    else
      match fuel with
      | S k => Send_Data_wait_prompt k start_time (HAL_Delay 10 s)
      | O => (false, s)
      end
  else (false, s).

Definition MAX_RETRIES : Z := 3.

(** The outer retry loop, entered with [retries] and [start_time]. *)
Fixpoint Send_Data_handshake (fuel : nat) (retries start_time : Z) (cmd : list Z)
    (s : State) : bool * State :=
  if retries <? MAX_RETRIES then
    let '(got_prompt, s) := Send_Data_wait_prompt 100 start_time s in
    if got_prompt then (true, s)
    else
      let retries := u8 (retries + 1) in
      let '(start_time, s) :=
        if retries <? MAX_RETRIES then
          let s := CDC_Transmit_FS (lit (str "Retrying CIPSEND..." ++ lf)) 20 s in
          let s := Clear_RX_Buffer s in
          let s := Send_Command cmd s in
          let s := HAL_Delay 200 s in
          (HAL_GetTick s, s)
        else (start_time, s) in
      match fuel with
      | S k => Send_Data_handshake k retries start_time cmd s
      | O => (false, s)
      end
  else (false, s).

(** The loop that waits for the acknowledgment of the payload. *)
Fixpoint Send_Data_wait_send_ok (fuel : nat) (start_time : Z) (s : State) : bool * State :=
  if u32 (HAL_GetTick s - start_time) <? 2000 then
    if found (rx_buffer s) (str "SEND OK") then
      let s := CDC_Transmit_FS (lit (str "Data sent successfully" ++ lf)) 23 s in
      (true, set_server_last_send_time (HAL_GetTick s) s)
    else
      match fuel with
      | S k => Send_Data_wait_send_ok k start_time (HAL_Delay 10 s)
      | O => (false, s)
      end
  else (false, s).

Definition MIN_INTERVAL : Z := 500.

Definition Send_Data_To_Server (json_data : list Z) (s : State) : State :=
  let current_time := HAL_GetTick s in
  if u32 (current_time - server_last_send_time s) <? MIN_INTERVAL then s
  else
    let request :=
      snprintf 512 (str "POST /data HTTP/1.1" ++ crlf
                    ++ str "Host: 172.20.10.11" ++ crlf
                    ++ str "Content-Type: application/json" ++ crlf
                    ++ str "Content-Length: " ++ dec (strlen json_data) ++ crlf
                    ++ str "Connection: keep-alive" ++ crlf ++ crlf
                    ++ c_str json_data) in
    if strlen request >? 512 then
      CDC_Transmit_FS (lit (str "Data too large to send" ++ lf)) 23 s
    else
      let s := CDC_Transmit_FS (lit (str "Checking connection status..." ++ lf)) 29 s in
      let s := Send_Command (lit (str "AT+CIPSTATUS" ++ crlf)) s in
      let s := HAL_Delay 100 s in
      if found (rx_buffer s) (str "STATUS:4") || found (rx_buffer s) (str "STATUS:5") then
        let s := CDC_Transmit_FS (lit (str "Connection lost, reconnecting..." ++ lf)) 32 s in
        let s := Clear_RX_Buffer s in
        set_connection_established 0 s
      else
        let s := Clear_RX_Buffer s in
        let s := CDC_Transmit_FS (lit (str "Sending CIPSEND command..." ++ lf)) 27 s in
        let cmd := snprintf 128 (str "AT+CIPSEND=0," ++ dec (strlen request) ++ crlf) in
        let s := Send_Command cmd s in
        let s := HAL_Delay 200 s in
        let start_time := HAL_GetTick s in
        let '(got_prompt, s) := Send_Data_handshake 3 0 start_time cmd s in
        if negb got_prompt then
          let s := CDC_Transmit_FS (lit (str "Failed after max retries" ++ lf)) 25 s in
          let s := Clear_RX_Buffer s in
          set_connection_established 0 s
        else
          let s := Clear_RX_Buffer s in
          let s := CDC_Transmit_FS (lit (str "Sending data..." ++ lf)) 16 s in
          let s := HAL_UART_Transmit (c_str request) s in
          let start_time := HAL_GetTick s in
          let '(send_ok, s) := Send_Data_wait_send_ok 200 start_time s in
          let s :=
            if negb send_ok then
              let s := CDC_Transmit_FS (lit (str "Send timeout - Response:" ++ lf)) 25 s in
              CDC_Transmit_FS (rx_buffer s) (strlen (rx_buffer s)) s
            else s in
          Clear_RX_Buffer s.

Definition modes (mode : Z) : list Z :=
  if mode =? 0 then lit (str "None")
  else if mode =? 1 then lit (str "Binary UART")
  else if mode =? 2 then lit (str "ASCII UART")
  else if mode =? 3 then lit (str "Binary CDC")
  else lit (str "ASCII CDC").

Definition Indicate_Transmission_Mode (mode : Z) (s : State) : State :=
  let debug_msg := snprintf 50 (str "Mode changed to: " ++ c_str (modes mode) ++ lf) in
  CDC_Transmit_FS debug_msg (strlen debug_msg) s.

(** ** Sensor handlers and the foreground loop *)

Section Firmware.

(** Single precision arithmetic and [printf]'s [%.3f] are left to the C
    library: [scaled raw num] stands for [raw * (num.0f / 32768.0f)]. *)
Variable float : Type.
Variable scaled : Z -> Z -> float.
Variable printf_3f : float -> list Z.

Definition Convert_To_Gauss (raw_value : Z) : float := scaled raw_value 50.

Definition MIN_SEND_INTERVAL : Z := 100.

Definition Transmit_Data_ASCII (sensor_label : list Z) (x y z : float) (s : State) : State :=
  let ascii_buffer :=
    snprintf BUFFER_SIZE
      (str "{" ++ dq ++ c_str sensor_label ++ dq ++ str ":" ++ dec (packet_number s)
       ++ str "," ++ dq ++ str "X" ++ dq ++ str ":" ++ printf_3f x
       ++ str "," ++ dq ++ str "Y" ++ dq ++ str ":" ++ printf_3f y
       ++ str "," ++ dq ++ str "Z" ++ dq ++ str ":" ++ printf_3f z ++ str "}") in
  if transmission_mode s =? MODE_ASCII_UART then
    if negb (connection_established s =? 0) then
      let current_time := HAL_GetTick s in
      if u32 (current_time - ascii_last_send_time s) >=? MIN_SEND_INTERVAL then
        let s := Send_Data_To_Server ascii_buffer s in
        set_ascii_last_send_time current_time s
      else s
    else s
  else if transmission_mode s =? MODE_ASCII_CDC then
    CDC_Transmit_FS ascii_buffer (strlen ascii_buffer) s
  else s.

Definition Handle_Magnetometer (s : State) : State :=
  let s := set_data_ready_mag 0 s in
  let '(regs, s) := Beri_Registre 0x1E 0x68 6 s in
  let '(x0, y0, z0) := raw_of regs in
  let s := Clear_Interrupts s in
  let s :=
    if (transmission_mode s =? MODE_BINARY_UART) || (transmission_mode s =? MODE_BINARY_CDC) then
      let binary_buffer := Pack_Data HEADER_MAG x0 y0 z0 s in
      if transmission_mode s =? MODE_BINARY_UART then HAL_UART_Transmit binary_buffer s
      else CDC_Transmit_FS binary_buffer 10 s
    else if (transmission_mode s =? MODE_ASCII_UART) || (transmission_mode s =? MODE_ASCII_CDC) then
      let x := Convert_To_Gauss x0 in
      let y := Convert_To_Gauss y0 in
      let z := Convert_To_Gauss z0 in
      Transmit_Data_ASCII (lit (str "MAG")) x y z s
    else s in
  set_packet_number (u16 (packet_number s + 1)) s.

Definition Handle_Accelerometer (s : State) : State :=
  let s := set_data_ready_acc 0 s in
  let '(regs, s) := Beri_Registre 0x19 (Z.lor 0x28 0x80) 6 s in
  let '(x0, y0, z0) := raw_of regs in
  let s := Clear_Interrupts s in
  let s :=
    if (transmission_mode s =? MODE_BINARY_UART) || (transmission_mode s =? MODE_BINARY_CDC) then
      let binary_buffer := Pack_Data HEADER_ACC x0 y0 z0 s in
      if transmission_mode s =? MODE_BINARY_UART then HAL_UART_Transmit binary_buffer s
      else CDC_Transmit_FS binary_buffer 10 s
    else if (transmission_mode s =? MODE_ASCII_UART) || (transmission_mode s =? MODE_ASCII_CDC) then
      let x := scaled x0 4 in
      let y := scaled y0 4 in
      let z := scaled z0 4 in
      Transmit_Data_ASCII (lit (str "ACC")) x y z s
    else s in
  set_packet_number (u16 (packet_number s + 1)) s.

Definition Handle_Gyroscope (s : State) : State :=
  let s := set_data_ready_gyr 0 s in
  let '(regs, s) := spi1_beriRegistre (Z.lor 0x28 0x80) 6 s in
  let '(x0, y0, z0) := raw_of regs in
  let s := Clear_Interrupts s in
  let s :=
    if (transmission_mode s =? MODE_BINARY_UART) || (transmission_mode s =? MODE_BINARY_CDC) then
      let binary_buffer := Pack_Data HEADER_GYR x0 y0 z0 s in
      if transmission_mode s =? MODE_BINARY_UART then HAL_UART_Transmit binary_buffer s
      else CDC_Transmit_FS binary_buffer 10 s
    else if (transmission_mode s =? MODE_ASCII_UART) || (transmission_mode s =? MODE_ASCII_CDC) then
      let x := scaled x0 500 in
      let y := scaled y0 500 in
      let z := scaled z0 500 in
      Transmit_Data_ASCII (lit (str "GYR")) x y z s
    else s in
  set_packet_number (u16 (packet_number s + 1)) s.

(** The steps of one pass of [while (1)] in [main], in source order. *)

Definition main_check_timeout (s : State) : State :=
  if (Is_Timedout 5000 s =? 1) && (response_status s =? WAITING)
  then Change_Response_Status TIMEOUT s else s.

Definition main_send_request (s : State) : State :=
  if response_status s =? SEND_REQUEST then Configure_ESP_As_Access_Point s else s.

Definition main_button (s : State) : State :=
  if negb (button_action_pending s =? 0) then
    let s :=
      if button_action_type s =? 0 then Change_Response_Status SEND_REQUEST s
      else
        let s := set_transmission_mode (u8 ((transmission_mode s + 1) mod 5)) s in
        Indicate_Transmission_Mode (transmission_mode s) s in
    set_button_action_pending 0 s
  else s.

Definition main_connect (s : State) : State :=
  if (connection_established s =? 0) && (transmission_mode s =? MODE_ASCII_UART) then
    let s := CDC_Transmit_FS (lit (str "Attempting to connect..." ++ lf)) 25 s in
    let s := Establish_Connection (lit (str "172.20.10.11")) 5000 s in
    if response_status s =? SUCCESS then
      let s := CDC_Transmit_FS (lit (str "Connection successful!" ++ lf)) 24 s in
      set_connection_established 1 s
    else if (response_status s =? TIMEOUT) || (response_status s =? ERROR) then
      let s := CDC_Transmit_FS (lit (str "Connection failed, retrying..." ++ lf)) 31 s in
      HAL_Delay 1000 s
    else s
  else s.

Definition main_sensors (s : State) : State :=
  if negb (connection_established s =? 0) then
    let s := if negb (data_ready_mag s =? 0) then Handle_Magnetometer s else s in
    let s := if negb (data_ready_acc s =? 0) then Handle_Accelerometer s else s in
    if negb (data_ready_gyr s =? 0) then Handle_Gyroscope s else s
  else s.

Definition main_loop_body (s : State) : State :=
  let s := Log_Client_Status_Change s in
  let s := Log_Client_Request_Change s in
  let s := Check_Reception_Completion s in
  let '(finished, s) := Has_Response_Finished s in
  let s := if finished =? 1 then Handle_Response s else s in
  let s := main_check_timeout s in
  let s := main_send_request s in
  let s := main_button s in
  let s := main_connect s in
  main_sensors s.

(** The pass up to the connection step. *)
Definition main_before_connect (s : State) : State :=
  let s := Log_Client_Status_Change s in
  let s := Log_Client_Request_Change s in
  let s := Check_Reception_Completion s in
  let '(finished, s) := Has_Response_Finished s in
  let s := if finished =? 1 then Handle_Response s else s in
  let s := main_check_timeout s in
  let s := main_send_request s in
  main_button s.

(** The pass up to the sensor dispatch. *)
Definition main_front (s : State) : State :=
  let s := Log_Client_Status_Change s in
  let s := Log_Client_Request_Change s in
  let s := Check_Reception_Completion s in
  let '(finished, s) := Has_Response_Finished s in
  let s := if finished =? 1 then Handle_Response s else s in
  let s := main_check_timeout s in
  let s := main_send_request s in
  let s := main_button s in
  main_connect s.

(** [n] passes of the loop, a tick passing after each. *)
Fixpoint main_loop (n : nat) (s : State) : State :=
  match n with
  | O => s
  | S k => main_loop k (tick_step (main_loop_body s))
  end.

(** The pass stays within defined C. *)
Definition main_loop_body_defined (s : State) : bool :=
  let s := Log_Client_Status_Change s in
  let s := Log_Client_Request_Change s in
  Check_Reception_Completion_defined s.

(** So do the next [n] passes. *)
Fixpoint main_loop_defined (n : nat) (s : State) : bool :=
  match n with
  | O => true
  | S k => main_loop_body_defined s && main_loop_defined k (tick_step (main_loop_body s))
  end.

(** The connection step makes an attempt, and [Establish_Connection]
    ends it with Success. *)
Definition connection_succeeds (s : State) : bool :=
  if (connection_established s =? 0) && (transmission_mode s =? MODE_ASCII_UART) then
    let s := CDC_Transmit_FS (lit (str "Attempting to connect..." ++ lf)) 25 s in
    let s := Establish_Connection (lit (str "172.20.10.11")) 5000 s in
    response_status s =? SUCCESS
  else false.

(** In none of the next [n] passes does a connection attempt end with
    Success. *)
Fixpoint no_connection_success (n : nat) (s : State) : bool :=
  match n with
  | O => true
  | S k =>
      negb (connection_succeeds (main_before_connect s))
      && no_connection_success k (tick_step (main_loop_body s))
  end.

(** In none of the next [n] passes does the connection step leave
    [connection_established] set. *)
Fixpoint stays_unconnected (n : nat) (s : State) : bool :=
  match n with
  | O => true
  | S k =>
      (connection_established (main_front s) =? 0)
      && stays_unconnected k (tick_step (main_loop_body s))
  end.

End Firmware.

(** The state in which [main] enters its loop, at tick [t0], with the
    interrupts of the run to come. *)
Definition initial_state (t0 : Z) (future : list (list irq)) : State :=
  mkState
    (mkForeground 0 MODE_NONE AT_TEST IDLE 0 0 0 0 0 0 0 0 0 0 [])
    (mkShared 0 0 0 (replicate (Z.to_nat RX_BUFFER_SIZE) 0) 0 0 0 0 0)
    (mkHardware t0 (Some 0) false (0, 0, 0) (0, 0, 0) (0, 0, 0) future).

(** ** Notions the properties are stated with *)

(** Reading a packed frame back: five little-endian 16-bit fields, the
    last three signed. *)
Definition le16 (b0 b1 : Z) : Z := b0 + b1 * 256.

Definition int16_of (w : Z) : Z := if w <? 32768 then w else w - 65536.

Definition Unpack_Data (binary_buffer : list Z) : option (Z * Z * Z * Z * Z) :=
  match binary_buffer with
  | [b0; b1; b2; b3; b4; b5; b6; b7; b8; b9] =>
      Some (le16 b0 b1, le16 b2 b3,
            int16_of (le16 b4 b5), int16_of (le16 b6 b7), int16_of (le16 b8 b9))
  | _ => None
  end.

(** What happens to the receive buffer: the interrupt appends a byte,
    the foreground resets the buffer. *)
Inductive rx_op : Type :=
  | RxAppend (b : Z)
  | RxReset.

Definition rx_apply (s : State) (op : rx_op) : State :=
  match op with
  | RxAppend b => uart_receive b s
  | RxReset => Clear_RX_Buffer s
  end.

Definition rx_run (ops : list rx_op) (s : State) : State := foldl rx_apply s ops.

(** The successor table of the provisioning stages, as the [switch] of
    [Handle_Response] lays it out; a stage without a [case] stays. *)
Definition stage_after_success (stage : Z) : Z :=
  if stage =? AT_TEST then AT_SET_CONNECT_MODE
  else if stage =? AT_SET_CONNECT_MODE then AT_SET_MAX_CONNECTIONS
  else if stage =? AT_SET_MAX_CONNECTIONS then AT_START_SERVER
  else if stage =? AT_START_SERVER then AT_SEND_HTML_HEADER
  else if stage =? AT_SEND_HTML_HEADER then AT_SEND_HTML
  else if stage =? AT_SEND_HTML then AT_SEND_HTML_HEADER
  else stage.

(** The payloads sent to the modem, newest first. *)
Fixpoint uart_sent (evs : list event) : list (list Z) :=
  match evs with
  | [] => []
  | UartTx data :: rest => data :: uart_sent rest
  | _ :: rest => uart_sent rest
  end.

(** The events a step [f] adds to the trace of [s]. *)
Definition new_events (f : State -> State) (s : State) : list event :=
  take (length (out (f s)) - length (out s)) (out (f s)).

(** The sensor bus reads in a trace. *)
Fixpoint bus_reads (evs : list event) : list event :=
  match evs with
  | [] => []
  | I2cRead device reg len :: rest => I2cRead device reg len :: bus_reads rest
  | SpiRead reg len :: rest => SpiRead reg len :: bus_reads rest
  | _ :: rest => bus_reads rest
  end.

(** What the receive path keeps true: the index stays at most
    [RX_BUFFER_SIZE - 2], the array keeps its size, the byte after the
    index is the terminator, and the next byte goes to the index. *)
Definition rx_inv (s : State) : Prop :=
  0 <= rx_index s <= RX_BUFFER_SIZE - 2
  /\ length (rx_buffer s) = Z.to_nat RX_BUFFER_SIZE
  /\ rx_buffer s !! Z.to_nat (rx_index s + 1) = Some 0
  /\ rx_armed s = Some (rx_index s).

(** A step is calm when it handles no sample: the packet number, the
    sensor bus reads of the trace and the connection flag are those of
    the state [s0] it is compared with. *)
Definition calm (s0 s : State) : Prop :=
  packet_number s = packet_number s0
  /\ bus_reads (out s) = bus_reads (out s0)
  /\ connection_established s = connection_established s0.

(** A frame of the text protocol, as far as the firmware sends them to
    the modem: it starts with the A of an AT command or the P of the
    POST request.  The packed binary frames start with the low byte of
    their header, 0xAB, 0xBB or 0xCC. *)
Definition text_frame (data : list Z) : bool :=
  match data with
  | b :: _ => (b =? 65) || (b =? 80)
  | [] => false
  end.

Definition text_event (e : event) : Prop :=
  match e with
  | UartTx data => text_frame data = true
  | _ => True
  end.

(** From [s0] to [s] the trace has only grown, and by text frames as
    far as the modem is concerned. *)
Definition text_only (s0 s : State) : Prop :=
  exists l, out s = l ++ out s0 /\ Forall text_event l.

(** The packed frame of a sample held in a sensor's output registers. *)
Definition packet_of (header : Z) (regs : Z * Z * Z) (s : State) : list Z :=
  let '(x, y, z) := raw_of regs in Pack_Data header x y z s.

(** The values the foreground variables can take: the mode indexes the
    table of five mode names, the stage is one of the six the
    configuration step knows, the status is one of the six statuses,
    the packet number fits its 16 bits and the flags are 0 or 1. *)
Definition in_range (s : State) : Prop :=
  0 <= transmission_mode s <= 4
  /\ 0 <= setup_stage s <= 5
  /\ 0 <= response_status s <= 5
  /\ 0 <= packet_number s < 65536
  /\ 0 <= has_response_changed s <= 1
  /\ 0 <= connection_established s <= 1
  /\ 0 <= is_client_connected s <= 1
  /\ 0 <= was_client_connected s <= 1
  /\ 0 <= is_client_requesting_page s <= 1
  /\ 0 <= was_client_requesting_page s <= 1.

(** What a receiver reads from the packed frame of a sample: the
    header, the packet number at the time of the sample and the three
    axes as [int16_t]. *)
Definition sample_of (header : Z) (regs : Z * Z * Z) (s : State)
    : option (Z * Z * Z * Z * Z) :=
  let '(x, y, z) := raw_of regs in Some (header, packet_number s, x, y, z).

(** A command is outstanding: the status is Waiting with its change
    flagged. *)
Definition awaiting (s : State) : Prop :=
  response_status s = WAITING /\ has_response_changed s = 1.

(** From [s0] to [s] between [lo] and [hi] ticks have passed, however
    the elapsed time is measured: for every start tick [t0], the
    difference the firmware computes at [s] is the one at [s0] plus the
    ticks passed, modulo 2^32. *)
Definition took (lo hi : Z) (s0 s : State) : Prop :=
  exists d, lo <= d <= hi
    /\ forall t0, u32 (tick s - t0) = u32 (u32 (tick s0 - t0) + d).

(** From [s0] to [s] the trace has grown, and the frames sent to the
    modem in between are [frames], newest first. *)
Definition modem_got (frames : list (list Z)) (s0 s : State) : Prop :=
  exists l, out s = l ++ out s0 /\ uart_sent l = frames.

(** The request [Send_Data_To_Server] formats for a payload, and the
    command that announces it. *)
Definition Send_Data_request (json_data : list Z) : list Z :=
  snprintf 512 (str "POST /data HTTP/1.1" ++ crlf
                ++ str "Host: 172.20.10.11" ++ crlf
                ++ str "Content-Type: application/json" ++ crlf
                ++ str "Content-Length: " ++ dec (strlen json_data) ++ crlf
                ++ str "Connection: keep-alive" ++ crlf ++ crlf
                ++ c_str json_data).

Definition Send_Data_cipsend (request : list Z) : list Z :=
  snprintf 128 (str "AT+CIPSEND=0," ++ dec (strlen request) ++ crlf).

(** A packed sample as it goes out: ten bytes that begin with the two
    bytes of one of the three headers, low byte first. *)
Definition sensor_frame (data : list Z) : bool :=
  (length data =? 10)%nat
  && (is_prefix [0xAB; 0xAA] data || is_prefix [0xBB; 0xBB] data
      || is_prefix [0xCC; 0xCC] data).

(** What the firmware has for the modem: a command, the request to the
    server, the configuration page or a packed sample. *)
Definition modem_frame (data : list Z) : bool :=
  is_prefix (str "AT") data
  || is_prefix (str "POST /data HTTP/1.1") data
  || is_prefix (str "HTTP/1.1 200 OK") data
  || sensor_frame data.

(** Proofs reason about delays, literals and the zeroed buffer through
    lemmas, never by unfolding them. *)
Arguments HAL_Delay : simpl never.
Arguments elapse : simpl never.
Arguments tick_step : simpl never.
Arguments str : simpl never.
Arguments dec : simpl never.
Arguments snprintf : simpl never.
Arguments html_page2 : simpl never.
Arguments replicate : simpl never.
Arguments Z.to_nat : simpl never.

(** * Properties *)

Implicit Types s : State.

(** ** Interrupts and time leave the foreground's variables alone *)

Lemma fg_HAL_UART_Receive_IT pos s : fg (HAL_UART_Receive_IT pos s) = fg s.
Proof. unfold HAL_UART_Receive_IT. destruct (rx_armed s); reflexivity. Qed.

Lemma fg_HAL_UART_RxCpltCallback s : fg (HAL_UART_RxCpltCallback s) = fg s.
Proof.
  unfold HAL_UART_RxCpltCallback.
  destruct (rx_index s <? RX_BUFFER_SIZE - 2);
    cbv zeta; rewrite fg_HAL_UART_Receive_IT; reflexivity.
Qed.

Lemma fg_uart_receive b s : fg (uart_receive b s) = fg s.
Proof.
  unfold uart_receive. destruct (rx_armed s); [|reflexivity].
  cbv zeta. rewrite fg_HAL_UART_RxCpltCallback. reflexivity.
Qed.

Lemma fg_HAL_GPIO_EXTI_Callback pin s : fg (HAL_GPIO_EXTI_Callback pin s) = fg s.
Proof.
  unfold HAL_GPIO_EXTI_Callback.
  repeat match goal with
         | |- context [if ?c then _ else _] => destruct c
         end; reflexivity.
Qed.

Lemma fg_deliver i s : fg (deliver i s) = fg s.
Proof.
  destruct i; simpl;
    rewrite ?fg_uart_receive, ?fg_HAL_GPIO_EXTI_Callback; reflexivity.
Qed.

Lemma fg_foldl_deliver irqs : forall s,
  fg (foldl (fun s i => deliver i s) s irqs) = fg s.
Proof.
  induction irqs as [|i irqs IH]; intros s; simpl; [reflexivity|].
  rewrite IH. apply fg_deliver.
Qed.

Lemma fg_tick_step s : fg (tick_step s) = fg s.
Proof.
  unfold tick_step. cbv zeta.
  destruct (script (set_tick (u32 (tick s + 1)) s)); [reflexivity|].
  rewrite fg_foldl_deliver. reflexivity.
Qed.

Lemma fg_elapse n : forall s, fg (elapse n s) = fg s.
Proof.
  induction n as [|n IH]; intros s; [reflexivity|].
  change (elapse (S n) s) with (elapse n (tick_step s)).
  rewrite IH. apply fg_tick_step.
Qed.

Lemma fg_HAL_Delay ms s : fg (HAL_Delay ms s) = fg s.
Proof. apply fg_elapse. Qed.

(** ** Binary packing *)

Lemma le16_split v :
  le16 (Z.land v 0xFF) (Z.land (Z.shiftr v 8) 0xFF) = v mod 65536.
Proof.
  unfold le16.
  change 0xFF with (Z.ones 8).
  rewrite !Z.land_ones by lia.
  rewrite Z.shiftr_div_pow2 by lia.
  change (2 ^ 8) with 256.
  Z.div_mod_to_equations. lia.
Qed.

Lemma le16_unsigned v :
  0 <= v < 65536 -> le16 (Z.land v 0xFF) (Z.land (Z.shiftr v 8) 0xFF) = v.
Proof. intros H. rewrite le16_split. apply Z.mod_small; lia. Qed.

Lemma le16_signed v :
  -32768 <= v < 32768 ->
  int16_of (le16 (Z.land v 0xFF) (Z.land (Z.shiftr v 8) 0xFF)) = v.
Proof.
  intros H. rewrite le16_split. unfold int16_of.
  destruct (Z.ltb_spec (v mod 65536) 32768) as [Hlt|Hge];
    Z.div_mod_to_equations; lia.
Qed.

Lemma low_byte v : Z.land v 0xFF = v mod 256.
Proof. change 0xFF with (Z.ones 8). rewrite Z.land_ones by lia. reflexivity. Qed.

Lemma high_byte v : Z.land (Z.shiftr v 8) 0xFF = (v / 256) mod 256.
Proof.
  rewrite low_byte. rewrite Z.shiftr_div_pow2 by lia. reflexivity.
Qed.

(** C7. What [Pack_Data] writes is ten bytes, each within 0..255: for
    each of the five fields in turn the low byte and then the high
    byte, the axis values in two's complement.  Reading the ten bytes
    as five little-endian 16-bit fields gives back the header, the
    packet sequence number and the three signed axis values. *)
Theorem Pack_Data_roundtrip (header x y z : Z) (s : State) :
  0 <= header < 65536 ->
  0 <= packet_number s < 65536 ->
  -32768 <= x < 32768 ->
  -32768 <= y < 32768 ->
  -32768 <= z < 32768 ->
  Pack_Data header x y z s
  = [ header mod 256; (header / 256) mod 256;
      packet_number s mod 256; (packet_number s / 256) mod 256;
      x mod 256; (x / 256) mod 256;
      y mod 256; (y / 256) mod 256;
      z mod 256; (z / 256) mod 256 ]
  /\ length (Pack_Data header x y z s) = 10%nat
  /\ Forall (fun b => 0 <= b < 256) (Pack_Data header x y z s)
  /\ Unpack_Data (Pack_Data header x y z s) = Some (header, packet_number s, x, y, z).
Proof.
  intros Hh Hp Hx Hy Hz.
  assert (Hlayout : Pack_Data header x y z s
                    = [ header mod 256; (header / 256) mod 256;
                        packet_number s mod 256; (packet_number s / 256) mod 256;
                        x mod 256; (x / 256) mod 256;
                        y mod 256; (y / 256) mod 256;
                        z mod 256; (z / 256) mod 256 ]).
  { unfold Pack_Data. rewrite !high_byte, !low_byte. reflexivity. }
  split; [exact Hlayout|]. split; [reflexivity|]. split.
  - rewrite Hlayout.
    repeat (constructor; [apply Z.mod_pos_bound; lia|]). constructor.
  - unfold Pack_Data, Unpack_Data.
    rewrite (le16_unsigned header Hh), (le16_unsigned _ Hp).
    rewrite (le16_signed x Hx), (le16_signed y Hy), (le16_signed z Hz).
    reflexivity.
Qed.

Lemma Pack_Data_roundtrip_witness :
  let s := set_packet_number 65535 (initial_state 170 []) in
  Pack_Data HEADER_ACC 16384 0 (-16384) s = [187; 187; 255; 255; 0; 64; 0; 0; 0; 192]
  /\ Unpack_Data (Pack_Data HEADER_ACC 16384 0 (-16384) s)
     = Some (HEADER_ACC, 65535, 16384, 0, -16384).
Proof.
  intros s.
  destruct (Pack_Data_roundtrip HEADER_ACC 16384 0 (-16384) s) as (Hl & _ & _ & Hu);
    [unfold HEADER_ACC; simpl; lia ..|].
  split; [rewrite Hl; reflexivity | exact Hu].
Defined.

(** ** Validation of status and stage values *)

(** C6. A status outside 0..5 leaves [Change_Response_Status] without
    effect ([response_status] and [has_response_changed] keep their
    values, as does all the rest), and a stage outside 0..6 leaves
    [setup_stage] as it was in [Set_Setup_Stage], which does no more
    than report the value on the debug port. *)
Theorem out_of_range_values_rejected (new_status new_stage : Z) (s : State) :
  new_status < 0 \/ 5 < new_status ->
  new_stage < 0 \/ 6 < new_stage ->
  Change_Response_Status new_status s = s
  /\ response_status (Change_Response_Status new_status s) = response_status s
  /\ has_response_changed (Change_Response_Status new_status s) = has_response_changed s
  /\ setup_stage (Set_Setup_Stage new_stage s) = setup_stage s
  /\ fg (Set_Setup_Stage new_stage s)
     = fg (CDC_Transmit_FS (lit (str "new_stage is invalid..." ++ crlf)) 25 s).
Proof.
  intros Hstatus Hstage.
  assert (Hcrs : Change_Response_Status new_status s = s).
  { unfold Change_Response_Status.
    destruct (Z.ltb_spec new_status 0), (Z.gtb_spec new_status 5);
      simpl; try reflexivity; lia. }
  rewrite Hcrs. repeat split;
    unfold Set_Setup_Stage;
    destruct (Z.ltb_spec new_stage 0), (Z.gtb_spec new_stage 6);
    try lia; cbv beta iota zeta; simpl orb; cbv iota;
    rewrite fg_HAL_Delay; reflexivity.
Qed.

Lemma out_of_range_values_rejected_witness :
  let s := initial_state 170 [] in
  Change_Response_Status 6 s = s
  /\ response_status (Change_Response_Status 6 s) = response_status s
  /\ has_response_changed (Change_Response_Status 6 s) = has_response_changed s
  /\ setup_stage (Set_Setup_Stage 255 s) = setup_stage s.
Proof.
  intros s.
  destruct (out_of_range_values_rejected 6 255 s) as (H1 & H2 & H3 & H4 & _);
    [right; lia | right; lia |].
  repeat split; assumption.
Defined.

(** ** Proof kit: reading a variable after a chain of steps *)

(** Assignments to the interrupt-shared and hardware fields do not
    show in the foreground's variables. *)

Lemma fg_set_data_ready_mag v s : fg (set_data_ready_mag v s) = fg s.
Proof. reflexivity. Qed.
Lemma fg_set_data_ready_acc v s : fg (set_data_ready_acc v s) = fg s.
Proof. reflexivity. Qed.
Lemma fg_set_data_ready_gyr v s : fg (set_data_ready_gyr v s) = fg s.
Proof. reflexivity. Qed.
Lemma fg_set_rx_buffer v s : fg (set_rx_buffer v s) = fg s.
Proof. reflexivity. Qed.
Lemma fg_set_rx_index v s : fg (set_rx_index v s) = fg s.
Proof. reflexivity. Qed.
Lemma fg_set_button_press_start v s : fg (set_button_press_start v s) = fg s.
Proof. reflexivity. Qed.
Lemma fg_set_button_pressed v s : fg (set_button_pressed v s) = fg s.
Proof. reflexivity. Qed.
Lemma fg_set_button_action_pending v s : fg (set_button_action_pending v s) = fg s.
Proof. reflexivity. Qed.
Lemma fg_set_button_action_type v s : fg (set_button_action_type v s) = fg s.
Proof. reflexivity. Qed.
Lemma fg_set_tick v s : fg (set_tick v s) = fg s.
Proof. reflexivity. Qed.
Lemma fg_set_rx_armed v s : fg (set_rx_armed v s) = fg s.
Proof. reflexivity. Qed.
Lemma fg_set_button_pin v s : fg (set_button_pin v s) = fg s.
Proof. reflexivity. Qed.
Lemma fg_set_mag_regs v s : fg (set_mag_regs v s) = fg s.
Proof. reflexivity. Qed.
Lemma fg_set_acc_regs v s : fg (set_acc_regs v s) = fg s.
Proof. reflexivity. Qed.
Lemma fg_set_gyr_regs v s : fg (set_gyr_regs v s) = fg s.
Proof. reflexivity. Qed.
Lemma fg_set_script v s : fg (set_script v s) = fg s.
Proof. reflexivity. Qed.

Lemma fg_HAL_UART_AbortReceive_IT s : fg (HAL_UART_AbortReceive_IT s) = fg s.
Proof. reflexivity. Qed.

Create Rewrite HintDb fg.
#[global] Hint Rewrite fg_set_data_ready_mag fg_set_data_ready_acc
  fg_set_data_ready_gyr fg_set_rx_buffer fg_set_rx_index
  fg_set_button_press_start fg_set_button_pressed
  fg_set_button_action_pending fg_set_button_action_type fg_set_tick
  fg_set_rx_armed fg_set_button_pin fg_set_mag_regs fg_set_acc_regs
  fg_set_gyr_regs fg_set_script fg_HAL_UART_AbortReceive_IT fg_HAL_Delay
  fg_HAL_UART_Receive_IT fg_tick_step fg_elapse : fg.

(** A read of one foreground variable through an assignment to a
    foreground variable, or through a transmission: the equation is
    proved for an arbitrary state and then used by rewriting. *)
Ltac fg_peel :=
  match goal with
  | |- context [?P (fg (?f ?v ?W))] =>
      lazymatch f with
      | set_packet_number => idtac
      | set_transmission_mode => idtac
      | set_setup_stage => idtac
      | set_response_status => idtac
      | set_has_response_changed => idtac
      | set_tick_when_sent => idtac
      | set_is_client_connected => idtac
      | set_was_client_connected => idtac
      | set_is_client_requesting_page => idtac
      | set_was_client_requesting_page => idtac
      | set_connection_established => idtac
      | set_receiving_data => idtac
      | set_ascii_last_send_time => idtac
      | set_server_last_send_time => idtac
      | set_out => idtac
      | emit => idtac
      | HAL_UART_Transmit => idtac
      end;
      let H := fresh "H" in
      first
        [ assert (H : forall s : State, P (fg (f v s)) = P (fg s)) by reflexivity
        | assert (H : forall s : State, P (fg (f v s)) = v) by reflexivity
        | assert (H : forall s : State, P (fg (f v s)) = v :: P (fg s)) by reflexivity
        | assert (H : forall s : State, P (fg (f v s)) = UartTx v :: P (fg s))
            by reflexivity ];
      rewrite (H W); clear H
  | |- context [?P (fg (CDC_Transmit_FS ?buf ?len ?W))] =>
      let H := fresh "H" in
      first
        [ assert (H : forall s : State, P (fg (CDC_Transmit_FS buf len s)) = P (fg s))
            by reflexivity
        | assert (H : forall s : State,
                     P (fg (CDC_Transmit_FS buf len s))
                     = CdcTx (take (Z.to_nat len) buf) :: P (fg s)) by reflexivity ];
      rewrite (H W); clear H
  end.

Ltac fg_simpl := repeat first [ fg_peel | progress autorewrite with fg ].

(** Splits on the innermost test of the goal. *)
Ltac case_cond :=
  match goal with
  | |- context [if ?c then _ else _] =>
      lazymatch c with
      | context [if _ then _ else _] => fail
      | context [match _ with _ => _ end] => fail
      | _ => let E := fresh "E" in destruct c eqn:E
      end
  end.

Lemma Foreground_ext (f1 f2 : Foreground) :
  packet_number f1 = packet_number f2 ->
  transmission_mode f1 = transmission_mode f2 ->
  setup_stage f1 = setup_stage f2 ->
  response_status f1 = response_status f2 ->
  has_response_changed f1 = has_response_changed f2 ->
  tick_when_sent f1 = tick_when_sent f2 ->
  is_client_connected f1 = is_client_connected f2 ->
  was_client_connected f1 = was_client_connected f2 ->
  is_client_requesting_page f1 = is_client_requesting_page f2 ->
  was_client_requesting_page f1 = was_client_requesting_page f2 ->
  connection_established f1 = connection_established f2 ->
  receiving_data f1 = receiving_data f2 ->
  ascii_last_send_time f1 = ascii_last_send_time f2 ->
  server_last_send_time f1 = server_last_send_time f2 ->
  out f1 = out f2 ->
  f1 = f2.
Proof. destruct f1, f2; cbn; intros; subst; reflexivity. Qed.

Ltac fg_ext := apply Foreground_ext; fg_simpl; try reflexivity.

Lemma fg_Clear_RX_Buffer s : fg (Clear_RX_Buffer s) = fg s.
Proof. unfold Clear_RX_Buffer. cbv zeta. fg_simpl. reflexivity. Qed.

Lemma fg_Change_Response_Status_valid new_status s :
  0 <= new_status <= 5 ->
  fg (Change_Response_Status new_status s)
  = fg (set_response_status new_status (set_has_response_changed 1 s)).
Proof.
  intros H. unfold Change_Response_Status.
  destruct (Z.ltb_spec new_status 0), (Z.gtb_spec new_status 5); try lia.
  reflexivity.
Qed.

Lemma fg_Send_Command cmd s :
  fg (Send_Command cmd s)
  = fg (set_out (UartTx (c_str cmd) :: out s)
          (set_response_status WAITING
             (set_has_response_changed 1 (set_tick_when_sent (tick s) s)))).
Proof.
  unfold Send_Command. cbv zeta.
  fg_ext; rewrite fg_Change_Response_Status_valid by (unfold WAITING; lia);
    fg_simpl; rewrite ?fg_Clear_RX_Buffer; fg_simpl; try reflexivity.
Qed.

#[global] Hint Rewrite fg_Clear_RX_Buffer fg_Send_Command : fg.

Lemma setup_stage_Log_Setup_Stage_Change s :
  setup_stage (Log_Setup_Stage_Change s) = setup_stage s.
Proof.
  unfold Log_Setup_Stage_Change. cbv zeta. fg_simpl.
  repeat case_cond; fg_simpl; reflexivity.
Qed.

Lemma response_status_Log_Setup_Stage_Change s :
  response_status (Log_Setup_Stage_Change s) = response_status s.
Proof.
  unfold Log_Setup_Stage_Change. cbv zeta. fg_simpl.
  repeat case_cond; fg_simpl; reflexivity.
Qed.

Lemma setup_stage_Set_Setup_Stage new_stage s :
  0 <= new_stage <= 6 -> setup_stage (Set_Setup_Stage new_stage s) = new_stage.
Proof.
  intros H. unfold Set_Setup_Stage.
  destruct (Z.ltb_spec new_stage 0), (Z.gtb_spec new_stage 6); try lia.
  cbv beta iota zeta delta [orb].
  rewrite setup_stage_Log_Setup_Stage_Change. fg_simpl. reflexivity.
Qed.

Lemma response_status_Set_Setup_Stage new_stage s :
  response_status (Set_Setup_Stage new_stage s) = response_status s.
Proof.
  unfold Set_Setup_Stage. case_cond; cbv zeta.
  - fg_simpl. reflexivity.
  - rewrite response_status_Log_Setup_Stage_Change. fg_simpl. reflexivity.
Qed.

Lemma Handle_Response_status s : response_status (Handle_Response s) = IDLE.
Proof.
  unfold Handle_Response. cbv zeta.
  repeat case_cond;
    rewrite fg_Change_Response_Status_valid by (unfold IDLE; lia);
    fg_simpl; reflexivity.
Qed.

Lemma Handle_Response_success_stage s :
  response_status s = SUCCESS ->
  setup_stage (Handle_Response s) = stage_after_success (setup_stage s).
Proof.
  intros H. unfold Handle_Response. cbv zeta.
  fg_simpl. rewrite H.
  change ((SUCCESS =? SUCCESS) || (SUCCESS =? ERROR)) with true. cbv iota.
  fg_simpl. rewrite H.
  change (negb (SUCCESS =? SUCCESS)) with false. cbv iota.
  rewrite fg_Change_Response_Status_valid by (unfold IDLE; lia).
  fg_simpl. unfold stage_after_success.
  repeat case_cond;
    first [ apply setup_stage_Set_Setup_Stage; vm_compute; split; discriminate
          | fg_simpl; reflexivity ].
Qed.

Lemma Handle_Response_failure_stage s :
  response_status s <> SUCCESS ->
  setup_stage (Handle_Response s) = setup_stage s.
Proof.
  intros H. unfold Handle_Response. cbv zeta.
  assert (Hs : forall s', fg s' = fg s \/ fg s' = fg (set_out (out s') s) ->
                          negb (response_status (HAL_Delay 10 s') =? SUCCESS) = true).
  { intros s' Hs'. fg_simpl.
    destruct Hs' as [-> | ->]; fg_simpl;
      destruct (Z.eqb_spec (response_status s) SUCCESS); [contradiction|reflexivity
                                                         |contradiction|reflexivity]. }
  case_cond.
  - rewrite Hs by (left; reflexivity).
    rewrite fg_Change_Response_Status_valid by (unfold IDLE; lia).
    fg_simpl. reflexivity.
  - rewrite Hs by (right; fg_simpl; reflexivity).
    rewrite fg_Change_Response_Status_valid by (unfold IDLE; lia).
    fg_simpl. reflexivity.
Qed.

Lemma take_new (new old : list event) :
  take (length (new ++ old) - length old) (new ++ old) = new.
Proof.
  rewrite length_app.
  replace (length new + length old - length old)%nat with (length new) by lia.
  apply take_app_length.
Qed.

Lemma new_events_Configure_stage s1 s2 :
  setup_stage s1 = setup_stage s2 ->
  new_events Configure_ESP_As_Access_Point s1 = new_events Configure_ESP_As_Access_Point s2.
Proof.
  intros E. unfold new_events, Configure_ESP_As_Access_Point, Send_HTML_Header.
  cbv zeta. rewrite E.
  repeat case_cond; fg_simpl;
    repeat match goal with
           | |- context [take (length (?a :: ?b :: out ?s) - length (out ?s)) _] =>
               change (a :: b :: out s) with ([a; b] ++ out s); rewrite take_new
           | |- context [take (length (?a :: out ?s) - length (out ?s)) _] =>
               change (a :: out s) with ([a] ++ out s); rewrite take_new
           end; reflexivity.
Qed.

(** ** Stage progression *)

(** C1, as the code has it.  When the response is Success,
    [Handle_Response] moves the stage to its successor in the table:
    Test to SetMode, SetMode to SetMaxConnections, SetMaxConnections to
    StartServer, StartServer to SendHeader, SendHeader to SendBody and
    SendBody back to SendHeader; a stage without an entry stays.  The
    status goes back to Idle. *)
Theorem Handle_Response_success_advances s :
  response_status s = SUCCESS ->
  setup_stage (Handle_Response s) = stage_after_success (setup_stage s)
  /\ response_status (Handle_Response s) = IDLE
  /\ stage_after_success AT_TEST = AT_SET_CONNECT_MODE
  /\ stage_after_success AT_SET_CONNECT_MODE = AT_SET_MAX_CONNECTIONS
  /\ stage_after_success AT_SET_MAX_CONNECTIONS = AT_START_SERVER
  /\ stage_after_success AT_START_SERVER = AT_SEND_HTML_HEADER
  /\ stage_after_success AT_SEND_HTML_HEADER = AT_SEND_HTML
  /\ stage_after_success AT_SEND_HTML = AT_SEND_HTML_HEADER
  /\ stage_after_success AT_SEND_CONNECT_REQUEST = AT_SEND_CONNECT_REQUEST.
Proof.
  intros H. split; [apply Handle_Response_success_stage; exact H|].
  split; [apply Handle_Response_status|].
  repeat split.
Qed.

Lemma Handle_Response_success_advances_witness :
  let s := set_response_status SUCCESS (initial_state 170 []) in
  setup_stage (Handle_Response s) = AT_SET_CONNECT_MODE
  /\ response_status (Handle_Response s) = IDLE.
Proof.
  intros s.
  destruct (Handle_Response_success_advances s eq_refl) as (Hstage & Hstatus & _).
  split; [rewrite Hstage; reflexivity | exact Hstatus].
Defined.

(** C1 as stated fails: on Success neither of the two page stages
    loops back to itself; the header stage moves on to the body stage
    and the body stage moves back to the header stage. *)
Lemma header_stage_success_does_not_loop :
  let header := set_response_status SUCCESS
                  (set_setup_stage AT_SEND_HTML_HEADER (initial_state 170 [])) in
  let body := set_response_status SUCCESS
                (set_setup_stage AT_SEND_HTML (initial_state 170 [])) in
  setup_stage (Handle_Response header) = AT_SEND_HTML
  /\ setup_stage (Handle_Response header) <> setup_stage header
  /\ setup_stage (Handle_Response body) = AT_SEND_HTML_HEADER
  /\ setup_stage (Handle_Response body) <> setup_stage body.
Proof. vm_compute. repeat split; discriminate. Qed.

(** ** Failed sessions *)

(** C2. When the session ended with Error or Timeout, [Handle_Response]
    keeps the stage and sets the status to Idle; the send request that
    a short press raises next makes the loop call
    [Configure_ESP_As_Access_Point], which sends the modem what it sends
    for the stage the failed session was in. *)
Theorem Handle_Response_failure_holds_stage s :
  response_status s = ERROR \/ response_status s = TIMEOUT ->
  let s' := Handle_Response s in
  let s'' := Change_Response_Status SEND_REQUEST s' in
  setup_stage s' = setup_stage s
  /\ response_status s' = IDLE
  /\ main_send_request s'' = Configure_ESP_As_Access_Point s''
  /\ uart_sent (new_events Configure_ESP_As_Access_Point s'')
     = uart_sent (new_events Configure_ESP_As_Access_Point s).
Proof.
  intros H s' s''.
  assert (Hne : response_status s <> SUCCESS).
  { destruct H as [H | H]; rewrite H; discriminate. }
  assert (Hstage : setup_stage s' = setup_stage s)
    by (apply Handle_Response_failure_stage; exact Hne).
  split; [exact Hstage|]. split; [apply Handle_Response_status|].
  assert (Hfg : fg s'' = fg (set_response_status SEND_REQUEST
                               (set_has_response_changed 1 s')))
    by (apply fg_Change_Response_Status_valid; unfold SEND_REQUEST; lia).
  split.
  - unfold main_send_request. rewrite Hfg. fg_simpl. reflexivity.
  - f_equal. apply new_events_Configure_stage.
    rewrite Hfg. fg_simpl. exact Hstage.
Qed.

Lemma Handle_Response_failure_holds_stage_witness :
  let s := set_response_status TIMEOUT
             (set_setup_stage AT_SET_MAX_CONNECTIONS (initial_state 170 [])) in
  let s' := Handle_Response s in
  let s'' := Change_Response_Status SEND_REQUEST s' in
  setup_stage s' = AT_SET_MAX_CONNECTIONS
  /\ response_status s' = IDLE
  /\ uart_sent (new_events Configure_ESP_As_Access_Point s'')
     = [str "AT+CIPMUX=1" ++ crlf].
Proof.
  intros s s' s''.
  destruct (Handle_Response_failure_holds_stage s (or_intror eq_refl))
    as (Hstage & Hstatus & _ & Hsent).
  split; [exact Hstage|]. split; [exact Hstatus|].
  fold s' s'' in Hsent. rewrite Hsent. vm_compute. reflexivity.
Defined.

(** ** Timeout *)

(** C4, as the code has it.  With a command outstanding (status
    Waiting), the timeout check of the loop sets the status to Timeout
    when the ticks elapsed since the send exceed 5000, and leaves it
    Waiting while they are 5000 or fewer; the stage is not touched. *)
Theorem main_check_timeout_strict s :
  response_status s = WAITING ->
  setup_stage (main_check_timeout s) = setup_stage s
  /\ response_status (main_check_timeout s)
     = (if u32 (HAL_GetTick s - tick_when_sent s) >? 5000 then TIMEOUT else WAITING).
Proof.
  intros H. unfold main_check_timeout, Is_Timedout. cbv zeta.
  rewrite H.
  destruct (u32 (HAL_GetTick s - tick_when_sent s) >? 5000).
  - change ((1 =? 1) && (WAITING =? WAITING)) with true. cbv iota.
    rewrite fg_Change_Response_Status_valid by (unfold TIMEOUT; lia).
    fg_simpl. split; reflexivity.
  - change ((0 =? 1) && (WAITING =? WAITING)) with false. cbv iota.
    split; [reflexivity | exact H].
Qed.

Lemma main_check_timeout_strict_witness :
  let s := HAL_Delay 5001 (Send_Command (lit (str "AT" ++ crlf)) (initial_state 170 [])) in
  setup_stage (main_check_timeout s) = AT_TEST
  /\ response_status (main_check_timeout s) = TIMEOUT.
Proof.
  intros s.
  assert (Hw : response_status s = WAITING) by (vm_compute; reflexivity).
  destruct (main_check_timeout_strict s Hw) as [Hstage Hstatus].
  split.
  - rewrite Hstage. vm_compute. reflexivity.
  - rewrite Hstatus. vm_compute. reflexivity.
Defined.

(** C4 as stated fails: exactly 5000 ticks after the send the check
    does not time out yet. *)
Lemma timeout_not_reached_at_5000 :
  let s := HAL_Delay 5000 (Send_Command (lit (str "AT" ++ crlf)) (initial_state 170 [])) in
  u32 (HAL_GetTick s - tick_when_sent s) = 5000
  /\ response_status s = WAITING
  /\ response_status (main_check_timeout s) = WAITING
  /\ response_status (main_check_timeout s) <> TIMEOUT.
Proof. vm_compute. repeat split; discriminate. Qed.

(** ** Receive buffer *)

Lemma c_str_length_le (mem : list Z) : forall n : nat,
  mem !! n = Some 0 -> (length (c_str mem) <= n)%nat.
Proof.
  induction mem as [|b mem IH]; intros n H; [discriminate|].
  destruct n as [|n]; cbn in H |- *.
  - injection H as ->. cbn. lia.
  - destruct (b =? 0); cbn; [lia|]. specialize (IH n H). lia.
Qed.

Lemma rx_inv_initial t0 future : rx_inv (initial_state t0 future).
Proof.
  unfold rx_inv, initial_state, RX_BUFFER_SIZE. cbn.
  repeat split; try lia;
    first [ apply length_replicate | apply lookup_replicate_2; lia ].
Qed.

Lemma rx_inv_Clear_RX_Buffer s : rx_inv (Clear_RX_Buffer s).
Proof.
  unfold rx_inv, Clear_RX_Buffer, HAL_UART_Receive_IT, HAL_UART_AbortReceive_IT,
    RX_BUFFER_SIZE. cbn.
  repeat split; try lia;
    first [ apply length_replicate | apply lookup_replicate_2; lia ].
Qed.

Lemma rx_inv_uart_receive b s : rx_inv s -> rx_inv (uart_receive b s).
Proof.
  unfold rx_inv, RX_BUFFER_SIZE. intros (Hidx & Hlen & Hterm & Harmed).
  unfold uart_receive. rewrite Harmed. cbv zeta.
  unfold HAL_UART_RxCpltCallback, HAL_UART_Receive_IT, RX_BUFFER_SIZE. cbn.
  destruct (Z.ltb_spec (rx_index s) (2048 * 4 - 2)) as [Hlt|Hge]; cbn.
  - assert (Hu : u16 (rx_index s + 1) = rx_index s + 1)
      by (unfold u16; apply Z.mod_small; lia).
    rewrite Hu. rewrite !length_insert.
    repeat split; try lia.
    apply list_lookup_insert_eq. rewrite length_insert. lia.
  - rewrite !length_insert.
    repeat split; try lia.
    apply list_lookup_insert_eq. rewrite length_insert. lia.
Qed.

Lemma rx_inv_rx_run ops : forall s, rx_inv s -> rx_inv (rx_run ops s).
Proof.
  induction ops as [|op ops IH]; intros s H; [exact H|].
  apply IH. destruct op; [apply rx_inv_uart_receive; exact H | apply rx_inv_Clear_RX_Buffer].
Qed.

Lemma uart_receive_wraps b s :
  rx_inv s -> rx_index s = RX_BUFFER_SIZE - 2 ->
  rx_index (uart_receive b s) = 0
  /\ rx_buffer (uart_receive b s) !! 1%nat = Some 0.
Proof.
  unfold rx_inv, RX_BUFFER_SIZE. intros (Hidx & Hlen & Hterm & Harmed) Hfull.
  unfold uart_receive. rewrite Harmed. cbv zeta.
  unfold HAL_UART_RxCpltCallback, HAL_UART_Receive_IT, RX_BUFFER_SIZE. cbn.
  destruct (Z.ltb_spec (rx_index s) (2048 * 4 - 2)) as [Hlt|Hge]; [lia|]. cbn.
  split; [reflexivity|].
  apply list_lookup_insert_eq. rewrite length_insert. lia.
Qed.

(** C3. Whatever bytes arrive and whenever the foreground resets the
    buffer, the receive index stays at most [RX_BUFFER_SIZE - 2] and the
    byte after the index is NUL, so that the buffer holds a terminated
    string no longer than the index plus one; a byte that arrives with
    the index at [RX_BUFFER_SIZE - 2] sets the index to 0 and writes
    the terminator at position 1. *)
Theorem rx_index_bounded_and_terminated (ops : list rx_op) (t0 : Z)
    (future : list (list irq)) :
  let s := rx_run ops (initial_state t0 future) in
  0 <= rx_index s <= RX_BUFFER_SIZE - 2
  /\ rx_buffer s !! Z.to_nat (rx_index s + 1) = Some 0
  /\ strlen (rx_buffer s) <= rx_index s + 1
  /\ strlen (rx_buffer s) < Z.of_nat (length (rx_buffer s))
  /\ forall b, rx_index s = RX_BUFFER_SIZE - 2 ->
       rx_index (uart_receive b s) = 0
       /\ rx_buffer (uart_receive b s) !! 1%nat = Some 0.
Proof.
  intros s.
  assert (Hinv : rx_inv s) by (apply rx_inv_rx_run, rx_inv_initial).
  pose proof Hinv as (Hidx & Hlen & Hterm & Harmed).
  assert (Hstr : strlen (rx_buffer s) <= rx_index s + 1).
  { unfold strlen. pose proof (c_str_length_le _ _ Hterm). lia. }
  split; [exact Hidx|]. split; [exact Hterm|]. split; [exact Hstr|].
  split.
  - rewrite Hlen. unfold RX_BUFFER_SIZE in *. lia.
  - intros b Hfull. apply uart_receive_wraps; assumption.
Qed.

Lemma rx_index_bounded_and_terminated_witness :
  let ops := replicate (Z.to_nat (RX_BUFFER_SIZE - 2)) (RxAppend 65) in
  let s := rx_run ops (initial_state 170 []) in
  rx_index s = RX_BUFFER_SIZE - 2
  /\ rx_index (uart_receive 66 s) = 0
  /\ rx_buffer (uart_receive 66 s) !! 1%nat = Some 0.
Proof.
  intros ops s.
  destruct (rx_index_bounded_and_terminated ops 170 []) as (_ & _ & _ & _ & Hwrap).
  assert (Hfull : rx_index s = RX_BUFFER_SIZE - 2) by (vm_compute; reflexivity).
  split; [exact Hfull | apply Hwrap; exact Hfull].
Defined.

(** ** Reading the interrupt-shared variables after foreground steps *)

Lemma sh_Change_Response_Status new_status s :
  sh (Change_Response_Status new_status s) = sh s.
Proof. unfold Change_Response_Status. case_cond; reflexivity. Qed.

Lemma hw_Change_Response_Status new_status s :
  hw (Change_Response_Status new_status s) = hw s.
Proof. unfold Change_Response_Status. case_cond; reflexivity. Qed.

Lemma sh_CDC_Transmit_FS buf len s : sh (CDC_Transmit_FS buf len s) = sh s.
Proof. reflexivity. Qed.

Lemma hw_CDC_Transmit_FS buf len s : hw (CDC_Transmit_FS buf len s) = hw s.
Proof. reflexivity. Qed.

Lemma sh_HAL_UART_Transmit data s : sh (HAL_UART_Transmit data s) = sh s.
Proof. reflexivity. Qed.

Lemma hw_HAL_UART_Transmit data s : hw (HAL_UART_Transmit data s) = hw s.
Proof. reflexivity. Qed.

Create Rewrite HintDb sh.
#[global] Hint Rewrite sh_Change_Response_Status hw_Change_Response_Status
  sh_CDC_Transmit_FS hw_CDC_Transmit_FS sh_HAL_UART_Transmit hw_HAL_UART_Transmit : sh.

(** An assignment to a foreground variable does not show in the other
    two parts of the state. *)
Ltac sh_peel :=
  match goal with
  | |- context [?part (?f ?v ?W)] =>
      lazymatch part with
      | sh => idtac
      | hw => idtac
      end;
      lazymatch f with
      | set_packet_number => idtac
      | set_transmission_mode => idtac
      | set_setup_stage => idtac
      | set_response_status => idtac
      | set_has_response_changed => idtac
      | set_tick_when_sent => idtac
      | set_is_client_connected => idtac
      | set_was_client_connected => idtac
      | set_is_client_requesting_page => idtac
      | set_was_client_requesting_page => idtac
      | set_connection_established => idtac
      | set_receiving_data => idtac
      | set_ascii_last_send_time => idtac
      | set_server_last_send_time => idtac
      | set_out => idtac
      | emit => idtac
      end;
      let H := fresh "H" in
      assert (H : forall s : State, part (f v s) = part s) by reflexivity;
      rewrite (H W); clear H
  end.

Ltac sh_simpl := repeat first [ sh_peel | progress autorewrite with sh ].

(** ** Response classification *)

Lemma c_str_replicate_0 n : c_str (replicate n 0) = [].
Proof. destruct n; reflexivity. Qed.

Lemma found_replicate_0 n needle :
  needle <> [] -> found (replicate n 0) needle = false.
Proof.
  intros H. unfold found, strstr. rewrite c_str_replicate_0.
  destruct needle; [contradiction | reflexivity].
Qed.

Lemma rx_buffer_Send_Command cmd s :
  rx_buffer (Send_Command cmd s) = replicate (Z.to_nat RX_BUFFER_SIZE) 0.
Proof.
  unfold Send_Command, Clear_RX_Buffer, HAL_UART_Receive_IT, HAL_UART_AbortReceive_IT.
  cbn -[replicate Z.to_nat RX_BUFFER_SIZE]. sh_simpl. reflexivity.
Qed.









(** ** Pacing of the sends to the server *)

Lemma tick_Clear_RX_Buffer s : tick (Clear_RX_Buffer s) = tick s.
Proof. reflexivity. Qed.

Lemma tick_deliver i s : tick (deliver i s) = tick s.
Proof.
  destruct i; cbn [deliver].
  - unfold uart_receive. destruct (rx_armed s); [|reflexivity].
    cbv zeta. unfold HAL_UART_RxCpltCallback.
    case_cond; reflexivity.
  - unfold HAL_GPIO_EXTI_Callback. repeat case_cond; reflexivity.
  - unfold HAL_GPIO_EXTI_Callback. repeat case_cond; reflexivity.
  - unfold HAL_GPIO_EXTI_Callback. repeat case_cond; reflexivity.
  - unfold HAL_GPIO_EXTI_Callback. repeat case_cond; reflexivity.
Qed.

Lemma tick_foldl_deliver irqs : forall s,
  tick (foldl (fun s i => deliver i s) s irqs) = tick s.
Proof.
  induction irqs as [|i irqs IH]; intros s; [reflexivity|].
  cbn [foldl]. rewrite IH. apply tick_deliver.
Qed.

Lemma tick_tick_step s : tick (tick_step s) = u32 (tick s + 1).
Proof.
  unfold tick_step. cbv zeta.
  destruct (script (set_tick (u32 (tick s + 1)) s)); [reflexivity|].
  rewrite tick_foldl_deliver. reflexivity.
Qed.

Lemma u32_add_l a b : u32 (u32 a + b) = u32 (a + b).
Proof. unfold u32. apply Zplus_mod_idemp_l. Qed.

Lemma tick_elapse n : forall s,
  u32 (tick (elapse n s)) = u32 (tick s + Z.of_nat n).
Proof.
  induction n as [|n IH]; intros s.
  - change (elapse 0 s) with s. f_equal. lia.
  - change (elapse (S n) s) with (elapse n (tick_step s)).
    rewrite IH, tick_tick_step, u32_add_l. f_equal. lia.
Qed.

Lemma elapsed_after_elapse n s :
  u32 (tick (elapse n s) - tick s) = u32 (Z.of_nat n).
Proof.
  unfold u32. rewrite <- Zminus_mod_idemp_l.
  fold (u32 (tick (elapse n s))). rewrite tick_elapse. unfold u32.
  rewrite Zminus_mod_idemp_l. f_equal. lia.
Qed.

(** A call inside the interval is dropped: nothing is sent and nothing
    changes. *)
Lemma Send_Data_To_Server_dropped json_data s :
  u32 (HAL_GetTick s - server_last_send_time s) < MIN_INTERVAL ->
  Send_Data_To_Server json_data s = s.
Proof.
  intros H. unfold Send_Data_To_Server. cbv zeta.
  destruct (Z.ltb_spec (u32 (HAL_GetTick s - server_last_send_time s)) MIN_INTERVAL);
    [reflexivity | lia].
Qed.

Lemma last_send_time_wait_prompt fuel : forall start_time s,
  server_last_send_time (snd (Send_Data_wait_prompt fuel start_time s))
  = server_last_send_time s.
Proof.
  induction fuel as [|fuel IH]; intros start_time s; cbn [Send_Data_wait_prompt];
    repeat case_cond; cbv zeta; cbn [snd]; fg_simpl; try reflexivity.
  rewrite IH. fg_simpl. reflexivity.
Qed.

Lemma last_send_time_handshake fuel : forall retries start_time cmd s,
  server_last_send_time (snd (Send_Data_handshake fuel retries start_time cmd s))
  = server_last_send_time s.
Proof.
  induction fuel as [|fuel IH]; intros retries start_time cmd s;
    cbn [Send_Data_handshake];
    (destruct (retries <? MAX_RETRIES); [|reflexivity]);
    pose proof (last_send_time_wait_prompt 100 start_time s) as Hw;
    destruct (Send_Data_wait_prompt 100 start_time s) as [got_prompt s1];
    cbn [snd] in Hw;
    (destruct got_prompt; [exact Hw|]);
    cbv zeta;
    destruct (u8 (retries + 1) <? MAX_RETRIES); cbn [snd];
    rewrite ?IH; fg_simpl; exact Hw.
Qed.

Lemma last_send_time_wait_send_ok fuel : forall start_time s,
  let r := Send_Data_wait_send_ok fuel start_time s in
  (fst r = false -> server_last_send_time (snd r) = server_last_send_time s)
  /\ (fst r = true -> server_last_send_time (snd r) = tick (snd r)).
Proof.
  induction fuel as [|fuel IH]; intros start_time s; cbn [Send_Data_wait_send_ok];
    repeat case_cond; cbv zeta; cbn [fst snd];
    try (split; [discriminate | intros _; fg_simpl; reflexivity]);
    try (split; [reflexivity | discriminate]).
  destruct (IH start_time (HAL_Delay 10 s)) as [Hf Ht].
  split; [|exact Ht].
  intros Hfalse. rewrite (Hf Hfalse). fg_simpl. reflexivity.
Qed.

(** A call either leaves the time of the last acknowledged send as it
    was, or has just set it to the current tick. *)
Lemma Send_Data_To_Server_last_send_time json_data s :
  let s' := Send_Data_To_Server json_data s in
  server_last_send_time s' = server_last_send_time s
  \/ server_last_send_time s' = HAL_GetTick s'.
Proof.
  unfold Send_Data_To_Server. cbv zeta.
  case_cond; [left; reflexivity|].
  case_cond; [left; fg_simpl; reflexivity|].
  case_cond; [left; fg_simpl; reflexivity|].
  match goal with
  | |- context [Send_Data_handshake ?f ?r ?st ?c ?s0] =>
      pose proof (last_send_time_handshake f r st c s0) as Hh;
      destruct (Send_Data_handshake f r st c s0) as [got_prompt s2]
  end.
  cbn [snd] in Hh. revert Hh. fg_simpl. intros Hh.
  destruct got_prompt; cbn [negb]; [|left; fg_simpl; exact Hh].
  match goal with
  | |- context [Send_Data_wait_send_ok ?f ?st ?s0] =>
      destruct (last_send_time_wait_send_ok f st s0) as [Hf Ht];
      destruct (Send_Data_wait_send_ok f st s0) as [send_ok s3]
  end.
  cbn [fst snd] in Hf, Ht.
  destruct send_ok; cbn [negb].
  - right. unfold HAL_GetTick. rewrite tick_Clear_RX_Buffer. fg_simpl.
    apply Ht. reflexivity.
  - left. fg_simpl. rewrite (Hf eq_refl). fg_simpl. exact Hh.
Qed.

(** C5 as stated fails.  Two calls 100 ticks apart right after boot
    send nothing at all, since the interval also counts from tick 0;
    and when the first call ends on a lost connection, which records
    no send, a second call 200 ticks after the first is not dropped: it
    queries the modem again and sends its payload. *)
Lemma two_calls_within_interval_not_one_transmission :
  let json := lit (str "{}") in
  let boot := initial_state 100 [] in
  let future := replicate 49 [] ++ [List.map IrqRx (str "STATUS:4" ++ crlf)]
                ++ replicate 349 [] ++ [[IrqRx 62]] ++ replicate 199 []
                ++ [List.map IrqRx (str "SEND OK" ++ crlf)] in
  let s0 := initial_state 1000 future in
  let s1 := Send_Data_To_Server json s0 in
  let s2 := elapse 100 s1 in
  out (Send_Data_To_Server json (elapse 100 (Send_Data_To_Server json boot))) = []
  /\ HAL_GetTick s2 - HAL_GetTick s0 = 200
  /\ uart_sent (new_events (Send_Data_To_Server json) s0)
     = [str "AT+CIPSTATUS" ++ crlf]
  /\ Send_Data_To_Server json s2 <> s2
  /\ length (uart_sent (new_events (Send_Data_To_Server json) s2)) = 3%nat.
Proof.
  intros json boot future s0 s1 s2.
  split; [vm_compute; reflexivity|].
  split; [vm_compute; reflexivity|].
  split; [vm_compute; reflexivity|].
  split.
  - intros H. apply (f_equal (fun s => length (out s))) in H.
    vm_compute in H. discriminate.
  - vm_compute. reflexivity.
Qed.

(** ** The polling loops end by their deadline, not by their fuel *)

Lemma elapsed_step n s start_time :
  u32 (tick (elapse n s) - start_time) = u32 (u32 (tick s - start_time) + Z.of_nat n).
Proof.
  unfold u32. rewrite <- Zminus_mod_idemp_l.
  fold (u32 (tick (elapse n s))). rewrite tick_elapse. unfold u32.
  rewrite Zminus_mod_idemp_l, Zplus_mod_idemp_l. f_equal. lia.
Qed.

Lemma elapsed_tick_step s start_time :
  u32 (tick (tick_step s) - start_time) = u32 (u32 (tick s - start_time) + 1).
Proof. apply (elapsed_step 1 s start_time). Qed.

Lemma u32_range x : 0 <= u32 x < 4294967296.
Proof. unfold u32. apply Z.mod_pos_bound. lia. Qed.

Lemma Establish_Connection_poll_eq fuel start_time s :
  Establish_Connection_poll fuel start_time s
  = if u32 (HAL_GetTick s - start_time) <? 5000 then
      if found (rx_buffer s) (str "CONNECT") then
        Clear_RX_Buffer
          (Change_Response_Status SUCCESS
             (CDC_Transmit_FS (lit (str "TCP connection established" ++ lf)) 26 s))
      else if found (rx_buffer s) (str "ERROR") || found (rx_buffer s) (str "CLOSED") then
        Clear_RX_Buffer
          (Change_Response_Status ERROR
             (CDC_Transmit_FS (lit (str "TCP connection failed" ++ lf)) 23 s))
      else
        match fuel with
        | S k => Establish_Connection_poll k start_time (tick_step s)
        | O => s
        end
    else
      Clear_RX_Buffer
        (Change_Response_Status TIMEOUT
           (CDC_Transmit_FS (lit (str "Connection attempt timed out" ++ lf)) 29 s)).
Proof. destruct fuel; reflexivity. Qed.

(** With the fuel covering the ticks left until the deadline, more fuel
    changes nothing: the loop of the model ends where the loop of the
    source ends. *)
Lemma Establish_Connection_poll_fuel fuel : forall start_time s,
  5000 <= u32 (HAL_GetTick s - start_time) + Z.of_nat fuel ->
  Establish_Connection_poll (S fuel) start_time s
  = Establish_Connection_poll fuel start_time s.
Proof.
  induction fuel as [|fuel IH]; intros start_time s H.
  - rewrite (Establish_Connection_poll_eq 1 start_time s),
      (Establish_Connection_poll_eq 0 start_time s).
    destruct (Z.ltb_spec (u32 (HAL_GetTick s - start_time)) 5000) as [Hlt|Hge];
      [cbn in H; lia | reflexivity].
  - rewrite (Establish_Connection_poll_eq (S (S fuel)) start_time s),
      (Establish_Connection_poll_eq (S fuel) start_time s).
    destruct (Z.ltb_spec (u32 (HAL_GetTick s - start_time)) 5000) as [Hlt|Hge];
      [|reflexivity].
    repeat case_cond; try reflexivity.
    apply IH. unfold HAL_GetTick in *. rewrite elapsed_tick_step.
    pose proof (u32_range (tick s - start_time)).
    unfold u32 at 1. rewrite Z.mod_small; lia.
Qed.

Lemma Establish_Connection_enough_fuel extra s :
  Establish_Connection_poll (Z.to_nat 5000 + extra) (HAL_GetTick s) s
  = Establish_Connection_poll (Z.to_nat 5000) (HAL_GetTick s) s.
Proof.
  induction extra as [|extra IH]; [f_equal; lia|].
  replace (Z.to_nat 5000 + S extra)%nat with (S (Z.to_nat 5000 + extra)) by lia.
  rewrite Establish_Connection_poll_fuel; [exact IH|].
  pose proof (u32_range (HAL_GetTick s - HAL_GetTick s)). lia.
Qed.

Lemma elapsed_HAL_Delay ms s start_time :
  0 <= ms ->
  u32 (tick (HAL_Delay ms s) - start_time) = u32 (u32 (tick s - start_time) + ms).
Proof.
  intros H. unfold HAL_Delay. rewrite elapsed_step. f_equal. lia.
Qed.

Lemma Send_Data_wait_prompt_eq fuel start_time s :
  Send_Data_wait_prompt fuel start_time s
  = if u32 (HAL_GetTick s - start_time) <? 1000 then
      if found (rx_buffer s) (str ">") then
        (true, HAL_Delay 50 (CDC_Transmit_FS (lit (str "Received '>' prompt" ++ lf)) 20 s))
      else
        match fuel with
        | S k => Send_Data_wait_prompt k start_time (HAL_Delay 10 s)
        | O => (false, s)
        end
    else (false, s).
Proof. destruct fuel; reflexivity. Qed.

Lemma Send_Data_wait_prompt_fuel fuel : forall start_time s,
  1000 <= u32 (HAL_GetTick s - start_time) + 10 * Z.of_nat fuel ->
  Send_Data_wait_prompt (S fuel) start_time s = Send_Data_wait_prompt fuel start_time s.
Proof.
  induction fuel as [|fuel IH]; intros start_time s H.
  - rewrite (Send_Data_wait_prompt_eq 1 start_time s),
      (Send_Data_wait_prompt_eq 0 start_time s).
    destruct (Z.ltb_spec (u32 (HAL_GetTick s - start_time)) 1000) as [Hlt|Hge];
      [cbn in H; lia | reflexivity].
  - rewrite (Send_Data_wait_prompt_eq (S (S fuel)) start_time s),
      (Send_Data_wait_prompt_eq (S fuel) start_time s).
    destruct (Z.ltb_spec (u32 (HAL_GetTick s - start_time)) 1000) as [Hlt|Hge];
      [|reflexivity].
    case_cond; [reflexivity|].
    apply IH. unfold HAL_GetTick in *. rewrite elapsed_HAL_Delay by lia.
    pose proof (u32_range (tick s - start_time)).
    unfold u32 at 1. rewrite Z.mod_small; lia.
Qed.

Lemma Send_Data_wait_send_ok_eq fuel start_time s :
  Send_Data_wait_send_ok fuel start_time s
  = if u32 (HAL_GetTick s - start_time) <? 2000 then
      if found (rx_buffer s) (str "SEND OK") then
        let s := CDC_Transmit_FS (lit (str "Data sent successfully" ++ lf)) 23 s in
        (true, set_server_last_send_time (HAL_GetTick s) s)
      else
        match fuel with
        | S k => Send_Data_wait_send_ok k start_time (HAL_Delay 10 s)
        | O => (false, s)
        end
    else (false, s).
Proof. destruct fuel; reflexivity. Qed.

Lemma Send_Data_wait_send_ok_fuel fuel : forall start_time s,
  2000 <= u32 (HAL_GetTick s - start_time) + 10 * Z.of_nat fuel ->
  Send_Data_wait_send_ok (S fuel) start_time s = Send_Data_wait_send_ok fuel start_time s.
Proof.
  induction fuel as [|fuel IH]; intros start_time s H.
  - rewrite (Send_Data_wait_send_ok_eq 1 start_time s),
      (Send_Data_wait_send_ok_eq 0 start_time s).
    destruct (Z.ltb_spec (u32 (HAL_GetTick s - start_time)) 2000) as [Hlt|Hge];
      [cbn in H; lia | reflexivity].
  - rewrite (Send_Data_wait_send_ok_eq (S (S fuel)) start_time s),
      (Send_Data_wait_send_ok_eq (S fuel) start_time s).
    destruct (Z.ltb_spec (u32 (HAL_GetTick s - start_time)) 2000) as [Hlt|Hge];
      [|reflexivity].
    case_cond; [reflexivity|].
    apply IH. unfold HAL_GetTick in *. rewrite elapsed_HAL_Delay by lia.
    pose proof (u32_range (tick s - start_time)).
    unfold u32 at 1. rewrite Z.mod_small; lia.
Qed.

Lemma Send_Data_handshake_eq fuel retries start_time cmd s :
  Send_Data_handshake fuel retries start_time cmd s
  = if retries <? MAX_RETRIES then
      let '(got_prompt, s) := Send_Data_wait_prompt 100 start_time s in
      if got_prompt then (true, s)
      else
        let retries := u8 (retries + 1) in
        let '(start_time, s) :=
          if retries <? MAX_RETRIES then
            let s := CDC_Transmit_FS (lit (str "Retrying CIPSEND..." ++ lf)) 20 s in
            let s := Clear_RX_Buffer s in
            let s := Send_Command cmd s in
            let s := HAL_Delay 200 s in
            (HAL_GetTick s, s)
          else (start_time, s) in
        match fuel with
        | S k => Send_Data_handshake k retries start_time cmd s
        | O => (false, s)
        end
    else (false, s).
Proof. destruct fuel; reflexivity. Qed.

Lemma Send_Data_handshake_fuel fuel : forall retries start_time cmd s,
  0 <= retries ->
  MAX_RETRIES <= retries + Z.of_nat fuel ->
  Send_Data_handshake (S fuel) retries start_time cmd s
  = Send_Data_handshake fuel retries start_time cmd s.
Proof.
  unfold MAX_RETRIES.
  induction fuel as [|fuel IH]; intros retries start_time cmd s H0 H.
  - rewrite (Send_Data_handshake_eq 1 retries start_time cmd s),
      (Send_Data_handshake_eq 0 retries start_time cmd s).
    unfold MAX_RETRIES.
    destruct (Z.ltb_spec retries 3) as [Hlt|Hge]; [cbn in H; lia | reflexivity].
  - rewrite (Send_Data_handshake_eq (S (S fuel)) retries start_time cmd s),
      (Send_Data_handshake_eq (S fuel) retries start_time cmd s).
    unfold MAX_RETRIES.
    destruct (Z.ltb_spec retries 3) as [Hlt|Hge]; [|reflexivity].
    destruct (Send_Data_wait_prompt 100 start_time s) as [got_prompt s1].
    destruct got_prompt; [reflexivity|].
    cbv zeta.
    assert (Hu : u8 (retries + 1) = retries + 1)
      by (unfold u8; apply Z.mod_small; lia).
    rewrite Hu.
    destruct (retries + 1 <? 3); apply IH; lia.
Qed.

Lemma Send_Data_wait_prompt_enough_fuel extra s :
  Send_Data_wait_prompt (100 + extra) (HAL_GetTick s) s
  = Send_Data_wait_prompt 100 (HAL_GetTick s) s.
Proof.
  induction extra as [|extra IH]; [f_equal; lia|].
  replace (100 + S extra)%nat with (S (100 + extra)) by lia.
  rewrite Send_Data_wait_prompt_fuel; [exact IH|].
  pose proof (u32_range (HAL_GetTick s - HAL_GetTick s)). lia.
Qed.

Lemma Send_Data_wait_send_ok_enough_fuel extra s :
  Send_Data_wait_send_ok (200 + extra) (HAL_GetTick s) s
  = Send_Data_wait_send_ok 200 (HAL_GetTick s) s.
Proof.
  induction extra as [|extra IH]; [f_equal; lia|].
  replace (200 + S extra)%nat with (S (200 + extra)) by lia.
  rewrite Send_Data_wait_send_ok_fuel; [exact IH|].
  pose proof (u32_range (HAL_GetTick s - HAL_GetTick s)). lia.
Qed.

Lemma Send_Data_handshake_enough_fuel extra start_time cmd s :
  Send_Data_handshake (3 + extra) 0 start_time cmd s
  = Send_Data_handshake 3 0 start_time cmd s.
Proof.
  induction extra as [|extra IH]; [f_equal; lia|].
  replace (3 + S extra)%nat with (S (3 + extra)) by lia.
  rewrite Send_Data_handshake_fuel; [exact IH | lia | unfold MAX_RETRIES; lia].
Qed.

(** ** No sample is handled before the first connection *)

Lemma calm_refl s : calm s s.
Proof. repeat split. Qed.

Lemma calm_view s0 s s' :
  packet_number s' = packet_number s ->
  out s' = out s ->
  connection_established s' = connection_established s ->
  calm s0 s -> calm s0 s'.
Proof. unfold calm. intros -> -> ->. trivial. Qed.

Lemma calm_fg s0 s s' : fg s' = fg s -> calm s0 s -> calm s0 s'.
Proof. unfold calm. intros ->. trivial. Qed.

Lemma calm_HAL_Delay ms s0 s : calm s0 s -> calm s0 (HAL_Delay ms s).
Proof. apply calm_fg, fg_HAL_Delay. Qed.

Lemma calm_tick_step s0 s : calm s0 s -> calm s0 (tick_step s).
Proof. apply calm_fg, fg_tick_step. Qed.

Lemma calm_Clear_RX_Buffer s0 s : calm s0 s -> calm s0 (Clear_RX_Buffer s).
Proof. apply calm_fg, fg_Clear_RX_Buffer. Qed.

Lemma calm_CDC_Transmit_FS buf len s0 s :
  calm s0 s -> calm s0 (CDC_Transmit_FS buf len s).
Proof. unfold calm. fg_simpl. trivial. Qed.

Lemma calm_HAL_UART_Transmit data s0 s :
  calm s0 s -> calm s0 (HAL_UART_Transmit data s).
Proof. unfold calm. fg_simpl. trivial. Qed.

Lemma calm_Send_Command cmd s0 s : calm s0 s -> calm s0 (Send_Command cmd s).
Proof. unfold calm. fg_simpl. trivial. Qed.

Lemma calm_elim s0 s :
  calm s0 s ->
  packet_number s = packet_number s0
  /\ bus_reads (out s) = bus_reads (out s0)
  /\ connection_established s = connection_established s0.
Proof. trivial. Qed.

Lemma calm_trans s0 s1 s2 : calm s0 s1 -> calm s1 s2 -> calm s0 s2.
Proof.
  unfold calm. intros (H1 & H2 & H3) (H4 & H5 & H6).
  repeat split; congruence.
Qed.

(** From here on delays, resets, commands and calmness are used
    through their lemmas only. *)
#[global] Opaque HAL_Delay elapse tick_step Clear_RX_Buffer Send_Command calm.

(** Assignments to the other variables are calm. *)
Ltac calm_assign :=
  match goal with
  | |- calm ?s0 (?f ?v ?W) =>
      lazymatch f with
      | set_transmission_mode => idtac
      | set_setup_stage => idtac
      | set_response_status => idtac
      | set_has_response_changed => idtac
      | set_tick_when_sent => idtac
      | set_is_client_connected => idtac
      | set_was_client_connected => idtac
      | set_is_client_requesting_page => idtac
      | set_was_client_requesting_page => idtac
      | set_receiving_data => idtac
      | set_ascii_last_send_time => idtac
      | set_server_last_send_time => idtac
      | set_data_ready_mag => idtac
      | set_data_ready_acc => idtac
      | set_data_ready_gyr => idtac
      | set_rx_buffer => idtac
      | set_rx_index => idtac
      | set_button_press_start => idtac
      | set_button_pressed => idtac
      | set_button_action_pending => idtac
      | set_button_action_type => idtac
      | set_tick => idtac
      | set_rx_armed => idtac
      | set_button_pin => idtac
      | set_mag_regs => idtac
      | set_acc_regs => idtac
      | set_gyr_regs => idtac
      | set_script => idtac
      end;
      apply (calm_view s0 W);
      [ fg_simpl; reflexivity | fg_simpl; reflexivity | fg_simpl; reflexivity | ]
  end.

Lemma calm_Change_Response_Status new_status s0 s :
  calm s0 s -> calm s0 (Change_Response_Status new_status s).
Proof.
  intros H. unfold Change_Response_Status. case_cond; [exact H|].
  cbv zeta. calm_assign. calm_assign. exact H.
Qed.

#[global] Opaque Change_Response_Status.

(** One step of a calm proof: an assumption, a case split on the test
    that decides the state, or a step known to be calm. *)
Ltac calm_step :=
  cbv zeta;
  lazymatch goal with
  | |- calm _ (if ?c then _ else _) => destruct c
  | |- calm _ (match ?c with Some _ => _ | None => _ end) => destruct c
  | |- calm _ (HAL_Delay _ _) => apply calm_HAL_Delay
  | |- calm _ (tick_step _) => apply calm_tick_step
  | |- calm _ (Clear_RX_Buffer _) => apply calm_Clear_RX_Buffer
  | |- calm _ (CDC_Transmit_FS _ _ _) => apply calm_CDC_Transmit_FS
  | |- calm _ (HAL_UART_Transmit _ _) => apply calm_HAL_UART_Transmit
  | |- calm _ (Send_Command _ _) => apply calm_Send_Command
  | |- calm _ (Change_Response_Status _ _) => apply calm_Change_Response_Status
  | |- calm _ _ => first [ assumption | calm_assign ]
  end.

Ltac calm_auto := repeat calm_step.

Lemma calm_Log_Client_Status_Change s0 s :
  calm s0 s -> calm s0 (Log_Client_Status_Change s).
Proof. intros H. unfold Log_Client_Status_Change. calm_auto. Qed.

Lemma calm_Log_Client_Request_Change s0 s :
  calm s0 s -> calm s0 (Log_Client_Request_Change s).
Proof. intros H. unfold Log_Client_Request_Change. calm_auto. Qed.

Lemma calm_Log_Uart_Response s0 s : calm s0 s -> calm s0 (Log_Uart_Response s).
Proof. intros H. unfold Log_Uart_Response. calm_auto. Qed.

Lemma calm_Check_Reception_Completion_log s0 s :
  calm s0 s -> calm s0 (Check_Reception_Completion_log s).
Proof.
  intros H. unfold Check_Reception_Completion_log. cbv zeta.
  case_cond; calm_auto; apply calm_Log_Uart_Response; calm_auto.
Qed.

Lemma calm_Handle_Client_Request s0 s :
  calm s0 s -> calm s0 (Handle_Client_Request s).
Proof.
  intros H. unfold Handle_Client_Request, Send_Connect_Request. calm_auto.
Qed.

Lemma calm_Check_Reception_Completion_classify s0 s :
  calm s0 s -> calm s0 (Check_Reception_Completion_classify s).
Proof.
  intros H. unfold Check_Reception_Completion_classify.
  repeat first [ calm_step | apply calm_Handle_Client_Request ].
Qed.

Lemma calm_Check_Reception_Completion s0 s :
  calm s0 s -> calm s0 (Check_Reception_Completion s).
Proof.
  intros H. unfold Check_Reception_Completion.
  repeat first [ apply calm_Check_Reception_Completion_classify
               | apply calm_Check_Reception_Completion_log | calm_step ].
Qed.

Lemma calm_Log_Response_Status_Change s0 s :
  calm s0 s -> calm s0 (Log_Response_Status_Change s).
Proof. intros H. unfold Log_Response_Status_Change. calm_auto. Qed.

Lemma calm_Has_Response_Finished s0 s :
  calm s0 s -> calm s0 (snd (Has_Response_Finished s)).
Proof.
  intros H. unfold Has_Response_Finished. cbv zeta.
  repeat case_cond; cbn [snd];
    repeat first [ apply calm_Log_Response_Status_Change | calm_step ].
Qed.

Lemma calm_Log_Setup_Stage_Change s0 s :
  calm s0 s -> calm s0 (Log_Setup_Stage_Change s).
Proof. intros H. unfold Log_Setup_Stage_Change. calm_auto. Qed.

Lemma calm_Set_Setup_Stage new_stage s0 s :
  calm s0 s -> calm s0 (Set_Setup_Stage new_stage s).
Proof.
  intros H. unfold Set_Setup_Stage.
  repeat first [ apply calm_Log_Setup_Stage_Change | calm_step ].
Qed.

Lemma calm_Handle_Response s0 s : calm s0 s -> calm s0 (Handle_Response s).
Proof.
  intros H. unfold Handle_Response.
  repeat first [ apply calm_Set_Setup_Stage | calm_step ].
Qed.

Lemma calm_main_check_timeout s0 s : calm s0 s -> calm s0 (main_check_timeout s).
Proof. intros H. unfold main_check_timeout. calm_auto. Qed.

Lemma calm_Configure_ESP_As_Access_Point s0 s :
  calm s0 s -> calm s0 (Configure_ESP_As_Access_Point s).
Proof.
  intros H. unfold Configure_ESP_As_Access_Point, Send_HTML_Header. calm_auto.
Qed.

Lemma calm_main_send_request s0 s : calm s0 s -> calm s0 (main_send_request s).
Proof.
  intros H. unfold main_send_request.
  repeat first [ apply calm_Configure_ESP_As_Access_Point | calm_step ].
Qed.

Lemma calm_main_button s0 s : calm s0 s -> calm s0 (main_button s).
Proof.
  intros H. unfold main_button, Indicate_Transmission_Mode. calm_auto.
Qed.

Lemma calm_Establish_Connection_poll fuel : forall start_time s0 s,
  calm s0 s -> calm s0 (Establish_Connection_poll fuel start_time s).
Proof.
  induction fuel as [|fuel IH]; intros start_time s0 s H;
    cbn [Establish_Connection_poll];
    repeat first [ apply IH | calm_step ].
Qed.

Lemma calm_Establish_Connection server_ip port s0 s :
  calm s0 s -> calm s0 (Establish_Connection server_ip port s).
Proof.
  intros H. unfold Establish_Connection.
  repeat first [ apply calm_Establish_Connection_poll | calm_step ].
Qed.

(** The connection step is calm unless it sets the flag, which it does
    only from the remote text mode. *)
Lemma main_connect_cases s0 s :
  calm s0 s ->
  calm s0 (main_connect s)
  \/ (transmission_mode s = MODE_ASCII_UART
      /\ connection_established (main_connect s) = 1).
Proof.
  intros H. unfold main_connect.
  destruct (connection_established s =? 0); cbn [andb]; [|left; exact H].
  destruct (Z.eqb_spec (transmission_mode s) MODE_ASCII_UART) as [Hmode|_];
    [|left; exact H].
  cbv zeta. case_cond.
  - right. split; [exact Hmode|]. fg_simpl. reflexivity.
  - left. repeat first [ apply calm_Establish_Connection | calm_step ].
Qed.

Lemma main_front_unconnected s :
  connection_established (main_front s) = 0 -> calm s (main_front s).
Proof.
  unfold main_front. cbv zeta.
  pose proof (calm_Has_Response_Finished s
                (Check_Reception_Completion
                   (Log_Client_Request_Change (Log_Client_Status_Change s)))) as Hf.
  destruct (Has_Response_Finished
              (Check_Reception_Completion
                 (Log_Client_Request_Change (Log_Client_Status_Change s))))
    as [finished s1].
  cbn [snd] in Hf.
  assert (H1 : calm s s1).
  { apply Hf, calm_Check_Reception_Completion, calm_Log_Client_Request_Change,
      calm_Log_Client_Status_Change, calm_refl. }
  clear Hf. intros Hconn.
  match goal with
  | |- calm _ (main_connect ?x) =>
      assert (Hx : calm s x);
      [ apply calm_main_button, calm_main_send_request, calm_main_check_timeout;
        destruct (finished =? 1); [apply calm_Handle_Response|]; exact H1
      | destruct (main_connect_cases s x Hx) as [Hc | [_ Hc]];
        [ exact Hc | rewrite Hc in Hconn; discriminate ] ]
  end.
Qed.

Lemma main_front_before_connect s : main_front s = main_connect (main_before_connect s).
Proof.
  unfold main_front, main_before_connect. cbv zeta.
  destruct (Has_Response_Finished
              (Check_Reception_Completion
                 (Log_Client_Request_Change (Log_Client_Status_Change s)))).
  reflexivity.
Qed.

Lemma calm_main_before_connect s : calm s (main_before_connect s).
Proof.
  unfold main_before_connect. cbv zeta.
  pose proof (calm_Has_Response_Finished s
                (Check_Reception_Completion
                   (Log_Client_Request_Change (Log_Client_Status_Change s)))) as Hf.
  destruct (Has_Response_Finished
              (Check_Reception_Completion
                 (Log_Client_Request_Change (Log_Client_Status_Change s))))
    as [finished s1].
  cbn [snd] in Hf.
  assert (H1 : calm s s1).
  { apply Hf, calm_Check_Reception_Completion, calm_Log_Client_Request_Change,
      calm_Log_Client_Status_Change, calm_refl. }
  apply calm_main_button, calm_main_send_request, calm_main_check_timeout.
  destruct (finished =? 1); [apply calm_Handle_Response|]; exact H1.
Qed.

(** From a state without a connection, the connection step sets the
    flag when it makes an attempt that [Establish_Connection] ends with
    Success, and leaves it clear in every other case. *)
Lemma main_connect_flag s :
  connection_established s = 0 ->
  connection_established (main_connect s) = if connection_succeeds s then 1 else 0.
Proof.
  intros H0. unfold main_connect, connection_succeeds. rewrite H0.
  change (0 =? 0) with true. cbn [andb].
  destruct (transmission_mode s =? MODE_ASCII_UART); cbv iota zeta; [|exact H0].
  assert (Hc : calm s (Establish_Connection (lit (str "172.20.10.11")) 5000
                         (CDC_Transmit_FS (lit (str "Attempting to connect..." ++ lf)) 25 s))).
  { apply calm_Establish_Connection, calm_CDC_Transmit_FS, calm_refl. }
  apply calm_elim in Hc. destruct Hc as (_ & _ & Hc). rewrite H0 in Hc.
  revert Hc.
  generalize (Establish_Connection (lit (str "172.20.10.11")) 5000
                (CDC_Transmit_FS (lit (str "Attempting to connect..." ++ lf)) 25 s)).
  intros s1 Hc.
  destruct (response_status s1 =? SUCCESS); [fg_simpl; reflexivity|].
  destruct ((response_status s1 =? TIMEOUT) || (response_status s1 =? ERROR));
    [fg_simpl|]; exact Hc.
Qed.

Section BeforeConnection.

Variable float : Type.
Variable scaled : Z -> Z -> float.
Variable printf_3f : float -> list Z.

Local Abbreviation body := (main_loop_body float scaled printf_3f).
Local Abbreviation loop := (main_loop float scaled printf_3f).
Local Abbreviation sensors := (main_sensors float scaled printf_3f).

Lemma main_loop_body_split s : body s = sensors (main_front s).
Proof.
  unfold main_loop_body, main_front. cbv zeta.
  destruct (Has_Response_Finished
              (Check_Reception_Completion
                 (Log_Client_Request_Change (Log_Client_Status_Change s)))).
  reflexivity.
Qed.

Lemma main_sensors_unconnected s : connection_established s = 0 -> sensors s = s.
Proof. intros H. unfold main_sensors. rewrite H. reflexivity. Qed.

Lemma main_loop_body_unconnected s :
  connection_established (main_front s) = 0 ->
  body s = main_front s /\ calm s (body s).
Proof.
  intros H. rewrite main_loop_body_split, (main_sensors_unconnected _ H).
  split; [reflexivity | apply main_front_unconnected; exact H].
Qed.

Lemma stays_unconnected_calm n : forall s,
  stays_unconnected float scaled printf_3f n s = true -> calm s (loop n s).
Proof.
  induction n as [|n IH]; intros s H; [apply calm_refl|].
  cbn [stays_unconnected] in H. apply andb_prop in H as [Hfront Hrest].
  apply Z.eqb_eq in Hfront.
  destruct (main_loop_body_unconnected s Hfront) as [_ Hbody].
  change (loop (S n) s) with (loop n (tick_step (body s))).
  eapply calm_trans; [apply calm_tick_step; exact Hbody | apply IH; exact Hrest].
Qed.

Lemma main_connect_only_in_remote_text s :
  connection_established s = 0 ->
  connection_established (main_connect s) <> 0 ->
  transmission_mode s = MODE_ASCII_UART.
Proof.
  intros H0 H1. destruct (main_connect_cases s s (calm_refl s)) as [Hc | [Hm _]];
    [|exact Hm].
  apply calm_elim in Hc. destruct Hc as (_ & _ & Hc). congruence.
Qed.

Lemma no_connection_success_stays n : forall s,
  connection_established s = 0 ->
  no_connection_success float scaled printf_3f n s = true ->
  stays_unconnected float scaled printf_3f n s = true.
Proof.
  induction n as [|n IH]; intros s H0 H; [reflexivity|].
  cbn [no_connection_success] in H. apply andb_prop in H as [Hnow Hrest].
  apply negb_true_iff in Hnow.
  assert (Hb : connection_established (main_before_connect s) = 0).
  { pose proof (calm_main_before_connect s) as Hc. apply calm_elim in Hc.
    destruct Hc as (_ & _ & Hc). rewrite Hc. exact H0. }
  assert (Hfront : connection_established (main_front s) = 0).
  { rewrite main_front_before_connect, (main_connect_flag _ Hb), Hnow. reflexivity. }
  cbn [stays_unconnected]. apply andb_true_intro. split.
  - apply Z.eqb_eq. exact Hfront.
  - apply IH; [|exact Hrest].
    destruct (main_loop_body_unconnected s Hfront) as [E _].
    rewrite E. fg_simpl. exact Hfront.
Qed.

(** C9. The sensor dispatch of a pass does nothing while
    [connection_established] is clear, and from a state without a
    connection the connection step sets the flag in one case only: the
    mode is the remote text mode and the [Establish_Connection] it then
    calls ends with the status Success.  So as long as no connection
    attempt since boot has ended with Success, no sample has been
    handled, in whatever transmission mode: the flag is clear, the
    packet number is still 0 and the trace holds no sensor bus read.
    The run is one in which every credential request received is one
    the request handler is defined for. *)
Theorem no_sample_before_first_connection (n : nat) (t0 : Z)
    (future : list (list irq)) :
  no_connection_success float scaled printf_3f n (initial_state t0 future) = true ->
  main_loop_defined float scaled printf_3f n (initial_state t0 future) = true ->
  let s := loop n (initial_state t0 future) in
  let attempt := fun s' =>
    Establish_Connection (lit (str "172.20.10.11")) 5000
      (CDC_Transmit_FS (lit (str "Attempting to connect..." ++ lf)) 25 s') in
  connection_established s = 0
  /\ packet_number s = 0
  /\ bus_reads (out s) = []
  /\ (forall s', connection_established s' = 0 -> sensors s' = s')
  /\ (forall s', connection_established s' = 0 ->
        (connection_established (main_connect s') = 1
         /\ transmission_mode s' = MODE_ASCII_UART
         /\ response_status (attempt s') = SUCCESS)
        \/ (connection_established (main_connect s') = 0
            /\ (transmission_mode s' <> MODE_ASCII_UART
                \/ response_status (attempt s') <> SUCCESS))).
Proof.
  intros H _ s attempt.
  apply (no_connection_success_stays n (initial_state t0 future) eq_refl) in H.
  apply stays_unconnected_calm, calm_elim in H.
  destruct H as (Hpn & Hbus & Hconn).
  split; [exact Hconn|]. split; [exact Hpn|]. split; [exact Hbus|].
  split; [apply main_sensors_unconnected|].
  intros s' H0. rewrite (main_connect_flag s' H0).
  unfold connection_succeeds, attempt. rewrite H0. change (0 =? 0) with true. cbn [andb].
  destruct (Z.eqb_spec (transmission_mode s') MODE_ASCII_UART) as [Hm|Hm]; cbv iota zeta;
    [|right; split; [reflexivity | left; exact Hm]].
  match goal with
  | |- context [response_status ?x =? SUCCESS] =>
      destruct (Z.eqb_spec (response_status x) SUCCESS) as [Hs|Hs]
  end.
  - left. split; [reflexivity|]. split; [exact Hm | exact Hs].
  - right. split; [reflexivity | right; exact Hs].
Qed.

End BeforeConnection.

Lemma no_sample_before_first_connection_witness :
  let long_press := [[IrqButton true]] ++ replicate 599 [] ++ [[IrqButton false]] in
  let future := long_press ++ replicate 99 [] ++ long_press ++ replicate 699 []
                ++ long_press ++ replicate (Z.to_nat 5399) []
                ++ [[IrqAcc 16384 0 (-16384)]] in
  let s := main_loop Z Z.mul dec (Z.to_nat 2100) (initial_state 170 future) in
  transmission_mode s = MODE_BINARY_CDC
  /\ data_ready_acc s = 1
  /\ connection_established s = 0
  /\ packet_number s = 0
  /\ bus_reads (out s) = [].
Proof.
  intros long_press future s.
  assert (H : no_connection_success Z Z.mul dec (Z.to_nat 2100) (initial_state 170 future)
              = true) by (vm_compute; reflexivity).
  assert (Hd : main_loop_defined Z Z.mul dec (Z.to_nat 2100) (initial_state 170 future)
               = true) by (vm_compute; reflexivity).
  destruct (no_sample_before_first_connection Z Z.mul dec _ _ _ H Hd)
    as (Hconn & Hpn & Hbus & _).
  split; [vm_compute; reflexivity|]. split; [vm_compute; reflexivity|].
  split; [exact Hconn|]. split; [exact Hpn | exact Hbus].
Defined.

(** ** Where the binary packets go *)

Lemma text_only_refl s : text_only s s.
Proof. exists []. split; [reflexivity | constructor]. Qed.

Lemma text_only_out s0 s s' : out s' = out s -> text_only s0 s -> text_only s0 s'.
Proof. unfold text_only. intros ->. trivial. Qed.

Lemma text_only_emit e s0 s s' :
  out s' = e :: out s -> text_event e -> text_only s0 s -> text_only s0 s'.
Proof.
  intros Hout He (l & Hl & Hall). exists (e :: l). split.
  - rewrite Hout, Hl. reflexivity.
  - constructor; assumption.
Qed.

Lemma text_only_trans s0 s1 s2 : text_only s0 s1 -> text_only s1 s2 -> text_only s0 s2.
Proof.
  intros (l1 & H1 & A1) (l2 & H2 & A2). exists (l2 ++ l1). split.
  - rewrite H2, H1. apply app_assoc.
  - apply Forall_app. split; assumption.
Qed.

Lemma text_only_HAL_Delay ms s0 s : text_only s0 s -> text_only s0 (HAL_Delay ms s).
Proof. apply text_only_out. fg_simpl. reflexivity. Qed.

Lemma text_only_Clear_RX_Buffer s0 s : text_only s0 s -> text_only s0 (Clear_RX_Buffer s).
Proof. apply text_only_out. fg_simpl. reflexivity. Qed.

Lemma text_only_CDC_Transmit_FS buf len s0 s :
  text_only s0 s -> text_only s0 (CDC_Transmit_FS buf len s).
Proof. apply (text_only_emit (CdcTx (take (Z.to_nat len) buf))); [reflexivity | exact I]. Qed.

Lemma text_only_HAL_UART_Transmit data s0 s :
  text_frame data = true -> text_only s0 s -> text_only s0 (HAL_UART_Transmit data s).
Proof. intros H. apply (text_only_emit (UartTx data)); [reflexivity | exact H]. Qed.

Lemma text_only_Send_Command cmd s0 s :
  text_frame (c_str cmd) = true -> text_only s0 s -> text_only s0 (Send_Command cmd s).
Proof.
  intros H. apply (text_only_emit (UartTx (c_str cmd))); [|exact H].
  fg_simpl. reflexivity.
Qed.

Lemma text_only_emit_bus_read e s0 s :
  text_event e -> text_only s0 s -> text_only s0 (emit e s).
Proof. intros H. apply (text_only_emit e); [reflexivity | exact H]. Qed.

Lemma Forall_text_uart_sent l :
  Forall text_event l -> Forall (fun data => text_frame data = true) (uart_sent l).
Proof.
  induction 1 as [|e l He Hl IH]; cbn [uart_sent]; [constructor|].
  destruct e; try exact IH. constructor; [exact He | exact IH].
Qed.

Lemma text_only_new_events (f : State -> State) s :
  text_only s (f s) ->
  Forall (fun data => text_frame data = true) (uart_sent (new_events f s)).
Proof.
  intros (l & Hl & Hall). unfold new_events. rewrite Hl, take_new.
  apply Forall_text_uart_sent. exact Hall.
Qed.

Lemma new_events_app (f : State -> State) s l :
  out (f s) = l ++ out s -> new_events f s = l.
Proof. intros H. unfold new_events. rewrite H. apply take_new. Qed.

#[global] Opaque text_only.

(** Assignments do not touch the trace. *)
Ltac text_assign :=
  match goal with
  | |- text_only ?s0 (?f ?v ?W) =>
      lazymatch f with
      | set_connection_established => idtac
      | set_packet_number => idtac
      | set_ascii_last_send_time => idtac
      | set_server_last_send_time => idtac
      | set_data_ready_mag => idtac
      | set_data_ready_acc => idtac
      | set_data_ready_gyr => idtac
      end;
      apply (text_only_out s0 W); [ fg_simpl; reflexivity | ]
  end.

Ltac text_step :=
  cbv zeta;
  lazymatch goal with
  | |- text_only _ (if ?c then _ else _) => destruct c
  | |- text_only _ (HAL_Delay _ _) => apply text_only_HAL_Delay
  | |- text_only _ (Clear_RX_Buffer _) => apply text_only_Clear_RX_Buffer
  | |- text_only _ (CDC_Transmit_FS _ _ _) => apply text_only_CDC_Transmit_FS
  | |- text_only _ (HAL_UART_Transmit _ _) =>
      apply text_only_HAL_UART_Transmit; [reflexivity|]
  | |- text_only _ (Send_Command _ _) =>
      apply text_only_Send_Command; [first [assumption | reflexivity]|]
  | |- text_only _ (emit _ _) => apply text_only_emit_bus_read; [exact I|]
  | |- text_only _ _ => first [ assumption | text_assign ]
  end.

Ltac text_auto := repeat text_step.

Lemma text_only_wait_prompt fuel : forall start_time s0 s,
  text_only s0 s -> text_only s0 (snd (Send_Data_wait_prompt fuel start_time s)).
Proof.
  induction fuel as [|fuel IH]; intros start_time s0 s H;
    cbn [Send_Data_wait_prompt]; repeat case_cond; cbv zeta; cbn [snd];
    repeat first [ apply IH | text_step ].
Qed.

Lemma text_frame_snprintf size b rest :
  1 < size -> text_frame [b] = true ->
  text_frame (c_str (snprintf size (b :: rest))) = true.
Proof.
  intros Hsize Hb. unfold snprintf, lit.
  destruct (Z.to_nat (size - 1)) as [|n] eqn:E; [lia|].
  cbn [take app c_str]. cbn [text_frame] in Hb.
  destruct (b =? 0) eqn:E0.
  - apply Z.eqb_eq in E0. subst b. discriminate Hb.
  - exact Hb.
Qed.

Lemma text_only_handshake fuel : forall retries start_time cmd s0 s,
  text_frame (c_str cmd) = true ->
  text_only s0 s ->
  text_only s0 (snd (Send_Data_handshake fuel retries start_time cmd s)).
Proof.
  induction fuel as [|fuel IH]; intros retries start_time cmd s0 s Hcmd H;
    cbn [Send_Data_handshake];
    (destruct (retries <? MAX_RETRIES); [|exact H]);
    pose proof (text_only_wait_prompt 100 start_time s0 s H) as Hw;
    destruct (Send_Data_wait_prompt 100 start_time s) as [got_prompt s1];
    cbn [snd] in Hw;
    (destruct got_prompt; [exact Hw|]);
    cbv zeta;
    destruct (u8 (retries + 1) <? MAX_RETRIES); cbn [snd];
    try (apply IH; [exact Hcmd|]);
    repeat text_step.
Qed.

Lemma text_only_wait_send_ok fuel : forall start_time s0 s,
  text_only s0 s -> text_only s0 (snd (Send_Data_wait_send_ok fuel start_time s)).
Proof.
  induction fuel as [|fuel IH]; intros start_time s0 s H;
    cbn [Send_Data_wait_send_ok]; repeat case_cond; cbv zeta; cbn [snd];
    repeat first [ apply IH | text_step ].
Qed.

Lemma text_only_Send_Data_To_Server json_data s0 s :
  text_only s0 s -> text_only s0 (Send_Data_To_Server json_data s).
Proof.
  intros H. unfold Send_Data_To_Server. cbv zeta.
  case_cond; [exact H|].
  case_cond; [text_auto|].
  case_cond; [text_auto|].
  match goal with
  | |- context [Send_Data_handshake ?f ?r ?st ?c ?s1] =>
      assert (Hcmd : text_frame (c_str c) = true)
        by (apply (text_frame_snprintf 128 65); [lia | reflexivity]);
      assert (Hh : text_only s0 (snd (Send_Data_handshake f r st c s1)))
        by (apply text_only_handshake; [exact Hcmd|]; repeat text_step);
      destruct (Send_Data_handshake f r st c s1) as [got_prompt s2]
  end.
  cbn [snd] in Hh.
  destruct got_prompt; cbn [negb]; [|text_auto].
  match goal with
  | |- context [Send_Data_wait_send_ok ?f ?st ?s3] =>
      assert (Hs : text_only s0 (snd (Send_Data_wait_send_ok f st s3)));
      [ apply text_only_wait_send_ok;
        apply text_only_HAL_UART_Transmit;
        [ apply (text_frame_snprintf 512 80); [lia | reflexivity] | text_auto ]
      | destruct (Send_Data_wait_send_ok f st s3) as [send_ok s4] ]
  end.
  cbn [snd] in Hs. text_auto.
Qed.

(** The bus reads of the handlers, as equations. *)
Lemma Beri_Registre_mag s :
  Beri_Registre 0x1E 0x68 6 s = (mag_regs s, emit (I2cRead 60 232 6) s).
Proof. reflexivity. Qed.

Lemma Beri_Registre_acc s :
  Beri_Registre 0x19 (Z.lor 0x28 0x80) 6 s = (acc_regs s, emit (I2cRead 50 168 6) s).
Proof. reflexivity. Qed.

Lemma Beri_Registre_gyr s :
  Beri_Registre 0x6B (Z.lor 0x28 0x80) 6 s = (gyr_regs s, emit (I2cRead 214 168 6) s).
Proof. reflexivity. Qed.

Lemma spi1_beriRegistre_gyr s :
  spi1_beriRegistre (Z.lor 0x28 0x80) 6 s = (gyr_regs s, emit (SpiRead 232 6) s).
Proof. reflexivity. Qed.

Lemma regs_set_data_ready s :
  mag_regs (set_data_ready_mag 0 s) = mag_regs s
  /\ acc_regs (set_data_ready_acc 0 s) = acc_regs s
  /\ gyr_regs (set_data_ready_gyr 0 s) = gyr_regs s.
Proof. repeat split. Qed.

Ltac handler_unfold :=
  unfold Handle_Magnetometer, Handle_Accelerometer, Handle_Gyroscope,
    Clear_Interrupts, packet_of, raw_of;
  rewrite ?Beri_Registre_mag, ?Beri_Registre_acc, ?Beri_Registre_gyr,
    ?spi1_beriRegistre_gyr;
  cbv beta iota zeta; cbn [fst snd];
  rewrite ?Beri_Registre_mag, ?Beri_Registre_acc, ?Beri_Registre_gyr; cbn [fst snd];
  rewrite ?Beri_Registre_mag, ?Beri_Registre_acc, ?Beri_Registre_gyr; cbn [fst snd];
  rewrite ?Beri_Registre_mag, ?Beri_Registre_acc, ?Beri_Registre_gyr; cbn [fst snd];
  rewrite ?(proj1 (regs_set_data_ready _)), ?(proj1 (proj2 (regs_set_data_ready _))),
    ?(proj2 (proj2 (regs_set_data_ready _))).

Section Handlers.

Variable float : Type.
Variable scaled : Z -> Z -> float.
Variable printf_3f : float -> list Z.

Local Abbreviation Handle_Mag := (Handle_Magnetometer float scaled printf_3f).
Local Abbreviation Handle_Acc := (Handle_Accelerometer float scaled printf_3f).
Local Abbreviation Handle_Gyr := (Handle_Gyroscope float scaled printf_3f).

Lemma text_only_Transmit_Data_ASCII label x y z s0 s :
  text_only s0 s -> text_only s0 (Transmit_Data_ASCII float printf_3f label x y z s).
Proof.
  intros H. unfold Transmit_Data_ASCII.
  repeat first [ apply text_only_Send_Data_To_Server | text_step ].
Qed.

Lemma handlers_text_outside_binary_uart s :
  transmission_mode s <> MODE_BINARY_UART ->
  text_only s (Handle_Mag s) /\ text_only s (Handle_Acc s) /\ text_only s (Handle_Gyr s).
Proof.
  intros Hmode.
  assert (Hne : (transmission_mode s =? MODE_BINARY_UART) = false)
    by (apply Z.eqb_neq; exact Hmode).
  repeat split; handler_unfold;
    [ destruct (mag_regs s) as [[x y] z]
    | destruct (acc_regs s) as [[x y] z]
    | destruct (gyr_regs s) as [[x y] z] ];
    cbv beta iota zeta; fg_simpl; rewrite Hne; cbn [orb];
    pose proof (text_only_refl s) as H0;
    repeat first [ apply text_only_Transmit_Data_ASCII | text_step ].
Qed.

Lemma handlers_binary_uart s :
  transmission_mode s = MODE_BINARY_UART ->
  uart_sent (new_events Handle_Mag s) = [packet_of HEADER_MAG (mag_regs s) s]
  /\ uart_sent (new_events Handle_Acc s) = [packet_of HEADER_ACC (acc_regs s) s]
  /\ uart_sent (new_events Handle_Gyr s) = [packet_of HEADER_GYR (gyr_regs s) s].
Proof.
  intros Hmode.
  repeat split.
  - rewrite (new_events_app Handle_Mag s
               [UartTx (packet_of HEADER_MAG (mag_regs s) s);
                I2cRead 214 168 6; I2cRead 50 168 6; I2cRead 60 232 6;
                I2cRead 60 232 6]); [reflexivity|].
    handler_unfold. destruct (mag_regs s) as [[x y] z].
    cbv beta iota zeta. fg_simpl. rewrite Hmode. reflexivity.
  - rewrite (new_events_app Handle_Acc s
               [UartTx (packet_of HEADER_ACC (acc_regs s) s);
                I2cRead 214 168 6; I2cRead 50 168 6; I2cRead 60 232 6;
                I2cRead 50 168 6]); [reflexivity|].
    handler_unfold. destruct (acc_regs s) as [[x y] z].
    cbv beta iota zeta. fg_simpl. rewrite Hmode. reflexivity.
  - rewrite (new_events_app Handle_Gyr s
               [UartTx (packet_of HEADER_GYR (gyr_regs s) s);
                I2cRead 214 168 6; I2cRead 50 168 6; I2cRead 60 232 6;
                SpiRead 232 6]); [reflexivity|].
    handler_unfold. destruct (gyr_regs s) as [[x y] z].
    cbv beta iota zeta. fg_simpl. rewrite Hmode. reflexivity.
Qed.

Lemma handlers_binary_cdc s :
  transmission_mode s = MODE_BINARY_CDC ->
  (head (new_events Handle_Mag s) = Some (CdcTx (packet_of HEADER_MAG (mag_regs s) s))
   /\ uart_sent (new_events Handle_Mag s) = [])
  /\ (head (new_events Handle_Acc s) = Some (CdcTx (packet_of HEADER_ACC (acc_regs s) s))
      /\ uart_sent (new_events Handle_Acc s) = [])
  /\ (head (new_events Handle_Gyr s) = Some (CdcTx (packet_of HEADER_GYR (gyr_regs s) s))
      /\ uart_sent (new_events Handle_Gyr s) = []).
Proof.
  intros Hmode.
  split; [|split].
  - rewrite (new_events_app Handle_Mag s
               [CdcTx (packet_of HEADER_MAG (mag_regs s) s);
                I2cRead 214 168 6; I2cRead 50 168 6; I2cRead 60 232 6;
                I2cRead 60 232 6]); [split; reflexivity|].
    handler_unfold. destruct (mag_regs s) as [[x y] z].
    cbv beta iota zeta. fg_simpl. rewrite Hmode. reflexivity.
  - rewrite (new_events_app Handle_Acc s
               [CdcTx (packet_of HEADER_ACC (acc_regs s) s);
                I2cRead 214 168 6; I2cRead 50 168 6; I2cRead 60 232 6;
                I2cRead 50 168 6]); [split; reflexivity|].
    handler_unfold. destruct (acc_regs s) as [[x y] z].
    cbv beta iota zeta. fg_simpl. rewrite Hmode. reflexivity.
  - rewrite (new_events_app Handle_Gyr s
               [CdcTx (packet_of HEADER_GYR (gyr_regs s) s);
                I2cRead 214 168 6; I2cRead 50 168 6; I2cRead 60 232 6;
                SpiRead 232 6]); [split; reflexivity|].
    handler_unfold. destruct (gyr_regs s) as [[x y] z].
    cbv beta iota zeta. fg_simpl. rewrite Hmode. reflexivity.
Qed.

Lemma packets_are_not_text header regs s :
  header = HEADER_MAG \/ header = HEADER_ACC \/ header = HEADER_GYR ->
  text_frame (packet_of header regs s) = false.
Proof.
  intros H. unfold packet_of, raw_of. destruct regs as [[x y] z].
  destruct H as [-> | [-> | ->]]; reflexivity.
Qed.

Lemma main_button_long_press s :
  button_action_pending s <> 0 -> button_action_type s <> 0 ->
  transmission_mode (main_button s) = (transmission_mode s + 1) mod 5.
Proof.
  intros Hp Ht. unfold main_button, Indicate_Transmission_Mode.
  destruct (Z.eqb_spec (button_action_pending s) 0); [contradiction|].
  destruct (Z.eqb_spec (button_action_type s) 0); [contradiction|].
  cbn [negb]. cbv zeta. fg_simpl.
  unfold u8. apply Z.mod_small.
  pose proof (Z.mod_pos_bound (transmission_mode s + 1) 5). lia.
Qed.

(** C8, as the code has it.  A long press moves the mode on by one
    modulo five, so that one long press from the initial mode selects
    the remote binary mode.  The handlers run once the connection flag
    is set, which the connection step does from the remote text mode
    only.  A sensor handler that runs in the remote binary mode sends
    its packed frame to the modem; in the local binary mode the frame
    goes to the USB port and nothing to the modem; and in every mode
    but remote binary whatever a handler sends to the modem is a text
    frame, which a packed frame is not. *)
Theorem binary_packets_to_modem_in_binary_uart_mode s :
  (button_action_pending s <> 0 -> button_action_type s <> 0 ->
   transmission_mode (main_button s) = (transmission_mode s + 1) mod 5)
  /\ (MODE_NONE + 1) mod 5 = MODE_BINARY_UART
  /\ (connection_established s = 0 -> main_sensors float scaled printf_3f s = s)
  /\ (connection_established s = 0 -> connection_established (main_connect s) <> 0 ->
      transmission_mode s = MODE_ASCII_UART)
  /\ (transmission_mode s = MODE_BINARY_UART ->
      uart_sent (new_events Handle_Mag s) = [packet_of HEADER_MAG (mag_regs s) s]
      /\ uart_sent (new_events Handle_Acc s) = [packet_of HEADER_ACC (acc_regs s) s]
      /\ uart_sent (new_events Handle_Gyr s) = [packet_of HEADER_GYR (gyr_regs s) s])
  /\ (transmission_mode s = MODE_BINARY_CDC ->
      (head (new_events Handle_Mag s) = Some (CdcTx (packet_of HEADER_MAG (mag_regs s) s))
       /\ uart_sent (new_events Handle_Mag s) = [])
      /\ (head (new_events Handle_Acc s) = Some (CdcTx (packet_of HEADER_ACC (acc_regs s) s))
          /\ uart_sent (new_events Handle_Acc s) = [])
      /\ (head (new_events Handle_Gyr s) = Some (CdcTx (packet_of HEADER_GYR (gyr_regs s) s))
          /\ uart_sent (new_events Handle_Gyr s) = []))
  /\ (transmission_mode s <> MODE_BINARY_UART ->
      Forall (fun data => text_frame data = true) (uart_sent (new_events Handle_Mag s))
      /\ Forall (fun data => text_frame data = true) (uart_sent (new_events Handle_Acc s))
      /\ Forall (fun data => text_frame data = true) (uart_sent (new_events Handle_Gyr s)))
  /\ text_frame (packet_of HEADER_MAG (mag_regs s) s) = false
  /\ text_frame (packet_of HEADER_ACC (acc_regs s) s) = false
  /\ text_frame (packet_of HEADER_GYR (gyr_regs s) s) = false.
Proof.
  split; [apply main_button_long_press|].
  split; [reflexivity|].
  split; [apply main_sensors_unconnected|].
  split; [apply main_connect_only_in_remote_text|].
  split; [apply handlers_binary_uart|].
  split; [apply handlers_binary_cdc|].
  split.
  - intros Hmode.
    destruct (handlers_text_outside_binary_uart s Hmode) as (Hm & Ha & Hg).
    repeat split; apply text_only_new_events; assumption.
  - repeat split; apply packets_are_not_text; auto.
Qed.

End Handlers.

Lemma binary_packets_to_modem_in_binary_uart_mode_witness :
  let s := set_acc_regs (16384, 0, -16384)
             (set_transmission_mode MODE_BINARY_UART (initial_state 170 [])) in
  uart_sent (new_events (Handle_Accelerometer Z Z.mul dec) s)
  = [[187; 187; 0; 0; 0; 64; 0; 0; 0; 192]].
Proof.
  intros s.
  destruct (binary_packets_to_modem_in_binary_uart_mode Z Z.mul dec s)
    as (_ & _ & _ & _ & H & _).
  destruct (H eq_refl) as (_ & Hacc & _).
  rewrite Hacc. reflexivity.
Defined.

(** C8 as stated fails: after a connection made in the remote text
    mode, four more long presses bring the mode to remote binary with
    the connection flag still set, and the next accelerometer sample
    goes to the modem as a packed binary frame. *)
Lemma remote_binary_is_exercised :
  let long_press := [[IrqButton true]] ++ replicate 599 [] ++ [[IrqButton false]] in
  let gap := replicate 99 [] in
  let future :=
    long_press ++ gap ++ long_press ++ replicate 199 []
    ++ [List.map IrqRx (str "0,CONNECT" ++ crlf ++ crlf ++ str "OK" ++ crlf)] ++ gap
    ++ long_press ++ gap ++ long_press ++ gap ++ long_press ++ gap ++ long_press ++ gap
    ++ [[IrqAcc 16384 0 (-16384)]] in
  let s := main_loop Z Z.mul dec (Z.to_nat 4161) (initial_state 170 future) in
  transmission_mode s = MODE_BINARY_UART
  /\ connection_established s = 1
  /\ data_ready_acc s = 1
  /\ uart_sent (new_events (main_loop_body Z Z.mul dec) s)
     = [[187; 187; 0; 0; 0; 64; 0; 0; 0; 192]]
  /\ packet_of HEADER_ACC (acc_regs s) s = [187; 187; 0; 0; 0; 64; 0; 0; 0; 192]
  /\ Unpack_Data [187; 187; 0; 0; 0; 64; 0; 0; 0; 192]
     = Some (HEADER_ACC, 0, 16384, 0, -16384).
Proof. vm_compute. repeat split. Qed.

(** ** The receive invariant over the whole program *)

Lemma rx_inv_view s s' :
  rx_buffer s' = rx_buffer s -> rx_index s' = rx_index s -> rx_armed s' = rx_armed s ->
  rx_inv s -> rx_inv s'.
Proof. unfold rx_inv. intros -> -> ->. trivial. Qed.

Lemma rx_inv_HAL_GPIO_EXTI_Callback pin s :
  rx_inv s -> rx_inv (HAL_GPIO_EXTI_Callback pin s).
Proof.
  apply rx_inv_view; unfold HAL_GPIO_EXTI_Callback; repeat case_cond; reflexivity.
Qed.

Lemma rx_inv_deliver i s : rx_inv s -> rx_inv (deliver i s).
Proof.
  intros H. destruct i; cbn [deliver].
  - apply rx_inv_uart_receive. exact H.
  - apply rx_inv_HAL_GPIO_EXTI_Callback. revert H. apply rx_inv_view; reflexivity.
  - apply rx_inv_HAL_GPIO_EXTI_Callback. revert H. apply rx_inv_view; reflexivity.
  - apply rx_inv_HAL_GPIO_EXTI_Callback. revert H. apply rx_inv_view; reflexivity.
  - apply rx_inv_HAL_GPIO_EXTI_Callback. revert H. apply rx_inv_view; reflexivity.
Qed.

Lemma rx_inv_foldl_deliver irqs : forall s,
  rx_inv s -> rx_inv (foldl (fun s i => deliver i s) s irqs).
Proof.
  induction irqs as [|i irqs IH]; intros s H; [exact H|].
  cbn [foldl]. apply IH, rx_inv_deliver, H.
Qed.

Lemma rx_inv_tick_step s : rx_inv s -> rx_inv (tick_step s).
Proof.
  intros H.
  with_strategy transparent [tick_step] unfold tick_step. cbv zeta.
  destruct (script (set_tick (u32 (tick s + 1)) s)).
  - revert H. apply rx_inv_view; reflexivity.
  - apply rx_inv_foldl_deliver. revert H. apply rx_inv_view; reflexivity.
Qed.

Lemma rx_inv_elapse n : forall s, rx_inv s -> rx_inv (elapse n s).
Proof.
  induction n as [|n IH]; intros s H.
  - with_strategy transparent [elapse] (change (elapse 0 s) with s). exact H.
  - with_strategy transparent [elapse]
      (change (elapse (S n) s) with (elapse n (tick_step s))).
    apply IH, rx_inv_tick_step, H.
Qed.

Lemma rx_inv_HAL_Delay ms s : rx_inv s -> rx_inv (HAL_Delay ms s).
Proof.
  with_strategy transparent [HAL_Delay] unfold HAL_Delay. apply rx_inv_elapse.
Qed.

Lemma rx_inv_Send_Command cmd s : rx_inv (Send_Command cmd s).
Proof.
  with_strategy transparent [Send_Command Change_Response_Status]
    unfold Send_Command, Change_Response_Status.
  change ((WAITING <? 0) || (WAITING >? 5)) with false. cbv iota zeta.
  pose proof (rx_inv_Clear_RX_Buffer (HAL_UART_AbortReceive_IT s)) as H.
  revert H.
  set (s1 := Clear_RX_Buffer (HAL_UART_AbortReceive_IT s)).
  intros H. pose proof H as (_ & _ & _ & Harmed).
  apply (rx_inv_view s1); [| | |exact H].
  - unfold HAL_UART_Receive_IT. case_cond; reflexivity.
  - unfold HAL_UART_Receive_IT. case_cond; reflexivity.
  - unfold HAL_UART_Receive_IT, HAL_UART_Transmit, emit.
    cbn [rx_armed hw on_fg on_sh on_hw set_out set_response_status
         set_has_response_changed set_tick_when_sent].
    rewrite Harmed. reflexivity.
Qed.

Lemma rx_inv_Change_Response_Status new_status s :
  rx_inv s -> rx_inv (Change_Response_Status new_status s).
Proof.
  with_strategy transparent [Change_Response_Status] unfold Change_Response_Status.
  case_cond; [trivial|]. apply rx_inv_view; reflexivity.
Qed.

Lemma rx_inv_CDC_Transmit_FS buf len s : rx_inv s -> rx_inv (CDC_Transmit_FS buf len s).
Proof. apply rx_inv_view; reflexivity. Qed.

Lemma rx_inv_HAL_UART_Transmit data s : rx_inv s -> rx_inv (HAL_UART_Transmit data s).
Proof. apply rx_inv_view; reflexivity. Qed.

Lemma rx_inv_emit e s : rx_inv s -> rx_inv (emit e s).
Proof. apply rx_inv_view; reflexivity. Qed.

#[global] Opaque rx_inv.

(** Assignments to anything but the receive variables keep the
    invariant. *)
Ltac rx_assign :=
  match goal with
  | |- rx_inv (?f ?v ?W) =>
      lazymatch f with
      | set_packet_number => idtac
      | set_transmission_mode => idtac
      | set_setup_stage => idtac
      | set_response_status => idtac
      | set_has_response_changed => idtac
      | set_tick_when_sent => idtac
      | set_is_client_connected => idtac
      | set_was_client_connected => idtac
      | set_is_client_requesting_page => idtac
      | set_was_client_requesting_page => idtac
      | set_connection_established => idtac
      | set_receiving_data => idtac
      | set_ascii_last_send_time => idtac
      | set_server_last_send_time => idtac
      | set_out => idtac
      | set_data_ready_mag => idtac
      | set_data_ready_acc => idtac
      | set_data_ready_gyr => idtac
      | set_button_press_start => idtac
      | set_button_pressed => idtac
      | set_button_action_pending => idtac
      | set_button_action_type => idtac
      | set_tick => idtac
      | set_button_pin => idtac
      | set_mag_regs => idtac
      | set_acc_regs => idtac
      | set_gyr_regs => idtac
      | set_script => idtac
      end;
      let H := fresh "H" in
      assert (H : forall s : State, rx_inv s -> rx_inv (f v s))
        by (intros ?; apply rx_inv_view; reflexivity);
      apply H; clear H
  end.

Ltac rx_step :=
  cbv zeta;
  lazymatch goal with
  | |- rx_inv (if ?c then _ else _) => destruct c
  | |- rx_inv (match ?c with Some _ => _ | None => _ end) => destruct c
  | |- rx_inv (HAL_Delay _ _) => apply rx_inv_HAL_Delay
  | |- rx_inv (tick_step _) => apply rx_inv_tick_step
  | |- rx_inv (Clear_RX_Buffer _) => apply rx_inv_Clear_RX_Buffer
  | |- rx_inv (Send_Command _ _) => apply rx_inv_Send_Command
  | |- rx_inv (CDC_Transmit_FS _ _ _) => apply rx_inv_CDC_Transmit_FS
  | |- rx_inv (HAL_UART_Transmit _ _) => apply rx_inv_HAL_UART_Transmit
  | |- rx_inv (emit _ _) => apply rx_inv_emit
  | |- rx_inv (Change_Response_Status _ _) => apply rx_inv_Change_Response_Status
  | |- rx_inv _ => first [ assumption | rx_assign ]
  end.

Ltac rx_auto := repeat rx_step.

Lemma rx_inv_Log_Client_Status_Change s : rx_inv s -> rx_inv (Log_Client_Status_Change s).
Proof. intros H. unfold Log_Client_Status_Change. rx_auto. Qed.

Lemma rx_inv_Log_Client_Request_Change s :
  rx_inv s -> rx_inv (Log_Client_Request_Change s).
Proof. intros H. unfold Log_Client_Request_Change. rx_auto. Qed.

Lemma rx_inv_Log_Uart_Response s : rx_inv s -> rx_inv (Log_Uart_Response s).
Proof. intros H. unfold Log_Uart_Response. rx_auto. Qed.

Lemma rx_inv_Check_Reception_Completion s :
  rx_inv s -> rx_inv (Check_Reception_Completion s).
Proof. intros H. unfold Check_Reception_Completion. rx_auto. Qed.

Lemma rx_inv_Log_Response_Status_Change s :
  rx_inv s -> rx_inv (Log_Response_Status_Change s).
Proof. intros H. unfold Log_Response_Status_Change. rx_auto. Qed.

Lemma rx_inv_Has_Response_Finished s :
  rx_inv s -> rx_inv (snd (Has_Response_Finished s)).
Proof.
  intros H. unfold Has_Response_Finished. cbv zeta.
  repeat case_cond; cbn [snd];
    repeat first [ apply rx_inv_Log_Response_Status_Change | rx_step ].
Qed.

Lemma rx_inv_Handle_Response s : rx_inv s -> rx_inv (Handle_Response s).
Proof. intros H. unfold Handle_Response. rx_auto. Qed.

Lemma rx_inv_main_check_timeout s : rx_inv s -> rx_inv (main_check_timeout s).
Proof. intros H. unfold main_check_timeout. rx_auto. Qed.

Lemma rx_inv_main_send_request s : rx_inv s -> rx_inv (main_send_request s).
Proof.
  intros H.
  unfold main_send_request, Configure_ESP_As_Access_Point, Send_HTML_Header. rx_auto.
Qed.

Lemma rx_inv_main_button s : rx_inv s -> rx_inv (main_button s).
Proof. intros H. unfold main_button, Indicate_Transmission_Mode. rx_auto. Qed.

Lemma rx_inv_Establish_Connection_poll fuel : forall start_time s,
  rx_inv s -> rx_inv (Establish_Connection_poll fuel start_time s).
Proof.
  induction fuel as [|fuel IH]; intros start_time s H;
    cbn [Establish_Connection_poll]; repeat first [ apply IH | rx_step ].
Qed.

Lemma rx_inv_main_connect s : rx_inv s -> rx_inv (main_connect s).
Proof.
  intros H. unfold main_connect, Establish_Connection.
  repeat first [ apply rx_inv_Establish_Connection_poll | rx_step ].
Qed.

Lemma rx_inv_main_front s : rx_inv s -> rx_inv (main_front s).
Proof.
  intros H. unfold main_front. cbv zeta.
  pose proof (rx_inv_Has_Response_Finished
                (Check_Reception_Completion
                   (Log_Client_Request_Change (Log_Client_Status_Change s)))) as Hf.
  destruct (Has_Response_Finished
              (Check_Reception_Completion
                 (Log_Client_Request_Change (Log_Client_Status_Change s))))
    as [finished s1].
  cbn [snd] in Hf.
  assert (H1 : rx_inv s1).
  { apply Hf, rx_inv_Check_Reception_Completion, rx_inv_Log_Client_Request_Change,
      rx_inv_Log_Client_Status_Change, H. }
  apply rx_inv_main_connect, rx_inv_main_button, rx_inv_main_send_request,
    rx_inv_main_check_timeout.
  destruct (finished =? 1); [apply rx_inv_Handle_Response|]; exact H1.
Qed.

Lemma rx_inv_wait_prompt fuel : forall start_time s,
  rx_inv s -> rx_inv (snd (Send_Data_wait_prompt fuel start_time s)).
Proof.
  induction fuel as [|fuel IH]; intros start_time s H;
    cbn [Send_Data_wait_prompt]; repeat case_cond; cbv zeta; cbn [snd];
    repeat first [ apply IH | rx_step ].
Qed.

Lemma rx_inv_handshake fuel : forall retries start_time cmd s,
  rx_inv s -> rx_inv (snd (Send_Data_handshake fuel retries start_time cmd s)).
Proof.
  induction fuel as [|fuel IH]; intros retries start_time cmd s H;
    cbn [Send_Data_handshake];
    (destruct (retries <? MAX_RETRIES); [|exact H]);
    pose proof (rx_inv_wait_prompt 100 start_time s H) as Hw;
    destruct (Send_Data_wait_prompt 100 start_time s) as [got_prompt s1];
    cbn [snd] in Hw;
    (destruct got_prompt; [exact Hw|]);
    cbv zeta;
    destruct (u8 (retries + 1) <? MAX_RETRIES); cbn [snd];
    try apply IH; repeat rx_step.
Qed.

Lemma rx_inv_wait_send_ok fuel : forall start_time s,
  rx_inv s -> rx_inv (snd (Send_Data_wait_send_ok fuel start_time s)).
Proof.
  induction fuel as [|fuel IH]; intros start_time s H;
    cbn [Send_Data_wait_send_ok]; repeat case_cond; cbv zeta; cbn [snd];
    repeat first [ apply IH | rx_step ].
Qed.

Lemma rx_inv_Send_Data_To_Server json_data s :
  rx_inv s -> rx_inv (Send_Data_To_Server json_data s).
Proof.
  intros H. unfold Send_Data_To_Server. cbv zeta.
  case_cond; [exact H|].
  case_cond; [rx_auto|].
  case_cond; [rx_auto|].
  match goal with
  | |- context [Send_Data_handshake ?f ?r ?st ?c ?s1] =>
      destruct (Send_Data_handshake f r st c s1) as [got_prompt s2]
  end.
  destruct got_prompt; cbn [negb]; [|rx_auto].
  match goal with
  | |- context [Send_Data_wait_send_ok ?f ?st ?s3] =>
      destruct (Send_Data_wait_send_ok f st s3) as [send_ok s4]
  end.
  rx_auto.
Qed.

Section ReceiveInvariant.

Variable float : Type.
Variable scaled : Z -> Z -> float.
Variable printf_3f : float -> list Z.

Lemma rx_inv_Transmit_Data_ASCII label x y z s :
  rx_inv s -> rx_inv (Transmit_Data_ASCII float printf_3f label x y z s).
Proof.
  intros H. unfold Transmit_Data_ASCII.
  repeat first [ apply rx_inv_Send_Data_To_Server | rx_step ].
Qed.

Lemma rx_inv_main_sensors s :
  rx_inv s -> rx_inv (main_sensors float scaled printf_3f s).
Proof.
  intros H.
  assert (Hmag : forall s, rx_inv s -> rx_inv (Handle_Magnetometer float scaled printf_3f s)).
  { clear s H. intros s H.
    handler_unfold. destruct (mag_regs s) as [[x y] z]. cbv beta iota zeta.
    repeat first [ apply rx_inv_Transmit_Data_ASCII | rx_step ]. }
  assert (Hacc : forall s, rx_inv s -> rx_inv (Handle_Accelerometer float scaled printf_3f s)).
  { clear s H Hmag. intros s H.
    handler_unfold. destruct (acc_regs s) as [[x y] z]. cbv beta iota zeta.
    repeat first [ apply rx_inv_Transmit_Data_ASCII | rx_step ]. }
  assert (Hgyr : forall s, rx_inv s -> rx_inv (Handle_Gyroscope float scaled printf_3f s)).
  { clear s H Hmag Hacc. intros s H.
    handler_unfold. destruct (gyr_regs s) as [[x y] z]. cbv beta iota zeta.
    repeat first [ apply rx_inv_Transmit_Data_ASCII | rx_step ]. }
  unfold main_sensors.
  repeat first [ apply Hgyr | apply Hacc | apply Hmag | rx_step ].
Qed.

Lemma rx_inv_main_loop_body s :
  rx_inv s -> rx_inv (main_loop_body float scaled printf_3f s).
Proof.
  intros H. rewrite main_loop_body_split.
  apply rx_inv_main_sensors, rx_inv_main_front, H.
Qed.

(** At every pass of the loop the receive index is in range and the
    buffer is terminated right after it. *)
Lemma rx_inv_main_loop n : forall s,
  rx_inv s -> rx_inv (main_loop float scaled printf_3f n s).
Proof.
  induction n as [|n IH]; intros s H; [exact H|].
  cbn [main_loop]. apply IH, rx_inv_tick_step, rx_inv_main_loop_body, H.
Qed.

End ReceiveInvariant.

(** X1. From reset, whatever the interrupts and however long the loop
    runs, as long as every credential request it receives is one the
    request handler is defined for, the receive index is in range, the
    buffer is terminated right after it and the reception is armed on
    the slot at the index. *)
Corollary rx_inv_from_reset (float : Type) (scaled : Z -> Z -> float)
    (printf_3f : float -> list Z) t0 future n :
  main_loop_defined float scaled printf_3f n (initial_state t0 future) = true ->
  rx_inv (main_loop float scaled printf_3f n (initial_state t0 future)).
Proof. intros _. apply rx_inv_main_loop, rx_inv_initial. Qed.

Lemma rx_inv_from_reset_witness :
  let request := str "+IPD,0,49:GET /?ssid=MyNet&password=Secr3t HTTP/1.1" ++ crlf ++ crlf in
  let future := replicate 20 [] ++ [List.map IrqRx request] in
  let s := main_loop Z Z.mul dec 40 (initial_state 170 future) in
  uart_sent (out s)
  = [str "AT+CWJAP=" ++ dq ++ str "MyNet" ++ dq ++ str "," ++ dq ++ str "Secr3t" ++ dq ++ crlf]
  /\ rx_inv s.
Proof.
  intros request future s. split; [vm_compute; reflexivity|].
  apply rx_inv_from_reset. vm_compute. reflexivity.
Defined.

(** ** The frame check consumes the frame *)

Lemma sh_Clear_RX_Buffer s :
  rx_buffer (Clear_RX_Buffer s) = replicate (Z.to_nat RX_BUFFER_SIZE) 0
  /\ rx_index (Clear_RX_Buffer s) = 0
  /\ rx_armed (Clear_RX_Buffer s) = Some 0.
Proof.
  with_strategy transparent [Clear_RX_Buffer]
    unfold Clear_RX_Buffer, HAL_UART_Receive_IT, HAL_UART_AbortReceive_IT.
  repeat split.
Qed.

(** X2. [Check_Reception_Completion] leaves no complete frame behind:
    when it finds the double CR-LF it ends with the buffer zeroed, the
    index at 0 and the reception armed on slot 0, whatever the frame
    held (a credential request in it being one the request handler is
    defined for), so that a second call right after it changes
    nothing. *)
Theorem Check_Reception_Completion_consumes_frame s :
  Check_Reception_Completion_defined s = true ->
  let s' := Check_Reception_Completion s in
  found (rx_buffer s') (crlf ++ crlf) = false
  /\ Check_Reception_Completion s' = s'
  /\ (found (rx_buffer s) (crlf ++ crlf) = true ->
      rx_buffer s' = replicate (Z.to_nat RX_BUFFER_SIZE) 0
      /\ rx_index s' = 0 /\ rx_armed s' = Some 0).
Proof.
  intros _ s'.
  assert (Hzero : found (rx_buffer s) (crlf ++ crlf) = true ->
                  rx_buffer s' = replicate (Z.to_nat RX_BUFFER_SIZE) 0
                  /\ rx_index s' = 0 /\ rx_armed s' = Some 0).
  { intros Hf. unfold s', Check_Reception_Completion. rewrite Hf. cbv zeta.
    apply sh_Clear_RX_Buffer. }
  assert (Hnone : found (rx_buffer s') (crlf ++ crlf) = false).
  { destruct (found (rx_buffer s) (crlf ++ crlf)) eqn:Hf.
    - destruct (Hzero eq_refl) as (-> & _).
      apply found_replicate_0. discriminate.
    - unfold s', Check_Reception_Completion. rewrite Hf. exact Hf. }
  split; [exact Hnone|]. split; [|exact Hzero].
  unfold Check_Reception_Completion at 1. rewrite Hnone. reflexivity.
Qed.

Lemma Check_Reception_Completion_consumes_frame_witness :
  let frame := str "+IPD,0,49:GET /?ssid=MyNet&password=Secr3t HTTP/1.1" ++ crlf ++ crlf in
  let s := rx_run (List.map RxAppend frame) (initial_state 170 []) in
  rx_index s = 55
  /\ found (rx_buffer s) (str "GET /?ssid=") = true
  /\ rx_index (Check_Reception_Completion s) = 0
  /\ rx_armed (Check_Reception_Completion s) = Some 0.
Proof.
  intros frame s.
  assert (Hd : Check_Reception_Completion_defined s = true) by (vm_compute; reflexivity).
  destruct (Check_Reception_Completion_consumes_frame s Hd) as (_ & _ & H).
  split; [vm_compute; reflexivity|]. split; [vm_compute; reflexivity|].
  apply H. vm_compute. reflexivity.
Defined.

(** ** A status change is logged once *)

Lemma response_status_Log_Response_Status_Change s :
  response_status (Log_Response_Status_Change s) = response_status s.
Proof.
  unfold Log_Response_Status_Change. cbv zeta. fg_simpl.
  repeat case_cond; fg_simpl; reflexivity.
Qed.

Lemma Has_Response_Finished_eq s :
  Has_Response_Finished s
  = let s1 := if has_response_changed s =? 1
              then set_has_response_changed 0 (Log_Response_Status_Change s) else s in
    (if (response_status s1 >=? TIMEOUT) && (response_status s1 <? WAITING) then 1 else 0,
     s1).
Proof.
  unfold Has_Response_Finished. cbv zeta.
  destruct (has_response_changed s =? 1); case_cond; reflexivity.
Qed.

Lemma Has_Response_Finished_status s :
  response_status (snd (Has_Response_Finished s)) = response_status s.
Proof.
  rewrite Has_Response_Finished_eq. cbv zeta. cbn [snd].
  destruct (has_response_changed s =? 1); [|reflexivity].
  fg_simpl. apply response_status_Log_Response_Status_Change.
Qed.

Lemma Has_Response_Finished_changed s :
  (has_response_changed (snd (Has_Response_Finished s)) =? 1) = false.
Proof.
  rewrite Has_Response_Finished_eq. cbv zeta. cbn [snd].
  destruct (has_response_changed s =? 1) eqn:E; [|exact E].
  fg_simpl. reflexivity.
Qed.

Lemma Has_Response_Finished_answer s :
  fst (Has_Response_Finished s)
  = if (response_status s >=? TIMEOUT) && (response_status s <? WAITING) then 1 else 0.
Proof.
  rewrite <- (Has_Response_Finished_status s).
  rewrite Has_Response_Finished_eq. cbv zeta. cbn [fst snd]. reflexivity.
Qed.

(** X3. [Has_Response_Finished] reports a change of the status once: a
    second call right after the first logs nothing, changes nothing and
    gives the same answer.  The status is not touched, and the answer
    is 1 exactly for the three final statuses Timeout, Success and
    Error. *)
Theorem Has_Response_Finished_logs_once s :
  let r := Has_Response_Finished s in
  Has_Response_Finished (snd r) = r
  /\ response_status (snd r) = response_status s
  /\ fst r = (if (response_status s =? TIMEOUT) || (response_status s =? SUCCESS)
                 || (response_status s =? ERROR) then 1 else 0).
Proof.
  intros r. split; [|split].
  - pose proof (Has_Response_Finished_status s) as H1.
    pose proof (Has_Response_Finished_changed s) as H2.
    pose proof (Has_Response_Finished_answer s) as H3.
    fold r in H1, H2, H3. destruct r as [answer s1]. cbn [fst snd] in *.
    rewrite Has_Response_Finished_eq. cbv zeta. rewrite H2, H1, H3. reflexivity.
  - apply Has_Response_Finished_status.
  - unfold r. rewrite Has_Response_Finished_answer.
    unfold TIMEOUT, SUCCESS, ERROR, WAITING.
    destruct (Z.geb_spec (response_status s) 0), (Z.ltb_spec (response_status s) 3),
      (Z.eqb_spec (response_status s) 0), (Z.eqb_spec (response_status s) 1),
      (Z.eqb_spec (response_status s) 2); cbn [andb orb]; try reflexivity; lia.
Qed.

(** ** Button presses *)

Lemma u32_sub_add t d : u32 (u32 (t + d) - t) = u32 d.
Proof. unfold u32. rewrite Zminus_mod_idemp_l. f_equal. lia. Qed.

(** X4. A press of the button records the tick and raises no action;
    the release [d] ticks later raises one action, short when [d] is
    below 500 and long otherwise, also when the tick counter wrapped
    around in between. *)
Theorem button_press_classified_by_duration s s' (d : Z) :
  0 <= d < 4294967296 ->
  let pressed := deliver (IrqButton true) s in
  button_press_start s' = button_press_start pressed ->
  tick s' = u32 (tick s + d) ->
  let released := deliver (IrqButton false) s' in
  button_pressed pressed = 1
  /\ button_action_pending pressed = button_action_pending s
  /\ button_pressed released = 0
  /\ button_action_pending released = 1
  /\ button_action_type released = (if d <? 500 then 0 else 1).
Proof.
  intros Hd pressed Hstart Htick released.
  split; [reflexivity|]. split; [reflexivity|].
  assert (Hdur : u32 (tick s' - button_press_start s') = d).
  { rewrite Hstart, Htick. change (button_press_start pressed) with (tick s).
    rewrite u32_sub_add. unfold u32. apply Z.mod_small. exact Hd. }
  unfold released, deliver, HAL_GPIO_EXTI_Callback, HAL_GetTick.
  change (GPIO_PIN_0 =? GPIO_PIN_0) with true.
  change (GPIO_PIN_0 =? GPIO_PIN_2) with false.
  change (GPIO_PIN_0 =? GPIO_PIN_4) with false.
  change (GPIO_PIN_0 =? GPIO_PIN_1) with false.
  cbv beta iota zeta.
  change (button_pin (set_button_pin false s')) with false. cbv iota.
  change (tick (set_button_pressed 0 (set_button_pin false s'))) with (tick s').
  change (button_press_start (set_button_pressed 0 (set_button_pin false s')))
    with (button_press_start s').
  rewrite Hdur. destruct (d <? 500); repeat split.
Qed.

Lemma button_press_classified_by_duration_witness :
  let s := initial_state 4294967000 [] in
  let pressed := deliver (IrqButton true) s in
  let released := deliver (IrqButton false) (elapse 600 pressed) in
  tick (elapse 600 pressed) = 304
  /\ button_action_pending released = 1
  /\ button_action_type released = 1.
Proof.
  intros s pressed released.
  assert (Hd : 0 <= 600 < 4294967296) by lia.
  assert (Hstart : button_press_start (elapse 600 pressed) = button_press_start pressed)
    by (vm_compute; reflexivity).
  assert (Htick : tick (elapse 600 pressed) = u32 (tick s + 600))
    by (vm_compute; reflexivity).
  destruct (button_press_classified_by_duration s (elapse 600 pressed) 600 Hd Hstart Htick)
    as (_ & _ & _ & Hp & Ht).
  split; [vm_compute; reflexivity|]. split; [exact Hp | exact Ht].
Defined.

(** ** The timeout, counted from the send *)

Lemma tick_HAL_UART_Receive_IT pos s : tick (HAL_UART_Receive_IT pos s) = tick s.
Proof. unfold HAL_UART_Receive_IT. destruct (rx_armed s); reflexivity. Qed.

Lemma tick_Send_Command cmd s : tick (Send_Command cmd s) = tick s.
Proof.
  with_strategy transparent [Send_Command] unfold Send_Command.
  cbv zeta. rewrite tick_HAL_UART_Receive_IT. sh_simpl.
  rewrite tick_Clear_RX_Buffer. reflexivity.
Qed.

Lemma main_check_timeout_status s :
  response_status s = WAITING ->
  response_status (main_check_timeout s)
  = (if u32 (HAL_GetTick s - tick_when_sent s) >? 5000 then TIMEOUT else WAITING).
Proof.
  intros H. unfold main_check_timeout, Is_Timedout. cbv zeta. rewrite H.
  destruct (u32 (HAL_GetTick s - tick_when_sent s) >? 5000).
  - change ((1 =? 1) && (WAITING =? WAITING)) with true. cbv iota.
    rewrite fg_Change_Response_Status_valid by (unfold TIMEOUT; lia).
    fg_simpl. reflexivity.
  - change ((0 =? 1) && (WAITING =? WAITING)) with false. cbv iota. exact H.
Qed.

(** X5. The timeout is counted from the tick at which [Send_Command]
    sent the command: with no answer classified, the check of the loop
    made [n] ticks after the send leaves the status Waiting while [n]
    is at most 5000 and sets it to Timeout from 5001 ticks on, wherever
    the tick counter stood at the send, the wrap-around of the 32-bit
    counter included. *)
Theorem timeout_counted_from_Send_Command cmd s (n : nat) :
  Z.of_nat n < 4294967296 ->
  let s' := elapse n (Send_Command cmd s) in
  tick_when_sent s' = tick s
  /\ Is_Timedout 5000 s' = (if Z.of_nat n >? 5000 then 1 else 0)
  /\ response_status (main_check_timeout s')
     = (if Z.of_nat n >? 5000 then TIMEOUT else WAITING).
Proof.
  intros Hn s'.
  assert (Hsent : tick_when_sent s' = tick s).
  { unfold s'. fg_simpl. reflexivity. }
  assert (Hel : u32 (HAL_GetTick s' - tick_when_sent s') = Z.of_nat n).
  { rewrite Hsent. unfold s', HAL_GetTick.
    rewrite <- (tick_Send_Command cmd s).
    rewrite elapsed_after_elapse. unfold u32. apply Z.mod_small. lia. }
  assert (Hw : response_status s' = WAITING).
  { unfold s'. fg_simpl. reflexivity. }
  split; [exact Hsent|]. split.
  - unfold Is_Timedout. cbv zeta. rewrite Hel. reflexivity.
  - rewrite (main_check_timeout_status s' Hw), Hel. reflexivity.
Qed.

Lemma timeout_counted_from_Send_Command_witness :
  let s := initial_state 4294965000 [] in
  let s' := elapse (Z.to_nat 5001) (Send_Command (lit (str "AT" ++ crlf)) s) in
  tick s' = 2705
  /\ tick_when_sent s' = 4294965000
  /\ response_status (main_check_timeout s') = TIMEOUT.
Proof.
  intros s s'.
  assert (Hn : Z.of_nat (Z.to_nat 5001) < 4294967296) by (vm_compute; reflexivity).
  destruct (timeout_counted_from_Send_Command (lit (str "AT" ++ crlf)) s (Z.to_nat 5001) Hn)
    as (Hsent & _ & H).
  split; [vm_compute; reflexivity|]. split; [exact Hsent | exact H].
Defined.

(** ** What is received is what the pattern matching sees *)

Lemma uart_receive_appends b s (pre : list Z) (n : nat) :
  rx_buffer s = pre ++ replicate (S (S n)) 0 ->
  rx_index s = Z.of_nat (length pre) ->
  rx_armed s = Some (Z.of_nat (length pre)) ->
  Z.of_nat (length pre) < RX_BUFFER_SIZE - 2 ->
  rx_buffer (uart_receive b s) = (pre ++ [u8 b]) ++ replicate (S n) 0
  /\ rx_index (uart_receive b s) = Z.of_nat (length (pre ++ [u8 b]))
  /\ rx_armed (uart_receive b s) = Some (Z.of_nat (length (pre ++ [u8 b]))).
Proof.
  intros Hbuf Hidx Harmed Hlt.
  assert (Hlen : Z.of_nat (length (pre ++ [u8 b])) = Z.of_nat (length pre) + 1)
    by (rewrite length_app; cbn [length]; lia).
  assert (Hu : u16 (Z.of_nat (length pre) + 1) = Z.of_nat (length pre) + 1).
  { unfold u16. apply Z.mod_small. unfold RX_BUFFER_SIZE in Hlt. lia. }
  unfold uart_receive, HAL_UART_RxCpltCallback, HAL_UART_Receive_IT.
  rewrite Harmed. cbv zeta.
  cbn [rx_index rx_buffer rx_armed sh hw set_rx_buffer set_rx_armed set_rx_index
       on_sh on_hw].
  rewrite Hidx. destruct (Z.ltb_spec (Z.of_nat (length pre)) (RX_BUFFER_SIZE - 2)); [|lia].
  cbn [rx_index rx_buffer rx_armed sh hw set_rx_buffer set_rx_armed set_rx_index
       on_sh on_hw].
  rewrite Hu, Hlen, Hbuf. repeat split.
  rewrite Nat2Z.id.
  replace (Z.to_nat (Z.of_nat (length pre) + 1 + 1)) with (length pre + 2)%nat by lia.
  rewrite insert_app_r_alt by lia.
  replace (length pre - length pre)%nat with 0%nat by lia.
  cbn [replicate]. cbn [list_insert insert].
  rewrite insert_app_r_alt by lia.
  replace (length pre + 2 - length pre)%nat with 2%nat by lia.
  rewrite <- app_assoc. f_equal. destruct n; reflexivity.
Qed.

Lemma rx_run_appends bs : forall s (pre : list Z) (n : nat),
  rx_buffer s = pre ++ replicate (length bs + S (S n)) 0 ->
  rx_index s = Z.of_nat (length pre) ->
  rx_armed s = Some (Z.of_nat (length pre)) ->
  Z.of_nat (length pre + length bs) <= RX_BUFFER_SIZE - 2 ->
  let s' := rx_run (List.map RxAppend bs) s in
  rx_buffer s' = (pre ++ List.map u8 bs) ++ replicate (S (S n)) 0
  /\ rx_index s' = Z.of_nat (length (pre ++ List.map u8 bs)).
Proof.
  induction bs as [|b bs IH]; intros s pre n Hbuf Hidx Harmed Hle s'.
  - unfold s'. cbn [List.map rx_run foldl]. rewrite app_nil_r. split; assumption.
  - cbn [length] in Hbuf, Hle.
    destruct (uart_receive_appends b s pre (length bs + S n)) as (Hb & Hi & Ha);
      [ rewrite Hbuf; do 2 f_equal; lia | exact Hidx | exact Harmed | lia | ].
    destruct (IH (uart_receive b s) (pre ++ [u8 b]) n) as (Hb' & Hi');
      [ rewrite Hb; do 2 f_equal; lia | exact Hi | exact Ha
      | rewrite length_app; cbn [length]; lia | ].
    unfold s'. cbn [List.map rx_run foldl rx_apply].
    unfold rx_run in Hb', Hi'. rewrite Hb', Hi'.
    rewrite <- !app_assoc. cbn [app]. split; reflexivity.
Qed.

Lemma c_str_app_zero (l : list Z) (rest : list Z) :
  Forall (fun b => b <> 0) l -> c_str (l ++ 0 :: rest) = l.
Proof.
  induction 1 as [|b l Hb Hl IH]; [reflexivity|].
  cbn [app c_str]. destruct (Z.eqb_spec b 0); [contradiction|]. rewrite IH. reflexivity.
Qed.

(** X6. After a reset of the receive buffer, the bytes the modem sends
    lie in the buffer in the order of their arrival, from slot 0 on,
    followed by zeros, and the index counts them, as long as they are
    at most [RX_BUFFER_SIZE - 2]; when none of them is a zero byte, the
    C string the pattern matching reads is exactly what was
    received. *)
Theorem received_bytes_are_buffered_in_order (bs : list Z) s :
  Z.of_nat (length bs) <= RX_BUFFER_SIZE - 2 ->
  let s' := rx_run (RxReset :: List.map RxAppend bs) s in
  rx_buffer s' = List.map u8 bs ++ replicate (Z.to_nat RX_BUFFER_SIZE - length bs) 0
  /\ rx_index s' = Z.of_nat (length bs)
  /\ (Forall (fun b => u8 b <> 0) bs ->
      c_str (rx_buffer s') = List.map u8 bs
      /\ forall needle, strstr (rx_buffer s') needle = find_sub needle (List.map u8 bs)).
Proof.
  intros Hle s'.
  destruct (sh_Clear_RX_Buffer s) as (Hb & Hi & Ha).
  assert (Hn : exists n : nat, (Z.to_nat RX_BUFFER_SIZE - length bs = S (S n))%nat).
  { exists (Z.to_nat RX_BUFFER_SIZE - length bs - 2)%nat.
    unfold RX_BUFFER_SIZE in *. lia. }
  destruct Hn as [n Hn].
  destruct (rx_run_appends bs (Clear_RX_Buffer s) [] n) as (Hb' & Hi').
  - rewrite Hb. cbn [app]. f_equal. unfold RX_BUFFER_SIZE in *. lia.
  - exact Hi.
  - exact Ha.
  - cbn [length]. lia.
  - cbn [app] in Hb', Hi'. rewrite length_map in Hi'.
    assert (Hbuf : rx_buffer s'
                   = List.map u8 bs ++ replicate (Z.to_nat RX_BUFFER_SIZE - length bs) 0).
    { rewrite Hn. exact Hb'. }
    split; [exact Hbuf|]. split; [exact Hi'|].
    intros Hnz.
    assert (Hc : c_str (rx_buffer s') = List.map u8 bs).
    { rewrite Hbuf, Hn. cbn [replicate]. apply c_str_app_zero.
      apply Forall_map. exact Hnz. }
    split; [exact Hc|]. intros needle. unfold strstr. rewrite Hc. reflexivity.
Qed.

Lemma received_bytes_are_buffered_in_order_witness :
  let s := rx_run (RxReset :: List.map RxAppend (str "+IPD,0,2:OK")) (initial_state 170 []) in
  rx_index s = 11
  /\ c_str (rx_buffer s) = str "+IPD,0,2:OK"
  /\ strstr (rx_buffer s) (str "OK") = Some 9%nat.
Proof.
  intros s.
  assert (Hle : Z.of_nat (length (str "+IPD,0,2:OK")) <= RX_BUFFER_SIZE - 2)
    by (vm_compute; discriminate).
  destruct (received_bytes_are_buffered_in_order (str "+IPD,0,2:OK") (initial_state 170 []) Hle)
    as (_ & Hi & Hc).
  split; [exact Hi|].
  assert (Hnz : Forall (fun b => u8 b <> 0) (str "+IPD,0,2:OK"))
    by (vm_compute; repeat constructor; discriminate).
  destruct (Hc Hnz) as (Hs & Hfind).
  split; [exact Hs | rewrite Hfind; reflexivity].
Defined.

(** ** The page and the length announced for it *)

Lemma new_events_Configure_at stage s :
  setup_stage s = stage ->
  new_events Configure_ESP_As_Access_Point s
  = new_events Configure_ESP_As_Access_Point (set_setup_stage stage (initial_state 0 [])).
Proof. intros H. apply new_events_Configure_stage. rewrite H. reflexivity. Qed.

(** X7. The header stage announces to the modem the length of exactly
    the page that the body stage then transmits: the count in the
    AT+CIPSEND command that [Send_HTML_Header] sends is the number of
    bytes [Send_Command] puts on the wire for [html_page2]. *)
Theorem header_announces_length_of_page s1 s2 :
  setup_stage s1 = AT_SEND_HTML_HEADER ->
  setup_stage s2 = AT_SEND_HTML ->
  uart_sent (new_events Configure_ESP_As_Access_Point s2) = [c_str html_page2]
  /\ uart_sent (new_events Configure_ESP_As_Access_Point s1)
     = [str "AT+CIPSEND=0," ++ dec (strlen html_page2) ++ crlf].
Proof.
  intros H1 H2.
  rewrite (new_events_Configure_at _ _ H1), (new_events_Configure_at _ _ H2).
  split; vm_compute; reflexivity.
Qed.

Lemma header_announces_length_of_page_witness :
  let s1 := set_setup_stage AT_SEND_HTML_HEADER (initial_state 170 []) in
  let s2 := set_setup_stage AT_SEND_HTML (initial_state 170 []) in
  uart_sent (new_events Configure_ESP_As_Access_Point s1)
  = [str "AT+CIPSEND=0,334" ++ crlf]
  /\ List.map (fun data => Z.of_nat (length data))
       (uart_sent (new_events Configure_ESP_As_Access_Point s2)) = [334].
Proof.
  intros s1 s2.
  destruct (header_announces_length_of_page s1 s2 eq_refl eq_refl) as [Hpage Hheader].
  rewrite Hpage, Hheader. split; vm_compute; reflexivity.
Defined.

(** ** What the stage change logs *)

Lemma out_Log_Setup_Stage_Change s :
  out (Log_Setup_Stage_Change s)
  = if setup_stage s =? AT_TEST then
      CdcTx (str "Setup stage changed to: AT_TEST" ++ crlf) :: out s
    else if setup_stage s =? AT_SET_CONNECT_MODE then
      CdcTx (str "Setup stage changed to: AT_SET_CONNECT_MODE" ++ crlf) :: out s
    else if response_status s =? AT_SET_MAX_CONNECTIONS then
      CdcTx (str "Setup stage changed to: AT_SET_MAX_CONNECTIONS" ++ crlf) :: out s
    else if response_status s =? AT_START_SERVER then
      CdcTx (str "Setup stage changed to: AT_START_SERVER" ++ crlf) :: out s
    else if response_status s =? AT_SEND_HTML_HEADER then
      CdcTx (str "Setup stage changed to: AT_SEND_HTML_HEADER" ++ crlf) :: out s
    else if response_status s =? AT_SEND_HTML then
      CdcTx (str "Setup stage changed to: AT_SEND_HTML" ++ crlf) :: out s
    else if response_status s =? AT_SEND_CONNECT_REQUEST then
      CdcTx (str "Setup stage changed to: AT_SEND_CONNECT_REQUEST" ++ crlf) :: out s
    else out s.
Proof.
  unfold Log_Setup_Stage_Change. cbv zeta. fg_simpl.
  repeat case_cond; fg_simpl; try reflexivity; f_equal; f_equal; vm_compute; reflexivity.
Qed.

Lemma out_Set_Setup_Stage new_stage s :
  0 <= new_stage <= 6 ->
  out (Set_Setup_Stage new_stage s)
  = out (Log_Setup_Stage_Change (set_setup_stage new_stage s)).
Proof.
  intros H. unfold Set_Setup_Stage.
  destruct (Z.ltb_spec new_stage 0), (Z.gtb_spec new_stage 6); try lia.
  reflexivity.
Qed.

Lemma out_Handle_Response_success s :
  response_status s = SUCCESS ->
  0 <= setup_stage s <= 5 ->
  out (Handle_Response s)
  = out (Log_Setup_Stage_Change
           (set_setup_stage (stage_after_success (setup_stage s)) (HAL_Delay 10 s))).
Proof.
  intros Hst Hstage. unfold Handle_Response. cbv zeta. rewrite Hst.
  change ((SUCCESS =? SUCCESS) || (SUCCESS =? ERROR)) with true. cbv iota.
  fg_simpl. rewrite Hst.
  change (negb (SUCCESS =? SUCCESS)) with false. cbv iota.
  rewrite fg_Change_Response_Status_valid by (unfold IDLE; lia). fg_simpl.
  assert (Hcases : setup_stage s = 0 \/ setup_stage s = 1 \/ setup_stage s = 2
                   \/ setup_stage s = 3 \/ setup_stage s = 4 \/ setup_stage s = 5) by lia.
  destruct Hcases as [E | [E | [E | [E | [E | E]]]]]; rewrite E;
    cbv beta iota delta [stage_after_success AT_TEST AT_SET_CONNECT_MODE
      AT_SET_MAX_CONNECTIONS AT_START_SERVER AT_SEND_HTML_HEADER AT_SEND_HTML
      Z.eqb Pos.eqb];
    apply out_Set_Setup_Stage; lia.
Qed.

(** X8. On Success, [Handle_Response] names the new stage on the debug
    port only for the step from AT_TEST to AT_SET_CONNECT_MODE.  The
    later stage changes are made without a message: from
    AT_SET_MAX_CONNECTIONS on, [Log_Setup_Stage_Change] compares
    [response_status], which is Success here, and not [setup_stage]
    with the stage constants. *)
Theorem Handle_Response_names_first_stage_change_only s :
  response_status s = SUCCESS ->
  0 <= setup_stage s <= 5 ->
  new_events Handle_Response s
  = if setup_stage s =? AT_TEST
    then [CdcTx (str "Setup stage changed to: AT_SET_CONNECT_MODE" ++ crlf)]
    else [].
Proof.
  intros Hst Hstage. apply new_events_app.
  rewrite (out_Handle_Response_success s Hst Hstage), out_Log_Setup_Stage_Change.
  fg_simpl. rewrite Hst.
  assert (Hcases : setup_stage s = 0 \/ setup_stage s = 1 \/ setup_stage s = 2
                   \/ setup_stage s = 3 \/ setup_stage s = 4 \/ setup_stage s = 5) by lia.
  destruct Hcases as [E | [E | [E | [E | [E | E]]]]]; rewrite E; reflexivity.
Qed.

Lemma Handle_Response_names_first_stage_change_only_witness :
  let s := set_response_status SUCCESS
             (set_setup_stage AT_START_SERVER (initial_state 170 [])) in
  setup_stage (Handle_Response s) = AT_SEND_HTML_HEADER
  /\ new_events Handle_Response s = [].
Proof.
  intros s. split; [vm_compute; reflexivity|].
  assert (Hstage : 0 <= setup_stage s <= 5) by (vm_compute; split; discriminate).
  exact (Handle_Response_names_first_stage_change_only s eq_refl Hstage).
Defined.

(** ** The frames the modem is sent *)

Lemma is_prefix_lit_take (p : list Z) : forall (n : nat) (text : list Z),
  is_prefix p text = true -> c_str p = p -> (length p <= n)%nat ->
  is_prefix p (c_str (lit (take n text))) = true.
Proof.
  induction p as [|a p IH]; intros n text Hp Hz Hn; [reflexivity|].
  destruct text as [|h text]; [discriminate Hp|].
  cbn [is_prefix] in Hp. apply andb_true_iff in Hp. destruct Hp as [Hah Hp].
  apply Z.eqb_eq in Hah. subst h.
  cbn [c_str] in Hz. destruct (a =? 0) eqn:E0; [discriminate Hz|].
  injection Hz as Hz.
  destruct n as [|n]; [cbn [length] in Hn; lia|].
  unfold lit in *. cbn [take app c_str]. rewrite E0.
  cbn [is_prefix]. rewrite Z.eqb_refl. cbn [andb].
  apply IH; [exact Hp | exact Hz | cbn [length] in Hn; lia].
Qed.

Lemma modem_frame_command size text :
  2 < size -> is_prefix (str "AT") text = true ->
  modem_frame (c_str (snprintf size text)) = true.
Proof.
  intros Hsize Hp. unfold modem_frame, snprintf.
  rewrite (is_prefix_lit_take (str "AT")); [reflexivity | exact Hp | reflexivity|].
  change (length (str "AT")) with 2%nat. lia.
Qed.

Lemma modem_frame_request size text :
  19 < size -> is_prefix (str "POST /data HTTP/1.1") text = true ->
  modem_frame (c_str (snprintf size text)) = true.
Proof.
  intros Hsize Hp. unfold modem_frame, snprintf.
  rewrite (is_prefix_lit_take (str "POST /data HTTP/1.1"));
    [apply orb_true_iff; left; apply orb_true_iff; left; apply orb_true_r
    | exact Hp | reflexivity|].
  change (length (str "POST /data HTTP/1.1")) with 19%nat. lia.
Qed.

Lemma modem_frame_Pack_Data header x y z s :
  header = HEADER_MAG \/ header = HEADER_ACC \/ header = HEADER_GYR ->
  modem_frame (Pack_Data header x y z s) = true.
Proof. intros [-> | [-> | ->]]; reflexivity. Qed.

(** The frame at a call site is one of these. *)
Ltac modem_frame_solve :=
  lazymatch goal with
  | |- modem_frame (c_str (snprintf _ _)) = true =>
      first [ apply modem_frame_command; [lia | reflexivity]
            | apply modem_frame_request; [lia | reflexivity] ]
  | |- modem_frame (Pack_Data _ _ _ _ _) = true =>
      apply modem_frame_Pack_Data; auto
  | |- modem_frame _ = true => vm_compute; reflexivity
  end.

(** ** The footprint of the firmware on its own variables *)

(** Whatever property [P] of the foreground variables and the trace is
    kept by the assignments the firmware makes (each with the values it
    can write), by the transmissions (to the modem: of the frames [U],
    which has every frame the firmware has for it) and by the bus reads
    is kept by every function that makes them, and so by the whole
    loop.  Each lemma depends on the assumptions about what its
    function does, and on no other. *)
Section Footprint.

Variable float : Type.
Variable scaled : Z -> Z -> float.
Variable printf_3f : float -> list Z.

Variable P : State -> Prop.
Variable U : list Z -> Prop.

Hypothesis P_fg : forall s s', fg s' = fg s -> P s -> P s'.
Hypothesis P_cdc : forall data s, P s -> P (emit (CdcTx data) s).
Hypothesis P_uart : forall data s, U data -> P s -> P (emit (UartTx data) s).
Hypothesis U_frame : forall data, modem_frame data = true -> U data.
Hypothesis P_i2c : forall device reg len s, P s -> P (emit (I2cRead device reg len) s).
Hypothesis P_spi : forall reg len s, P s -> P (emit (SpiRead reg len) s).
Hypothesis P_response_status : forall v s,
  0 <= v <= 5 -> P s -> P (set_response_status v s).
Hypothesis P_has_response_changed : forall v s,
  0 <= v <= 1 -> P s -> P (set_has_response_changed v s).
Hypothesis P_tick_when_sent : forall v s, P s -> P (set_tick_when_sent v s).
Hypothesis P_setup_stage : forall v s, 1 <= v <= 5 -> P s -> P (set_setup_stage v s).
Hypothesis P_is_client_connected : forall v s,
  0 <= v <= 1 -> P s -> P (set_is_client_connected v s).
Hypothesis P_was_client_connected : forall s,
  P s -> P (set_was_client_connected (is_client_connected s) s).
Hypothesis P_is_client_requesting_page : forall v s,
  0 <= v <= 1 -> P s -> P (set_is_client_requesting_page v s).
Hypothesis P_was_client_requesting_page : forall s,
  P s -> P (set_was_client_requesting_page (is_client_requesting_page s) s).
Hypothesis P_connection_established : forall v s,
  0 <= v <= 1 -> P s -> P (set_connection_established v s).
Hypothesis P_receiving_data : forall s, P s -> P (set_receiving_data 0 s).
Hypothesis P_ascii_last_send_time : forall v s, P s -> P (set_ascii_last_send_time v s).
Hypothesis P_server_last_send_time : forall v s, P s -> P (set_server_last_send_time v s).
Hypothesis P_transmission_mode : forall s,
  P s -> P (set_transmission_mode (u8 ((transmission_mode s + 1) mod 5)) s).
Hypothesis P_packet_number : forall s,
  P s -> P (set_packet_number (u16 (packet_number s + 1)) s).

Lemma kept_HAL_Delay ms s : P s -> P (HAL_Delay ms s).
Proof. apply P_fg. apply fg_HAL_Delay. Qed.

Lemma kept_tick_step s : P s -> P (tick_step s).
Proof. apply P_fg. apply fg_tick_step. Qed.

Lemma kept_Clear_RX_Buffer s : P s -> P (Clear_RX_Buffer s).
Proof. apply P_fg. apply fg_Clear_RX_Buffer. Qed.

Lemma kept_CDC_Transmit_FS buf len s : P s -> P (CDC_Transmit_FS buf len s).
Proof. apply P_cdc. Qed.

Lemma kept_HAL_UART_Transmit data s : U data -> P s -> P (HAL_UART_Transmit data s).
Proof. apply P_uart. Qed.

Lemma kept_Change_Response_Status new_status s :
  0 <= new_status <= 5 -> P s -> P (Change_Response_Status new_status s).
Proof.
  intros Hv H.
  apply (P_fg (set_response_status new_status (set_has_response_changed 1 s))).
  - apply fg_Change_Response_Status_valid. exact Hv.
  - apply P_response_status; [exact Hv|]. apply P_has_response_changed; [lia | exact H].
Qed.

Lemma kept_Send_Command cmd s : U (c_str cmd) -> P s -> P (Send_Command cmd s).
Proof.
  intros Hcmd H.
  apply (P_fg (emit (UartTx (c_str cmd))
                 (set_response_status WAITING
                    (set_has_response_changed 1 (set_tick_when_sent (tick s) s))))).
  - rewrite fg_Send_Command. reflexivity.
  - apply P_uart; [exact Hcmd|]. apply P_response_status; [unfold WAITING; lia|].
    apply P_has_response_changed; [lia|]. apply P_tick_when_sent, H.
Qed.

(** Assignments to the variables of the interrupt handlers and of the
    hardware. *)
Ltac kept_other :=
  match goal with
  | |- P (?f ?v ?W) =>
      lazymatch f with
      | set_data_ready_mag => idtac
      | set_data_ready_acc => idtac
      | set_data_ready_gyr => idtac
      | set_button_action_pending => idtac
      end;
      apply (P_fg W); [fg_simpl; reflexivity|]
  end.

Ltac kept_frame := first [ assumption | apply U_frame; modem_frame_solve ].

Ltac kept_step :=
  cbv zeta;
  first [ assumption |
  lazymatch goal with
  | |- P (if ?c then _ else _) => destruct c
  | |- P (HAL_Delay _ _) => apply kept_HAL_Delay
  | |- P (tick_step _) => apply kept_tick_step
  | |- P (Clear_RX_Buffer _) => apply kept_Clear_RX_Buffer
  | |- P (Send_Command _ _) => apply kept_Send_Command; [kept_frame|]
  | |- P (CDC_Transmit_FS _ _ _) => apply kept_CDC_Transmit_FS
  | |- P (HAL_UART_Transmit _ _) => apply kept_HAL_UART_Transmit; [kept_frame|]
  | |- P (emit _ _) => first [ apply P_i2c | apply P_spi ]
  | |- P (Change_Response_Status _ _) =>
      apply kept_Change_Response_Status; [vm_compute; split; discriminate|]
  | |- P (set_has_response_changed _ _) => apply P_has_response_changed; [lia|]
  | |- P (set_setup_stage _ _) =>
      apply P_setup_stage; [vm_compute; split; discriminate|]
  | |- P (set_is_client_connected _ _) => apply P_is_client_connected; [lia|]
  | |- P (set_was_client_connected _ _) => apply P_was_client_connected
  | |- P (set_is_client_requesting_page _ _) =>
      apply P_is_client_requesting_page; [lia|]
  | |- P (set_was_client_requesting_page _ _) => apply P_was_client_requesting_page
  | |- P (set_connection_established _ _) => apply P_connection_established; [lia|]
  | |- P (set_receiving_data _ _) => apply P_receiving_data
  | |- P (set_ascii_last_send_time _ _) => apply P_ascii_last_send_time
  | |- P (set_server_last_send_time _ _) => apply P_server_last_send_time
  | |- P (set_transmission_mode _ _) => apply P_transmission_mode
  | |- P (set_packet_number _ _) => apply P_packet_number
  | |- P _ => kept_other
  end ].

Ltac kept_auto := repeat kept_step.

Lemma kept_Log_Client_Status_Change s : P s -> P (Log_Client_Status_Change s).
Proof. intros H. unfold Log_Client_Status_Change. kept_auto. Qed.

Lemma kept_Log_Client_Request_Change s : P s -> P (Log_Client_Request_Change s).
Proof. intros H. unfold Log_Client_Request_Change. kept_auto. Qed.

Lemma kept_Log_Uart_Response s : P s -> P (Log_Uart_Response s).
Proof. intros H. unfold Log_Uart_Response. kept_auto. Qed.

Lemma kept_Handle_Client_Request s : P s -> P (Handle_Client_Request s).
Proof.
  intros H. unfold Handle_Client_Request, Send_Connect_Request. kept_auto.
Qed.

Lemma kept_Check_Reception_Completion_log s :
  P s -> P (Check_Reception_Completion_log s).
Proof.
  intros H. unfold Check_Reception_Completion_log.
  repeat first [ apply kept_Log_Uart_Response | kept_step ].
Qed.

(** The state a test reads is dealt with on its own. *)
Ltac kept_cut :=
  cbv zeta;
  lazymatch goal with
  | |- P (if found (rx_buffer (sh ?s')) _ then _ else _) =>
      cut (P s');
      [ generalize s'; let x := fresh "s" in let Hx := fresh "H" in intros x Hx | ]
  end.

Lemma kept_Check_Reception_Completion_classify s :
  P s -> P (Check_Reception_Completion_classify s).
Proof.
  intros H. unfold Check_Reception_Completion_classify.
  kept_cut; [kept_auto|].
  kept_cut; [kept_auto|].
  kept_cut; [kept_auto|].
  repeat first [ apply kept_Handle_Client_Request | kept_step ].
Qed.

Lemma kept_Check_Reception_Completion s : P s -> P (Check_Reception_Completion s).
Proof.
  intros H. unfold Check_Reception_Completion.
  destruct (found (rx_buffer s) (crlf ++ crlf)); [|exact H].
  cbv zeta.
  apply kept_Clear_RX_Buffer, kept_Check_Reception_Completion_classify,
    kept_Check_Reception_Completion_log, P_receiving_data, H.
Qed.

Lemma kept_Log_Response_Status_Change s : P s -> P (Log_Response_Status_Change s).
Proof. intros H. unfold Log_Response_Status_Change. kept_auto. Qed.

Lemma kept_Has_Response_Finished s : P s -> P (snd (Has_Response_Finished s)).
Proof.
  intros H. unfold Has_Response_Finished. cbv zeta.
  repeat case_cond; cbn [snd];
    repeat first [ apply kept_Log_Response_Status_Change | kept_step ].
Qed.

Lemma kept_Set_Setup_Stage new_stage s :
  1 <= new_stage <= 5 -> P s -> P (Set_Setup_Stage new_stage s).
Proof.
  intros Hv H. unfold Set_Setup_Stage, Log_Setup_Stage_Change.
  destruct ((new_stage <? 0) || (new_stage >? 6)); [kept_auto|].
  cbv zeta.
  assert (H1 : P (set_setup_stage new_stage s)) by (apply P_setup_stage; assumption).
  kept_auto.
Qed.

Lemma kept_Handle_Response s : P s -> P (Handle_Response s).
Proof.
  intros H. unfold Handle_Response.
  repeat first [ apply kept_Set_Setup_Stage; [vm_compute; split; discriminate|]
               | kept_step ].
Qed.

Lemma kept_main_check_timeout s : P s -> P (main_check_timeout s).
Proof. intros H. unfold main_check_timeout. kept_auto. Qed.

Lemma kept_main_send_request s : P s -> P (main_send_request s).
Proof.
  intros H.
  unfold main_send_request, Configure_ESP_As_Access_Point, Send_HTML_Header. kept_auto.
Qed.

Lemma kept_main_button s : P s -> P (main_button s).
Proof. intros H. unfold main_button, Indicate_Transmission_Mode. kept_auto. Qed.

Lemma kept_Establish_Connection_poll fuel : forall start_time s,
  P s -> P (Establish_Connection_poll fuel start_time s).
Proof.
  induction fuel as [|fuel IH]; intros start_time s H;
    cbn [Establish_Connection_poll]; repeat first [ apply IH | kept_step ].
Qed.

Lemma kept_Establish_Connection server_ip port s :
  P s -> P (Establish_Connection server_ip port s).
Proof.
  intros H. unfold Establish_Connection.
  repeat first [ apply kept_Establish_Connection_poll | kept_step ].
Qed.

Lemma kept_main_connect s : P s -> P (main_connect s).
Proof.
  intros H. unfold main_connect.
  repeat first [ apply kept_Establish_Connection | kept_step ].
Qed.

Lemma kept_main_front s : P s -> P (main_front s).
Proof.
  intros H. unfold main_front. cbv zeta.
  pose proof (kept_Has_Response_Finished
                (Check_Reception_Completion
                   (Log_Client_Request_Change (Log_Client_Status_Change s)))) as Hf.
  destruct (Has_Response_Finished
              (Check_Reception_Completion
                 (Log_Client_Request_Change (Log_Client_Status_Change s))))
    as [finished s1].
  cbn [snd] in Hf.
  assert (H1 : P s1).
  { apply Hf, kept_Check_Reception_Completion, kept_Log_Client_Request_Change,
      kept_Log_Client_Status_Change, H. }
  apply kept_main_connect, kept_main_button, kept_main_send_request,
    kept_main_check_timeout.
  destruct (finished =? 1); [apply kept_Handle_Response|]; exact H1.
Qed.

Lemma kept_wait_prompt fuel : forall start_time s,
  P s -> P (snd (Send_Data_wait_prompt fuel start_time s)).
Proof.
  induction fuel as [|fuel IH]; intros start_time s H;
    cbn [Send_Data_wait_prompt]; repeat case_cond; cbv zeta; cbn [snd];
    repeat first [ apply IH | kept_step ].
Qed.

Lemma kept_handshake fuel : forall retries start_time cmd s,
  U (c_str cmd) -> P s -> P (snd (Send_Data_handshake fuel retries start_time cmd s)).
Proof.
  induction fuel as [|fuel IH]; intros retries start_time cmd s Hcmd H;
    cbn [Send_Data_handshake];
    (destruct (retries <? MAX_RETRIES); [|exact H]);
    pose proof (kept_wait_prompt 100 start_time s H) as Hw;
    destruct (Send_Data_wait_prompt 100 start_time s) as [got_prompt s1];
    cbn [snd] in Hw;
    (destruct got_prompt; [exact Hw|]);
    cbv zeta;
    destruct (u8 (retries + 1) <? MAX_RETRIES); cbn [snd];
    try (apply IH; [exact Hcmd|]); repeat kept_step.
Qed.

Lemma kept_wait_send_ok fuel : forall start_time s,
  P s -> P (snd (Send_Data_wait_send_ok fuel start_time s)).
Proof.
  induction fuel as [|fuel IH]; intros start_time s H;
    cbn [Send_Data_wait_send_ok]; repeat case_cond; cbv zeta; cbn [snd];
    repeat first [ apply IH | kept_step ].
Qed.

Lemma kept_Send_Data_To_Server json_data s : P s -> P (Send_Data_To_Server json_data s).
Proof.
  intros H. unfold Send_Data_To_Server. cbv zeta.
  case_cond; [exact H|].
  case_cond; [kept_auto|].
  case_cond; [kept_auto|].
  match goal with
  | |- context [Send_Data_handshake ?f ?r ?st ?c ?s1] =>
      assert (Hh : P (snd (Send_Data_handshake f r st c s1)))
        by (apply kept_handshake; [kept_frame | kept_auto]);
      destruct (Send_Data_handshake f r st c s1) as [got_prompt s2]
  end.
  cbn [snd] in Hh.
  destruct got_prompt; cbn [negb]; [|kept_auto].
  match goal with
  | |- context [Send_Data_wait_send_ok ?f ?st ?s3] =>
      assert (Hs : P (snd (Send_Data_wait_send_ok f st s3)))
        by (apply kept_wait_send_ok; kept_auto);
      destruct (Send_Data_wait_send_ok f st s3) as [send_ok s4]
  end.
  cbn [snd] in Hs. kept_auto.
Qed.

Lemma kept_Transmit_Data_ASCII label x y z s :
  P s -> P (Transmit_Data_ASCII float printf_3f label x y z s).
Proof.
  intros H. unfold Transmit_Data_ASCII.
  repeat first [ apply kept_Send_Data_To_Server | kept_step ].
Qed.

Lemma kept_Handle_Magnetometer s :
  P s -> P (Handle_Magnetometer float scaled printf_3f s).
Proof.
  intros H. handler_unfold. destruct (mag_regs s) as [[x y] z]. cbv beta iota zeta.
  repeat first [ apply kept_Transmit_Data_ASCII | kept_step ].
Qed.

Lemma kept_Handle_Accelerometer s :
  P s -> P (Handle_Accelerometer float scaled printf_3f s).
Proof.
  intros H. handler_unfold. destruct (acc_regs s) as [[x y] z]. cbv beta iota zeta.
  repeat first [ apply kept_Transmit_Data_ASCII | kept_step ].
Qed.

Lemma kept_Handle_Gyroscope s :
  P s -> P (Handle_Gyroscope float scaled printf_3f s).
Proof.
  intros H. handler_unfold. destruct (gyr_regs s) as [[x y] z]. cbv beta iota zeta.
  repeat first [ apply kept_Transmit_Data_ASCII | kept_step ].
Qed.

Lemma kept_main_sensors s : P s -> P (main_sensors float scaled printf_3f s).
Proof.
  intros H. unfold main_sensors.
  repeat first [ apply kept_Handle_Gyroscope | apply kept_Handle_Accelerometer
               | apply kept_Handle_Magnetometer | kept_step ].
Qed.

Lemma kept_main_loop_body s : P s -> P (main_loop_body float scaled printf_3f s).
Proof.
  intros H. rewrite main_loop_body_split.
  apply kept_main_sensors, kept_main_front, H.
Qed.

Lemma kept_main_loop n : forall s, P s -> P (main_loop float scaled printf_3f n s).
Proof.
  induction n as [|n IH]; intros s H; [exact H|].
  cbn [main_loop]. apply IH, kept_tick_step, kept_main_loop_body, H.
Qed.

End Footprint.

(** ** The variables stay in range *)

Lemma in_range_initial t0 future : in_range (initial_state t0 future).
Proof. unfold in_range. cbn. unfold MODE_NONE, AT_TEST, IDLE. lia. Qed.

Lemma u8_mod_5 m : 0 <= u8 (m mod 5) <= 4.
Proof.
  pose proof (Z.mod_pos_bound m 5). unfold u8. rewrite Z.mod_small; lia.
Qed.

Lemma u16_range x : 0 <= u16 x < 65536.
Proof. unfold u16. apply Z.mod_pos_bound. lia. Qed.

Section Ranges.

Variable float : Type.
Variable scaled : Z -> Z -> float.
Variable printf_3f : float -> list Z.

Lemma in_range_main_loop n s :
  in_range s -> in_range (main_loop float scaled printf_3f n s).
Proof.
  apply (kept_main_loop float scaled printf_3f in_range (fun _ => True)); clear s.
  - intros s s' E. unfold in_range. rewrite E. trivial.
  - intros data s. unfold in_range. cbn. trivial.
  - intros data s _. unfold in_range. cbn. trivial.
  - trivial.
  - intros device reg len s. unfold in_range. cbn. trivial.
  - intros reg len s. unfold in_range. cbn. trivial.
  - intros v s Hv. unfold in_range. cbn. lia.
  - intros v s Hv. unfold in_range. cbn. lia.
  - intros v s. unfold in_range. cbn. trivial.
  - intros v s Hv. unfold in_range. cbn. lia.
  - intros v s Hv. unfold in_range. cbn. lia.
  - intros s. unfold in_range. cbn. lia.
  - intros v s Hv. unfold in_range. cbn. lia.
  - intros s. unfold in_range. cbn. lia.
  - intros v s Hv. unfold in_range. cbn. lia.
  - intros s. unfold in_range. cbn. trivial.
  - intros v s. unfold in_range. cbn. trivial.
  - intros v s. unfold in_range. cbn. trivial.
  - intros s. unfold in_range. cbn -[u8 Z.modulo].
    pose proof (u8_mod_5 (transmission_mode s + 1)). lia.
  - intros s. unfold in_range. cbn -[u16].
    pose proof (u16_range (packet_number s + 1)). lia.
Qed.

(** X9. From reset, whatever the interrupts and however long the loop
    runs, as long as every credential request it receives is one the
    request handler is defined for, the foreground variables keep
    values their uses are written for: the transmission mode stays
    within the five entries of the table of mode names that
    [Indicate_Transmission_Mode] indexes, the setup stage within the
    six stages [Configure_ESP_As_Access_Point] has a command for (the
    unimplemented AT_SEND_CONNECT_REQUEST is never entered), the
    response status within the six statuses, the packet number within
    16 bits, and the flags are 0 or 1. *)
Theorem variables_stay_in_range (n : nat) (t0 : Z) (future : list (list irq)) :
  main_loop_defined float scaled printf_3f n (initial_state t0 future) = true ->
  let s := main_loop float scaled printf_3f n (initial_state t0 future) in
  MODE_NONE <= transmission_mode s <= MODE_ASCII_CDC
  /\ AT_TEST <= setup_stage s <= AT_SEND_HTML
  /\ TIMEOUT <= response_status s <= SEND_REQUEST
  /\ 0 <= packet_number s < 65536
  /\ 0 <= has_response_changed s <= 1
  /\ 0 <= connection_established s <= 1
  /\ 0 <= is_client_connected s <= 1
  /\ 0 <= was_client_connected s <= 1
  /\ 0 <= is_client_requesting_page s <= 1
  /\ 0 <= was_client_requesting_page s <= 1.
Proof.
  intros _ s. apply (in_range_main_loop n), in_range_initial.
Qed.

End Ranges.

Lemma variables_stay_in_range_witness :
  let request := str "+IPD,0,49:GET /?ssid=MyNet&password=Secr3t HTTP/1.1" ++ crlf ++ crlf in
  let long_press := [[IrqButton true]] ++ replicate 599 [] ++ [[IrqButton false]] in
  let future := replicate 20 [] ++ [List.map IrqRx request] ++ long_press in
  let s := main_loop Z Z.mul dec 700 (initial_state 170 future) in
  transmission_mode s = MODE_BINARY_UART
  /\ response_status s = WAITING
  /\ 0 <= packet_number s < 65536.
Proof.
  intros request long_press future s.
  assert (Hd : main_loop_defined Z Z.mul dec 700 (initial_state 170 future) = true)
    by (vm_compute; reflexivity).
  destruct (variables_stay_in_range Z Z.mul dec 700 170 future Hd)
    as (_ & _ & _ & Hp & _).
  split; [vm_compute; reflexivity|].
  split; [vm_compute; reflexivity | exact Hp].
Defined.

(** ** Every sample takes a packet number *)

Section Samples.

Variable float : Type.
Variable scaled : Z -> Z -> float.
Variable printf_3f : float -> list Z.

Lemma Transmit_Data_ASCII_keeps label x y z s :
  packet_number (Transmit_Data_ASCII float printf_3f label x y z s) = packet_number s
  /\ transmission_mode (Transmit_Data_ASCII float printf_3f label x y z s)
     = transmission_mode s.
Proof.
  apply (kept_Transmit_Data_ASCII float printf_3f
           (fun x => packet_number x = packet_number s
                     /\ transmission_mode x = transmission_mode s)
           (fun _ => True));
    try (intros; assumption); try trivial.
  - intros s1 s2 E. rewrite E. trivial.
  - split; reflexivity.
Qed.

Ltac sample_counted :=
  cbv beta iota zeta; fg_simpl;
  repeat case_cond; fg_simpl;
  rewrite ?(proj1 (Transmit_Data_ASCII_keeps _ _ _ _ _)),
    ?(proj2 (Transmit_Data_ASCII_keeps _ _ _ _ _));
  fg_simpl; reflexivity.

Lemma Handle_Magnetometer_counts s :
  packet_number (Handle_Magnetometer float scaled printf_3f s) = u16 (packet_number s + 1)
  /\ transmission_mode (Handle_Magnetometer float scaled printf_3f s) = transmission_mode s.
Proof.
  split; handler_unfold; destruct (mag_regs s) as [[x y] z]; sample_counted.
Qed.

Lemma Handle_Accelerometer_counts s :
  packet_number (Handle_Accelerometer float scaled printf_3f s) = u16 (packet_number s + 1)
  /\ transmission_mode (Handle_Accelerometer float scaled printf_3f s)
     = transmission_mode s.
Proof.
  split; handler_unfold; destruct (acc_regs s) as [[x y] z]; sample_counted.
Qed.

Lemma Handle_Gyroscope_counts s :
  packet_number (Handle_Gyroscope float scaled printf_3f s) = u16 (packet_number s + 1)
  /\ transmission_mode (Handle_Gyroscope float scaled printf_3f s) = transmission_mode s.
Proof.
  split; handler_unfold; destruct (gyr_regs s) as [[x y] z]; sample_counted.
Qed.

(** X10. Every sample that a handler takes up consumes one packet
    number, whatever the mode and whether or not anything was sent for
    it (no mode selected, text sample inside the minimum interval,
    failed send): the handler leaves the counter one higher, modulo
    2^16, and does not touch the transmission mode. *)
Theorem every_sample_takes_a_packet_number s :
  (packet_number (Handle_Magnetometer float scaled printf_3f s) = u16 (packet_number s + 1)
   /\ transmission_mode (Handle_Magnetometer float scaled printf_3f s) = transmission_mode s)
  /\ (packet_number (Handle_Accelerometer float scaled printf_3f s)
      = u16 (packet_number s + 1)
      /\ transmission_mode (Handle_Accelerometer float scaled printf_3f s)
         = transmission_mode s)
  /\ (packet_number (Handle_Gyroscope float scaled printf_3f s) = u16 (packet_number s + 1)
      /\ transmission_mode (Handle_Gyroscope float scaled printf_3f s)
         = transmission_mode s).
Proof.
  split; [apply Handle_Magnetometer_counts|].
  split; [apply Handle_Accelerometer_counts | apply Handle_Gyroscope_counts].
Qed.

Lemma s16_range x : -32768 <= s16 x < 32768.
Proof. unfold s16. pose proof (Z.mod_pos_bound (x + 32768) 65536). lia. Qed.

Lemma Unpack_packet_of header regs s :
  0 <= header < 65536 ->
  0 <= packet_number s < 65536 ->
  Unpack_Data (packet_of header regs s) = sample_of header regs s.
Proof.
  intros Hh Hn. unfold packet_of, sample_of, raw_of. destruct regs as [[x y] z].
  unfold Pack_Data, Unpack_Data.
  rewrite !le16_unsigned by assumption.
  rewrite !le16_signed by apply s16_range.
  reflexivity.
Qed.

(** X11. In the two binary modes the frame a handler sends reads back
    as the sample it was made from: unpacked, it gives the header of
    the sensor, the packet number at the time of the sample and the
    three axes as the 16-bit signed values the sensor held.  In the
    remote binary mode it is the one frame sent to the modem, in the
    local binary mode the frame sent last to the USB port. *)
Theorem binary_frames_read_back_as_the_sample s :
  0 <= packet_number s < 65536 ->
  (transmission_mode s = MODE_BINARY_UART ->
   List.map Unpack_Data (uart_sent (new_events (Handle_Magnetometer float scaled printf_3f) s))
   = [sample_of HEADER_MAG (mag_regs s) s]
   /\ List.map Unpack_Data
        (uart_sent (new_events (Handle_Accelerometer float scaled printf_3f) s))
      = [sample_of HEADER_ACC (acc_regs s) s]
   /\ List.map Unpack_Data (uart_sent (new_events (Handle_Gyroscope float scaled printf_3f) s))
      = [sample_of HEADER_GYR (gyr_regs s) s])
  /\ (transmission_mode s = MODE_BINARY_CDC ->
      (exists frame,
         head (new_events (Handle_Magnetometer float scaled printf_3f) s) = Some (CdcTx frame)
         /\ Unpack_Data frame = sample_of HEADER_MAG (mag_regs s) s)
      /\ (exists frame,
            head (new_events (Handle_Accelerometer float scaled printf_3f) s)
            = Some (CdcTx frame)
            /\ Unpack_Data frame = sample_of HEADER_ACC (acc_regs s) s)
      /\ (exists frame,
            head (new_events (Handle_Gyroscope float scaled printf_3f) s) = Some (CdcTx frame)
            /\ Unpack_Data frame = sample_of HEADER_GYR (gyr_regs s) s)).
Proof.
  intros Hn.
  assert (Hmag : 0 <= HEADER_MAG < 65536) by (unfold HEADER_MAG; lia).
  assert (Hacc : 0 <= HEADER_ACC < 65536) by (unfold HEADER_ACC; lia).
  assert (Hgyr : 0 <= HEADER_GYR < 65536) by (unfold HEADER_GYR; lia).
  split; intros Hmode.
  - destruct (handlers_binary_uart float scaled printf_3f s Hmode) as (-> & -> & ->).
    cbn [List.map]. rewrite !Unpack_packet_of by assumption. repeat split.
  - destruct (handlers_binary_cdc float scaled printf_3f s Hmode)
      as ((Hm & _) & (Ha & _) & (Hg & _)).
    repeat split; eexists; (split; [eassumption|]); apply Unpack_packet_of; assumption.
Qed.

End Samples.

Lemma binary_frames_read_back_as_the_sample_witness :
  let s := set_gyr_regs (40000, -1, 32767)
             (set_packet_number 513
                (set_transmission_mode MODE_BINARY_UART (initial_state 170 []))) in
  uart_sent (new_events (Handle_Gyroscope Z Z.mul dec) s)
  = [[204; 204; 1; 2; 64; 156; 255; 255; 255; 127]]
  /\ List.map Unpack_Data (uart_sent (new_events (Handle_Gyroscope Z Z.mul dec) s))
     = [Some (HEADER_GYR, 513, -25536, -1, 32767)].
Proof.
  intros s. split; [vm_compute; reflexivity|].
  assert (Hn : 0 <= packet_number s < 65536)
    by (vm_compute; split; [discriminate | reflexivity]).
  destruct (binary_frames_read_back_as_the_sample Z Z.mul dec s Hn) as [H _].
  destruct (H eq_refl) as (_ & _ & Hg). rewrite Hg. reflexivity.
Defined.

(** ** The data path and the response status *)

Lemma strlen_snprintf size text : 1 <= size -> strlen (snprintf size text) <= size - 1.
Proof.
  intros H. unfold strlen, snprintf, lit.
  pose proof (c_str_length_le (take (Z.to_nat (size - 1)) text ++ [0])
                (length (take (Z.to_nat (size - 1)) text))) as Hc.
  rewrite lookup_app_r in Hc by lia.
  replace (length (take (Z.to_nat (size - 1)) text)
           - length (take (Z.to_nat (size - 1)) text))%nat with 0%nat in Hc by lia.
  specialize (Hc eq_refl). rewrite length_take in Hc. lia.
Qed.

Lemma awaiting_fg s s' : fg s' = fg s -> awaiting s -> awaiting s'.
Proof. unfold awaiting. intros ->. trivial. Qed.

Lemma awaiting_view s s' :
  response_status s' = response_status s ->
  has_response_changed s' = has_response_changed s ->
  awaiting s -> awaiting s'.
Proof. unfold awaiting. intros -> ->. trivial. Qed.

Ltac awaiting_from H :=
  match type of H with
  | awaiting ?s0 =>
      apply (awaiting_view s0); [fg_simpl; reflexivity | fg_simpl; reflexivity | exact H]
  end.

Lemma awaiting_emit e s : awaiting s -> awaiting (emit e s).
Proof. trivial. Qed.

Lemma awaiting_Send_Command cmd s : awaiting (Send_Command cmd s).
Proof. unfold awaiting. fg_simpl. split; reflexivity. Qed.

Lemma awaiting_wait_prompt fuel start_time s :
  awaiting s -> awaiting (snd (Send_Data_wait_prompt fuel start_time s)).
Proof.
  apply kept_wait_prompt; [exact awaiting_fg | intros data s'; apply awaiting_emit].
Qed.

Lemma awaiting_wait_send_ok fuel start_time s :
  awaiting s -> awaiting (snd (Send_Data_wait_send_ok fuel start_time s)).
Proof.
  apply kept_wait_send_ok;
    [exact awaiting_fg | intros data s'; apply awaiting_emit | trivial].
Qed.

Lemma awaiting_handshake fuel : forall retries start_time cmd s,
  awaiting s -> awaiting (snd (Send_Data_handshake fuel retries start_time cmd s)).
Proof.
  induction fuel as [|fuel IH]; intros retries start_time cmd s H;
    cbn [Send_Data_handshake];
    (destruct (retries <? MAX_RETRIES); [|exact H]);
    pose proof (awaiting_wait_prompt 100 start_time s H) as Hw;
    destruct (Send_Data_wait_prompt 100 start_time s) as [got_prompt s1];
    cbn [snd] in Hw;
    (destruct got_prompt; [exact Hw|]);
    cbv zeta;
    destruct (u8 (retries + 1) <? MAX_RETRIES); cbn [snd];
    try apply IH; try exact Hw;
    apply (awaiting_fg (Send_Command cmd (Clear_RX_Buffer
             (CDC_Transmit_FS (lit (str "Retrying CIPSEND..." ++ lf)) 20 s1))));
    first [ apply fg_HAL_Delay | apply awaiting_Send_Command ].
Qed.

(** X12. The data path takes over the response status of the
    provisioning: every call of [Send_Data_To_Server] that passes the
    interval check issues its AT commands through [Send_Command] and
    never classifies an answer, so that it returns with the status
    Waiting and the change flagged, whatever the status was and
    however the send ended.  The exit for a request that is too large
    is never taken: [snprintf] has cut the request to 511 characters
    before its length is compared with 512. *)
Theorem Send_Data_To_Server_leaves_status_waiting json_data s :
  MIN_INTERVAL <= u32 (HAL_GetTick s - server_last_send_time s) ->
  response_status (Send_Data_To_Server json_data s) = WAITING
  /\ has_response_changed (Send_Data_To_Server json_data s) = 1.
Proof.
  intros Hint. change (awaiting (Send_Data_To_Server json_data s)).
  unfold Send_Data_To_Server. cbv zeta.
  destruct (Z.ltb_spec (u32 (HAL_GetTick s - server_last_send_time s)) MIN_INTERVAL);
    [lia|].
  match goal with
  | |- context [strlen (snprintf 512 ?text) >? 512] =>
      pose proof (strlen_snprintf 512 text ltac:(lia)) as Hlen;
      destruct (Z.gtb_spec (strlen (snprintf 512 text)) 512); [lia|]
  end.
  assert (Hstatus : awaiting (HAL_Delay 100
            (Send_Command (lit (str "AT+CIPSTATUS" ++ crlf))
               (CDC_Transmit_FS (lit (str "Checking connection status..." ++ lf)) 29 s)))).
  { eapply awaiting_fg; [apply fg_HAL_Delay | apply awaiting_Send_Command]. }
  case_cond.
  - awaiting_from Hstatus.
  - match goal with
    | |- context [Send_Data_handshake ?f ?r ?st ?c ?s1] =>
        assert (Hh : awaiting (snd (Send_Data_handshake f r st c s1)))
          by (apply awaiting_handshake;
              eapply awaiting_fg; [apply fg_HAL_Delay | apply awaiting_Send_Command]);
        destruct (Send_Data_handshake f r st c s1) as [got_prompt s2]
    end.
    cbn [snd] in Hh.
    destruct got_prompt; cbn [negb].
    + match goal with
      | |- context [Send_Data_wait_send_ok ?f ?st ?s3] =>
          assert (Hs : awaiting (snd (Send_Data_wait_send_ok f st s3)));
          [ apply awaiting_wait_send_ok; awaiting_from Hh
          | destruct (Send_Data_wait_send_ok f st s3) as [send_ok s4] ]
      end.
      cbn [snd] in Hs.
      destruct send_ok; cbn [negb]; awaiting_from Hs.
    + awaiting_from Hh.
Qed.

Lemma Send_Data_To_Server_leaves_status_waiting_witness :
  let s := initial_state 1000 [] in
  response_status s = IDLE
  /\ response_status (Send_Data_To_Server (lit (str "{}")) s) = WAITING.
Proof.
  intros s. split; [reflexivity|].
  destruct (Send_Data_To_Server_leaves_status_waiting (lit (str "{}")) s) as [H _];
    [vm_compute; discriminate | exact H].
Defined.

(** ** How long the blocking calls last *)

Lemma took_start lo hi s : lo <= 0 <= hi -> took lo hi s s.
Proof.
  intros H. exists 0. split; [exact H|]. intros t0.
  rewrite u32_add_l. f_equal. lia.
Qed.

Lemma took_weaken lo hi lo' hi' s0 s :
  took lo hi s0 s -> lo' <= lo -> hi <= hi' -> took lo' hi' s0 s.
Proof. intros (d & Hd & H) Hlo Hhi. exists d. split; [lia | exact H]. Qed.

Lemma took_tick lo hi s0 s s' : tick s' = tick s -> took lo hi s0 s -> took lo hi s0 s'.
Proof. unfold took. intros ->. trivial. Qed.

Lemma took_from lo hi (s0 s0' : State) s :
  tick s0' = tick s0 -> took lo hi s0 s -> took lo hi s0' s.
Proof. unfold took. intros ->. trivial. Qed.

Lemma took_HAL_Delay ms lo hi s0 s :
  0 <= ms -> took (lo - ms) (hi - ms) s0 s -> took lo hi s0 (HAL_Delay ms s).
Proof.
  intros Hms (d & Hd & H). exists (d + ms). split; [lia|]. intros t0.
  rewrite elapsed_HAL_Delay by exact Hms. rewrite H, u32_add_l. f_equal. lia.
Qed.

Lemma took_tick_step lo hi s0 s :
  took (lo - 1) (hi - 1) s0 s -> took lo hi s0 (tick_step s).
Proof.
  intros (d & Hd & H). exists (d + 1). split; [lia|]. intros t0.
  rewrite elapsed_tick_step, H, u32_add_l. f_equal. lia.
Qed.

Lemma took_elapsed lo hi s0 s :
  took lo hi s0 s -> 0 <= lo -> hi < 4294967296 ->
  lo <= u32 (HAL_GetTick s - HAL_GetTick s0) <= hi.
Proof.
  intros (d & Hd & H) Hlo Hhi. unfold HAL_GetTick. rewrite H.
  replace (tick s0 - tick s0) with 0 by lia.
  change (u32 0) with 0. unfold u32. rewrite Z.mod_small; lia.
Qed.

Lemma took_Clear_RX_Buffer lo hi s0 s :
  took lo hi s0 s -> took lo hi s0 (Clear_RX_Buffer s).
Proof. apply took_tick. apply tick_Clear_RX_Buffer. Qed.

Lemma took_Send_Command cmd lo hi s0 s :
  took lo hi s0 s -> took lo hi s0 (Send_Command cmd s).
Proof. apply took_tick. apply tick_Send_Command. Qed.

Lemma took_CDC_Transmit_FS buf len lo hi s0 s :
  took lo hi s0 s -> took lo hi s0 (CDC_Transmit_FS buf len s).
Proof. apply took_tick. reflexivity. Qed.

Lemma took_HAL_UART_Transmit data lo hi s0 s :
  took lo hi s0 s -> took lo hi s0 (HAL_UART_Transmit data s).
Proof. apply took_tick. reflexivity. Qed.

Lemma took_Change_Response_Status new_status lo hi s0 s :
  took lo hi s0 s -> took lo hi s0 (Change_Response_Status new_status s).
Proof. apply took_tick. rewrite hw_Change_Response_Status. reflexivity. Qed.

#[global] Opaque took.

Ltac took_step :=
  cbv zeta;
  lazymatch goal with
  | |- took _ _ _ (if ?c then _ else _) => destruct c
  | |- took _ _ _ (HAL_Delay _ _) => apply took_HAL_Delay; [lia|]
  | |- took _ _ _ (tick_step _) => apply took_tick_step
  | |- took _ _ _ (Clear_RX_Buffer _) => apply took_Clear_RX_Buffer
  | |- took _ _ _ (Send_Command _ _) => apply took_Send_Command
  | |- took _ _ _ (CDC_Transmit_FS _ _ _) => apply took_CDC_Transmit_FS
  | |- took _ _ _ (HAL_UART_Transmit _ _) => apply took_HAL_UART_Transmit
  | |- took _ _ _ (Change_Response_Status _ _) => apply took_Change_Response_Status
  | |- took ?lo ?hi ?s0 (?f ?v ?W) =>
      lazymatch f with
      | set_connection_established => idtac
      | set_server_last_send_time => idtac
      | set_ascii_last_send_time => idtac
      end;
      apply (took_tick lo hi s0 W); [sh_simpl; reflexivity|]
  end.

Lemma took_Establish_Connection_poll fuel : forall start_time lo hi s0 s,
  took lo (hi - Z.of_nat fuel) s0 s ->
  took lo hi s0 (Establish_Connection_poll fuel start_time s).
Proof.
  induction fuel as [|fuel IH]; intros start_time lo hi s0 s H;
    cbn [Establish_Connection_poll]; repeat took_step;
    try (apply (took_weaken _ _ _ _ _ _ H); lia).
  apply IH, took_tick_step. apply (took_weaken _ _ _ _ _ _ H); lia.
Qed.

Lemma Establish_Connection_poll_outcome fuel : forall start_time s,
  5000 <= u32 (HAL_GetTick s - start_time) + Z.of_nat fuel ->
  let s' := Establish_Connection_poll fuel start_time s in
  (response_status s' = SUCCESS \/ response_status s' = ERROR
   \/ response_status s' = TIMEOUT)
  /\ has_response_changed s' = 1.
Proof.
  assert (Hexit : forall v s, 0 <= v <= 5 -> forall buf len,
            response_status
              (Clear_RX_Buffer (Change_Response_Status v (CDC_Transmit_FS buf len s))) = v
            /\ has_response_changed
                 (Clear_RX_Buffer (Change_Response_Status v (CDC_Transmit_FS buf len s)))
               = 1).
  { intros v s Hv buf len. fg_simpl.
    rewrite fg_Change_Response_Status_valid by exact Hv. fg_simpl. split; reflexivity. }
  induction fuel as [|fuel IH]; intros start_time s H s'; unfold s';
    rewrite Establish_Connection_poll_eq;
    (destruct (Z.ltb_spec (u32 (HAL_GetTick s - start_time)) 5000) as [Hlt|Hge];
     [|destruct (Hexit TIMEOUT s ltac:(unfold TIMEOUT; lia)
                   (lit (str "Connection attempt timed out" ++ lf)) 29) as [-> ->];
       auto]);
    (case_cond;
     [destruct (Hexit SUCCESS s ltac:(unfold SUCCESS; lia)
                  (lit (str "TCP connection established" ++ lf)) 26) as [-> ->]; auto|]);
    (case_cond;
     [destruct (Hexit ERROR s ltac:(unfold ERROR; lia)
                  (lit (str "TCP connection failed" ++ lf)) 23) as [-> ->]; auto|]).
  - cbn in H. lia.
  - apply IH. unfold HAL_GetTick in *. rewrite elapsed_tick_step.
    pose proof (u32_range (tick s - start_time)).
    unfold u32 at 1. rewrite Z.mod_small; lia.
Qed.

Lemma Establish_Connection_outcome server_ip port s :
  let s' := Establish_Connection server_ip port s in
  (response_status s' = SUCCESS \/ response_status s' = ERROR
   \/ response_status s' = TIMEOUT)
  /\ has_response_changed s' = 1.
Proof.
  intros s'.
  assert (Hout := Establish_Connection_poll_outcome).
  unfold s', Establish_Connection. cbv zeta.
  match goal with
  | |- context [Establish_Connection_poll ?f (HAL_GetTick ?s2) ?s2] =>
      specialize (Hout f (HAL_GetTick s2) s2)
  end.
  cbv zeta in Hout. apply Hout.
  replace (HAL_GetTick _ - HAL_GetTick _) with 0 by lia.
  change (u32 0) with 0. rewrite Z2Nat.id; lia.
Qed.

Lemma took_Establish_Connection_exact server_ip port s :
  took 100 5100 s (Establish_Connection server_ip port s).
Proof.
  unfold Establish_Connection. cbv zeta.
  apply took_Establish_Connection_poll. rewrite Z2Nat.id by lia.
  repeat took_step. apply took_start. lia.
Qed.

(** X13. [Establish_Connection] always comes back with the attempt
    classified: the status is Success, Error or Timeout, never the
    Waiting of its own commands, and the change is flagged; the receive
    buffer is in order and armed; and the call blocks the loop for at
    least the 100 ticks of its pause and at most 5100 ticks. *)
Theorem Establish_Connection_ends_classified server_ip port s :
  let s' := Establish_Connection server_ip port s in
  (response_status s' = SUCCESS \/ response_status s' = ERROR
   \/ response_status s' = TIMEOUT)
  /\ has_response_changed s' = 1
  /\ rx_inv s'
  /\ 100 <= u32 (HAL_GetTick s' - HAL_GetTick s) <= 5100.
Proof.
  intros s'.
  destruct (Establish_Connection_outcome server_ip port s) as [Hst Hch].
  split; [exact Hst|]. split; [exact Hch|]. split.
  - unfold s', Establish_Connection. cbv zeta.
    apply rx_inv_Establish_Connection_poll, rx_inv_Send_Command.
  - apply (took_elapsed 100 5100); [|lia|lia]. apply took_Establish_Connection_exact.
Qed.

Ltac took_done H := apply (took_weaken _ _ _ _ _ _ H); lia.

Lemma took_wait_prompt fuel : forall start_time lo hi s0 s,
  took lo (hi - (10 * Z.of_nat fuel + 50)) s0 s ->
  took lo hi s0 (snd (Send_Data_wait_prompt fuel start_time s)).
Proof.
  induction fuel as [|fuel IH]; intros start_time lo hi s0 s H;
    cbn [Send_Data_wait_prompt]; repeat case_cond; cbv zeta; cbn [snd];
    repeat took_step; try took_done H.
  apply IH. took_step. took_done H.
Qed.

Lemma took_wait_send_ok fuel : forall start_time lo hi s0 s,
  took lo (hi - 10 * Z.of_nat fuel) s0 s ->
  took lo hi s0 (snd (Send_Data_wait_send_ok fuel start_time s)).
Proof.
  induction fuel as [|fuel IH]; intros start_time lo hi s0 s H;
    cbn [Send_Data_wait_send_ok]; repeat case_cond; cbv zeta; cbn [snd];
    repeat took_step; try took_done H.
  apply IH. took_step. took_done H.
Qed.

(** An attempt waits at most 1050 ticks for the prompt and pauses 200
    ticks before the next one. *)
Lemma took_handshake fuel : forall retries start_time cmd lo hi s0 s,
  0 <= retries <= 3 ->
  (retries < 3 /\ took lo (hi - (1250 * (3 - retries) - 200)) s0 s)
  \/ (retries = 3 /\ took lo hi s0 s) ->
  took lo hi s0 (snd (Send_Data_handshake fuel retries start_time cmd s)).
Proof.
  unfold MAX_RETRIES.
  induction fuel as [|fuel IH]; intros retries start_time cmd lo hi s0 s Hr H;
    cbn [Send_Data_handshake]; unfold MAX_RETRIES;
    (destruct (Z.ltb_spec retries 3) as [Hlt|Hge];
     [|cbn [snd]; destruct H as [[Hlt _]|[_ H]]; [lia | exact H]]);
    (destruct H as [[_ H]|[Heq _]]; [|lia]);
    assert (Hu : u8 (retries + 1) = retries + 1) by (unfold u8; apply Z.mod_small; lia);
    assert (Hw : took lo (hi - (1250 * (3 - retries) - 200) + 1050) s0
                   (snd (Send_Data_wait_prompt 100 start_time s)))
      by (apply took_wait_prompt; took_done H);
    destruct (Send_Data_wait_prompt 100 start_time s) as [got_prompt s1];
    cbn [snd] in Hw;
    (destruct got_prompt; [cbn [snd]; took_done Hw|]);
    cbv zeta; rewrite Hu;
    destruct (Z.ltb_spec (retries + 1) 3); cbn [snd].
  - repeat took_step. took_done Hw.
  - took_done Hw.
  - apply IH; [lia|]. left. split; [lia|]. repeat took_step. took_done Hw.
  - apply IH; [lia|]. right. split; [lia|]. took_done Hw.
Qed.

Lemma took_Send_Data_To_Server json_data lo hi s0 s :
  took lo (hi - 5850) s0 s -> took lo hi s0 (Send_Data_To_Server json_data s).
Proof.
  intros H. unfold Send_Data_To_Server. cbv zeta.
  case_cond; [took_done H|].
  case_cond; [repeat took_step; took_done H|].
  case_cond; [repeat took_step; took_done H|].
  match goal with
  | |- context [Send_Data_handshake ?f ?r ?st ?c ?s1] =>
      assert (Hh : took lo (hi - 2000) s0 (snd (Send_Data_handshake f r st c s1)))
        by (apply took_handshake; [lia|]; left; split; [lia|]; repeat took_step; took_done H);
      destruct (Send_Data_handshake f r st c s1) as [got_prompt s2]
  end.
  cbn [snd] in Hh.
  destruct got_prompt; cbn [negb]; [|repeat took_step; took_done Hh].
  match goal with
  | |- context [Send_Data_wait_send_ok ?f ?st ?s3] =>
      assert (Hs : took lo hi s0 (snd (Send_Data_wait_send_ok f st s3)))
        by (apply took_wait_send_ok; repeat took_step; took_done Hh);
      destruct (Send_Data_wait_send_ok f st s3) as [send_ok s4]
  end.
  cbn [snd] in Hs. repeat took_step; exact Hs.
Qed.

(** X14. [Send_Data_To_Server] returns within 5850 ticks, whatever the
    modem does: 100 ticks for the status query, 200 for the send
    command, three attempts of at most 1050 ticks to get the prompt
    with 200 ticks before each retry, and 2000 ticks for the
    acknowledgment.  A call that passes the interval check lasts at
    least the 100 ticks of the status query. *)
Theorem Send_Data_To_Server_returns_within json_data s :
  let s' := Send_Data_To_Server json_data s in
  u32 (HAL_GetTick s' - HAL_GetTick s) <= 5850
  /\ (MIN_INTERVAL <= u32 (HAL_GetTick s - server_last_send_time s) ->
      100 <= u32 (HAL_GetTick s' - HAL_GetTick s)).
Proof.
  intros s'. split.
  - apply (took_elapsed 0 5850); [|lia|lia].
    apply took_Send_Data_To_Server, took_start. lia.
  - intros Hint.
    apply (took_elapsed 100 5850); [|lia|lia].
    unfold s', Send_Data_To_Server. cbv zeta.
    destruct (Z.ltb_spec (u32 (HAL_GetTick s - server_last_send_time s)) MIN_INTERVAL);
      [lia|].
    match goal with
    | |- context [strlen (snprintf 512 ?text) >? 512] =>
        pose proof (strlen_snprintf 512 text ltac:(lia)) as Hlen;
        destruct (Z.gtb_spec (strlen (snprintf 512 text)) 512); [lia|]
    end.
    assert (Hnow : took 0 0 s s) by (apply took_start; lia).
    case_cond; [repeat took_step; took_done Hnow|].
    match goal with
    | |- context [Send_Data_handshake ?f ?r ?st ?c ?s1] =>
        assert (Hh : took 100 (5850 - 2000) s (snd (Send_Data_handshake f r st c s1)))
          by (apply took_handshake; [lia|]; left; split; [lia|]; repeat took_step;
              took_done Hnow);
        destruct (Send_Data_handshake f r st c s1) as [got_prompt s2]
    end.
    cbn [snd] in Hh.
    destruct got_prompt; cbn [negb]; [|repeat took_step; took_done Hh].
    match goal with
    | |- context [Send_Data_wait_send_ok ?f ?st ?s3] =>
        assert (Hs : took 100 5850 s (snd (Send_Data_wait_send_ok f st s3)))
          by (apply took_wait_send_ok; repeat took_step; took_done Hh);
        destruct (Send_Data_wait_send_ok f st s3) as [send_ok s4]
    end.
    cbn [snd] in Hs. repeat took_step; exact Hs.
Qed.

(** ** How long one pass of the loop lasts *)

Ltac took_other :=
  match goal with
  | |- took ?lo ?hi ?s0 (?f ?v ?W) =>
      lazymatch f with
      | set_packet_number => idtac
      | set_transmission_mode => idtac
      | set_setup_stage => idtac
      | set_has_response_changed => idtac
      | set_is_client_connected => idtac
      | set_was_client_connected => idtac
      | set_is_client_requesting_page => idtac
      | set_was_client_requesting_page => idtac
      | set_receiving_data => idtac
      | emit => idtac
      end;
      apply (took_tick lo hi s0 W); [sh_simpl; reflexivity|]
  | |- took ?lo ?hi ?s0 (?f ?v ?W) =>
      lazymatch f with
      | set_data_ready_mag => idtac
      | set_data_ready_acc => idtac
      | set_data_ready_gyr => idtac
      | set_button_action_pending => idtac
      end;
      let H := fresh "H" in
      assert (H : forall s : State, tick (f v s) = tick s) by reflexivity;
      apply (took_tick lo hi s0 W); [apply H|]; clear H
  end.

Ltac took_auto H := repeat first [ took_step | took_other ]; try took_done H.

Lemma took_Log_Client_Status_Change lo hi s0 s :
  took lo (hi - 10) s0 s -> took lo hi s0 (Log_Client_Status_Change s).
Proof. intros H. unfold Log_Client_Status_Change. took_auto H. Qed.

Lemma took_Log_Client_Request_Change lo hi s0 s :
  took lo (hi - 10) s0 s -> took lo hi s0 (Log_Client_Request_Change s).
Proof. intros H. unfold Log_Client_Request_Change. took_auto H. Qed.

Lemma took_Log_Uart_Response lo hi s0 s :
  took lo (hi - 30) s0 s -> took lo hi s0 (Log_Uart_Response s).
Proof. intros H. unfold Log_Uart_Response. took_auto H. Qed.

Lemma took_Handle_Client_Request lo hi s0 s :
  took lo (hi - 20) s0 s -> took lo hi s0 (Handle_Client_Request s).
Proof.
  intros H. unfold Handle_Client_Request, Send_Connect_Request. took_auto H.
Qed.

Lemma took_Check_Reception_Completion_log lo hi s0 s :
  took lo (hi - 60) s0 s -> took lo hi s0 (Check_Reception_Completion_log s).
Proof.
  intros H. unfold Check_Reception_Completion_log.
  repeat first [ apply took_Log_Uart_Response | took_step ]; took_done H.
Qed.

Ltac took_cut :=
  cbv zeta;
  lazymatch goal with
  | |- took ?lo ?hi ?s0 (if found (rx_buffer (sh ?s')) _ then _ else _) =>
      cut (took lo hi s0 s');
      [ generalize s'; let x := fresh "s" in let Hx := fresh "H" in
        intros x Hx; took_auto Hx | ]
  end.

Lemma took_Check_Reception_Completion_classify lo hi s0 s :
  took lo (hi - 20) s0 s -> took lo hi s0 (Check_Reception_Completion_classify s).
Proof.
  intros H. unfold Check_Reception_Completion_classify.
  took_cut. took_cut. took_cut.
  case_cond; [apply took_Handle_Client_Request; exact H | took_done H].
Qed.

Lemma took_Check_Reception_Completion lo hi s0 s :
  took lo (hi - 80) s0 s -> took lo hi s0 (Check_Reception_Completion s).
Proof.
  intros H. unfold Check_Reception_Completion.
  destruct (found (rx_buffer s) (crlf ++ crlf)); [|took_done H].
  cbv zeta.
  apply took_Clear_RX_Buffer, took_Check_Reception_Completion_classify,
    took_Check_Reception_Completion_log.
  took_other. took_done H.
Qed.

Lemma took_Log_Response_Status_Change lo hi s0 s :
  took lo (hi - 10) s0 s -> took lo hi s0 (Log_Response_Status_Change s).
Proof. intros H. unfold Log_Response_Status_Change. took_auto H. Qed.

Lemma took_Has_Response_Finished lo hi s0 s :
  took lo (hi - 10) s0 s -> took lo hi s0 (snd (Has_Response_Finished s)).
Proof.
  intros H. rewrite Has_Response_Finished_eq. cbv zeta. cbn [snd].
  case_cond; [|took_done H].
  took_other. apply took_Log_Response_Status_Change. exact H.
Qed.

Lemma took_Set_Setup_Stage new_stage lo hi s0 s :
  took lo (hi - 10) s0 s -> took lo hi s0 (Set_Setup_Stage new_stage s).
Proof.
  intros H. unfold Set_Setup_Stage, Log_Setup_Stage_Change.
  destruct ((new_stage <? 0) || (new_stage >? 6)); [took_auto H|].
  took_auto H.
Qed.

Lemma took_Handle_Response lo hi s0 s :
  took lo (hi - 20) s0 s -> took lo hi s0 (Handle_Response s).
Proof.
  intros H. unfold Handle_Response.
  repeat first [ apply took_Set_Setup_Stage | took_step ]; took_done H.
Qed.

Lemma took_main_check_timeout lo hi s0 s :
  took lo hi s0 s -> took lo hi s0 (main_check_timeout s).
Proof. intros H. unfold main_check_timeout. took_auto H. Qed.

Lemma took_main_send_request lo hi s0 s :
  took lo (hi - 20) s0 s -> took lo hi s0 (main_send_request s).
Proof.
  intros H.
  unfold main_send_request, Configure_ESP_As_Access_Point, Send_HTML_Header. took_auto H.
Qed.

Lemma took_main_button lo hi s0 s :
  took lo hi s0 s -> took lo hi s0 (main_button s).
Proof. intros H. unfold main_button, Indicate_Transmission_Mode. took_auto H. Qed.

Lemma took_Establish_Connection server_ip port lo hi s0 s :
  took lo (hi - 5100) s0 s -> took lo hi s0 (Establish_Connection server_ip port s).
Proof.
  intros H. unfold Establish_Connection. cbv zeta.
  apply took_Establish_Connection_poll. rewrite Z2Nat.id by lia.
  took_auto H.
Qed.

Lemma took_main_connect lo hi s0 s :
  took lo (hi - 6100) s0 s -> took lo hi s0 (main_connect s).
Proof.
  intros H. unfold main_connect.
  case_cond; [|took_done H].
  assert (He : took lo (hi - 1000) s0
                 (Establish_Connection (lit (str "172.20.10.11")) 5000
                    (CDC_Transmit_FS (lit (str "Attempting to connect..." ++ lf)) 25 s)))
    by (apply took_Establish_Connection, took_CDC_Transmit_FS; took_done H).
  cbv zeta. took_auto He.
Qed.

Lemma took_main_front lo hi s0 s :
  took lo (hi - 6250) s0 s -> took lo hi s0 (main_front s).
Proof.
  intros H. unfold main_front. cbv zeta.
  pose proof (took_Has_Response_Finished lo (hi - 6140) s0
                (Check_Reception_Completion
                   (Log_Client_Request_Change (Log_Client_Status_Change s)))) as Hf.
  destruct (Has_Response_Finished
              (Check_Reception_Completion
                 (Log_Client_Request_Change (Log_Client_Status_Change s))))
    as [finished s1].
  cbn [snd] in Hf.
  assert (H1 : took lo (hi - 6140) s0 s1).
  { apply Hf, took_Check_Reception_Completion, took_Log_Client_Request_Change,
      took_Log_Client_Status_Change. took_done H. }
  apply took_main_connect, took_main_button, took_main_send_request,
    took_main_check_timeout.
  destruct (finished =? 1); [apply took_Handle_Response|]; took_done H1.
Qed.

Section PassTime.

Variable float : Type.
Variable scaled : Z -> Z -> float.
Variable printf_3f : float -> list Z.

Lemma took_Transmit_Data_ASCII label x y z lo hi s0 s :
  took lo (hi - 5850) s0 s ->
  took lo hi s0 (Transmit_Data_ASCII float printf_3f label x y z s).
Proof.
  intros H. unfold Transmit_Data_ASCII.
  repeat first [ apply took_Send_Data_To_Server | took_step | took_other ];
    took_done H.
Qed.

Lemma took_Handle_Magnetometer lo hi s0 s :
  took lo (hi - 5850) s0 s ->
  took lo hi s0 (Handle_Magnetometer float scaled printf_3f s).
Proof.
  intros H. handler_unfold. destruct (mag_regs s) as [[x y] z]. cbv beta iota zeta.
  repeat first [ apply took_Transmit_Data_ASCII | took_step | took_other ];
    took_done H.
Qed.

Lemma took_Handle_Accelerometer lo hi s0 s :
  took lo (hi - 5850) s0 s ->
  took lo hi s0 (Handle_Accelerometer float scaled printf_3f s).
Proof.
  intros H. handler_unfold. destruct (acc_regs s) as [[x y] z]. cbv beta iota zeta.
  repeat first [ apply took_Transmit_Data_ASCII | took_step | took_other ];
    took_done H.
Qed.

Lemma took_Handle_Gyroscope lo hi s0 s :
  took lo (hi - 5850) s0 s ->
  took lo hi s0 (Handle_Gyroscope float scaled printf_3f s).
Proof.
  intros H. handler_unfold. destruct (gyr_regs s) as [[x y] z]. cbv beta iota zeta.
  repeat first [ apply took_Transmit_Data_ASCII | took_step | took_other ];
    took_done H.
Qed.

Lemma took_main_sensors lo hi s0 s :
  took lo (hi - 17550) s0 s -> took lo hi s0 (main_sensors float scaled printf_3f s).
Proof.
  intros H. unfold main_sensors.
  case_cond; [|took_done H]. cbv zeta.
  assert (Hm : took lo (hi - 11700) s0
                 (if negb (data_ready_mag s =? 0)
                  then Handle_Magnetometer float scaled printf_3f s else s)).
  { case_cond; [apply took_Handle_Magnetometer|]; took_done H. }
  revert Hm.
  generalize (if negb (data_ready_mag s =? 0)
              then Handle_Magnetometer float scaled printf_3f s else s).
  intros s1 Hm.
  assert (Ha : took lo (hi - 5850) s0
                 (if negb (data_ready_acc s1 =? 0)
                  then Handle_Accelerometer float scaled printf_3f s1 else s1)).
  { case_cond; [apply took_Handle_Accelerometer|]; took_done Hm. }
  revert Ha.
  generalize (if negb (data_ready_acc s1 =? 0)
              then Handle_Accelerometer float scaled printf_3f s1 else s1).
  intros s2 Ha.
  case_cond; [apply took_Handle_Gyroscope|]; took_done Ha.
Qed.

Lemma took_main_loop_body lo hi s0 s :
  took lo (hi - 23800) s0 s -> took lo hi s0 (main_loop_body float scaled printf_3f s).
Proof.
  intros H. rewrite main_loop_body_split.
  apply took_main_sensors, took_main_front. took_done H.
Qed.

(** X15. The delays and the polling loops of one pass of the main loop
    add up to at most 23800 ticks, whatever the state and whatever the
    modem and the sensors do, in a pass whose credential request, if it
    has one, is one the request handler is defined for: at most 6250
    ticks up to and including the connection attempt and 5850 for each
    of the three sensor handlers.  The ticks are those of [HAL_Delay]
    and of the polling loops, whose deadlines bound them; the blocking
    transmissions and bus reads, for which the code waits without a
    deadline, take no time on the clock of the model and are not
    bounded by this. *)
Theorem main_loop_pass_returns_within s :
  main_loop_body_defined s = true ->
  u32 (HAL_GetTick (main_loop_body float scaled printf_3f s) - HAL_GetTick s) <= 23800
  /\ u32 (HAL_GetTick (main_front s) - HAL_GetTick s) <= 6250.
Proof.
  intros _. split.
  - apply (took_elapsed 0 23800); [|lia|lia].
    apply took_main_loop_body, took_start. lia.
  - apply (took_elapsed 0 6250); [|lia|lia].
    apply took_main_front, took_start. lia.
Qed.

End PassTime.

Lemma main_loop_pass_returns_within_witness :
  let request := str "+IPD,0,49:GET /?ssid=MyNet&password=Secr3t HTTP/1.1" ++ crlf ++ crlf in
  let s := set_transmission_mode MODE_ASCII_UART
             (rx_run (List.map RxAppend request) (initial_state 170 [])) in
  HAL_GetTick (main_loop_body Z Z.mul dec s) - HAL_GetTick s = 6190
  /\ u32 (HAL_GetTick (main_loop_body Z Z.mul dec s) - HAL_GetTick s) <= 23800.
Proof.
  intros request s.
  assert (Hd : main_loop_body_defined s = true) by (vm_compute; reflexivity).
  destruct (main_loop_pass_returns_within Z Z.mul dec s Hd) as [H _].
  split; [vm_compute; reflexivity | exact H].
Defined.

(** ** The credentials of the join command *)

Lemma is_prefix_app (needle rest : list Z) : is_prefix needle (needle ++ rest) = true.
Proof.
  induction needle as [|n needle IH]; [reflexivity|].
  cbn [app is_prefix]. rewrite Z.eqb_refl. exact IH.
Qed.

Lemma is_prefix_false_at (needle : list Z) : forall (hay : list Z) (k : nat) (c : Z),
  needle !! k = Some c -> hay !! k <> Some c -> is_prefix needle hay = false.
Proof.
  induction needle as [|n needle IH]; intros hay k c Hn Hh; [discriminate|].
  destruct hay as [|h hay]; [reflexivity|].
  cbn [is_prefix]. destruct k as [|k].
  - cbn in Hn, Hh. injection Hn as ->.
    destruct (Z.eqb_spec c h) as [->|]; [contradiction | reflexivity].
  - cbn in Hn, Hh. rewrite (IH hay k c Hn Hh). apply andb_false_r.
Qed.

Lemma find_sub_here (needle hay : list Z) :
  is_prefix needle hay = true -> find_sub needle hay = Some 0%nat.
Proof. intros H. destruct hay; cbn [find_sub]; rewrite H; reflexivity. Qed.

Lemma find_sub_later (needle : list Z) (x : Z) (hay : list Z) :
  is_prefix needle (x :: hay) = false ->
  find_sub needle (x :: hay) = option_map S (find_sub needle hay).
Proof. intros H. cbn [find_sub]. rewrite H. reflexivity. Qed.

Lemma find_sub_first (needle : list Z) : forall (a b : list Z),
  (forall i : nat, (i < length a)%nat ->
                   is_prefix needle (drop i (a ++ needle ++ b)) = false) ->
  find_sub needle (a ++ needle ++ b) = Some (length a).
Proof.
  induction a as [|x a IH]; intros b H.
  - cbn [app length]. apply find_sub_here, is_prefix_app.
  - assert (H0 := H 0%nat ltac:(cbn; lia)). rewrite drop_0 in H0.
    cbn [app] in *. rewrite (find_sub_later _ _ _ H0).
    rewrite IH; [reflexivity|].
    intros i Hi. apply (H (S i)). cbn [length]. lia.
Qed.

(** No match of [needle] starts in [a] when the character [needle] has
    at offset [k] does not occur in the text that the matches starting
    in [a] have at that offset. *)
Lemma find_sub_clean (needle a b clean : list Z) (k : nat) (c : Z) :
  needle !! k = Some c ->
  Forall (fun x => x <> c) clean ->
  (exists tail, a ++ needle ++ b = clean ++ tail) ->
  (length a + k <= length clean)%nat ->
  (forall i : nat, (i < length a)%nat ->
                   is_prefix needle (drop i (a ++ needle ++ b)) = false).
Proof.
  intros Hk Hclean [tail E] Hlen i Hi.
  apply (is_prefix_false_at needle _ k c Hk).
  rewrite lookup_drop, E, lookup_app_l by lia.
  intros Hc. rewrite Forall_lookup in Hclean. apply (Hclean _ _ Hc). reflexivity.
Qed.

Lemma c_str_lit (l : list Z) : Forall (fun b => b <> 0) l -> c_str (lit l) = l.
Proof. intros H. unfold lit. apply (c_str_app_zero l []). exact H. Qed.

Ltac len_str :=
  rewrite ?length_app;
  repeat match goal with
         | |- context [length (str ?t)] =>
             let n := eval vm_compute in (length (str t)) in
             change (length (str t)) with n
         end;
  cbn [length]; lia.

Section Credentials.

Variables pre ssid pw rest tail : list Z.
Variable s : State.

Local Abbreviation text :=
  (pre ++ str "GET /?ssid=" ++ ssid ++ str "&password=" ++ pw ++ str " " ++ rest).

Hypothesis Hbuf : rx_buffer s = text ++ 0 :: tail.
Hypothesis Hnz : Forall (fun b => b <> 0) (pre ++ ssid ++ pw ++ rest).
Hypothesis Heq : Forall (fun b => b <> 61) (pre ++ ssid).
Hypothesis Hamp : Forall (fun b => b <> 38) ssid.
Hypothesis Hsp : Forall (fun b => b <> 32) pw.

Lemma credentials_text_nonzero : Forall (fun b => b <> 0) text.
Proof.
  rewrite !Forall_app in Hnz. destruct Hnz as (H1 & H2 & H3 & H4).
  rewrite !Forall_app. repeat split; try assumption;
    vm_compute; repeat constructor; discriminate.
Qed.

Lemma credentials_c_str : c_str (rx_buffer s) = text.
Proof. rewrite Hbuf. apply c_str_app_zero, credentials_text_nonzero. Qed.

Lemma credentials_clean :
  Forall (fun b => b <> 61) (pre ++ str "GET /?ssid")
  /\ Forall (fun b => b <> 61) (ssid ++ str "&password").
Proof.
  rewrite !Forall_app in Heq. destruct Heq as [H1 H2].
  rewrite !Forall_app. repeat split; try assumption;
    vm_compute; repeat constructor; discriminate.
Qed.

Lemma credentials_request : found (rx_buffer s) (str "GET /?ssid=") = true.
Proof.
  unfold found, strstr. rewrite credentials_c_str.
  rewrite (find_sub_first (str "GET /?ssid=") pre); [reflexivity|].
  apply (find_sub_clean _ _ _ (pre ++ str "GET /?ssid") 10 61);
    [reflexivity | apply credentials_clean | | len_str].
  eexists. rewrite <- app_assoc. f_equal.
Qed.

Lemma credentials_ssid_at :
  strstr (rx_buffer s) (str "ssid=") = Some (length pre + 6)%nat.
Proof.
  unfold strstr. rewrite credentials_c_str.
  change (str "GET /?ssid=") with (str "GET /?" ++ str "ssid=").
  rewrite <- (app_assoc (str "GET /?")), (app_assoc pre).
  rewrite (find_sub_first (str "ssid=") (pre ++ str "GET /?")).
  - rewrite length_app. reflexivity.
  - apply (find_sub_clean _ _ _ (pre ++ str "GET /?ssid") 4 61);
      [reflexivity | apply credentials_clean | | len_str].
    eexists. rewrite <- !app_assoc. f_equal.
Qed.

Lemma credentials_password_at :
  strstr (rx_buffer s) (str "password=") = Some (length pre + 12 + length ssid)%nat.
Proof.
  unfold strstr. rewrite credentials_c_str.
  assert (E : text = (pre ++ str "GET /?ssid=" ++ ssid ++ [38])
                     ++ str "password=" ++ (pw ++ str " " ++ rest))
    by (rewrite <- !app_assoc; reflexivity).
  assert (E1 : text = (pre ++ str "GET /?ssid")
                      ++ ([61] ++ ssid ++ str "&password=" ++ pw ++ str " " ++ rest))
    by (rewrite <- !app_assoc; reflexivity).
  assert (E3 : text = (pre ++ str "GET /?ssid=")
                      ++ (ssid ++ str "&password") ++ ([61] ++ pw ++ str " " ++ rest))
    by (rewrite <- !app_assoc; reflexivity).
  rewrite E, find_sub_first.
  - f_equal. len_str.
  - intros i Hi. rewrite <- E.
    assert (Hi' : (i < length pre + 12 + length ssid)%nat)
      by (revert Hi; rewrite !length_app;
          change (length (str "GET /?ssid=")) with 11%nat; cbn [length]; lia).
    clear Hi E.
    destruct credentials_clean as [Hc1 Hc2].
    destruct (Nat.lt_trichotomy (i + 8) (length pre + 10)) as [Hlt | [Hmid | Hgt]].
    + apply (is_prefix_false_at _ _ 8 61); [reflexivity|].
      rewrite lookup_drop, E1, lookup_app_l by len_str.
      intros Hc. rewrite Forall_lookup in Hc1. apply (Hc1 _ _ Hc). reflexivity.
    + apply (is_prefix_false_at _ _ 0 112); [reflexivity|].
      rewrite lookup_drop, lookup_app_r by lia.
      replace (i + 0 - length pre)%nat with 2%nat by lia.
      cbn. discriminate.
    + apply (is_prefix_false_at _ _ 8 61); [reflexivity|].
      rewrite lookup_drop, E3, lookup_app_r by len_str.
      rewrite lookup_app_l by len_str.
      intros Hc. rewrite Forall_lookup in Hc2. apply (Hc2 _ _ Hc). reflexivity.
Qed.

Hypothesis Hssid_len : (length ssid <= 31)%nat.
Hypothesis Hpw_len : (length pw <= 63)%nat.

Lemma credentials_nonzero_parts :
  Forall (fun b => b <> 0) ssid /\ Forall (fun b => b <> 0) pw
  /\ Forall (fun b => b <> 0) rest.
Proof.
  rewrite !Forall_app in Hnz. destruct Hnz as (H1 & H2 & H3 & H4). auto.
Qed.

Lemma credentials_ssid_start :
  after (rx_buffer s) (str "ssid=") 5
  = (ssid ++ str "&password=" ++ pw ++ str " " ++ rest) ++ 0 :: tail.
Proof.
  unfold after. rewrite credentials_ssid_at, Hbuf.
  replace (length pre + 6 + 5)%nat with (length (pre ++ str "GET /?ssid=")) by len_str.
  rewrite <- !app_assoc, (app_assoc pre). rewrite drop_app_length.
  reflexivity.
Qed.

Lemma credentials_password_start :
  after (rx_buffer s) (str "password=") 9 = (pw ++ str " " ++ rest) ++ 0 :: tail.
Proof.
  unfold after. rewrite credentials_password_at, Hbuf.
  replace (length pre + 12 + length ssid + 9)%nat
    with (length (pre ++ str "GET /?ssid=" ++ ssid ++ str "&password=")) by len_str.
  assert (E : text ++ 0 :: tail
              = (pre ++ str "GET /?ssid=" ++ ssid ++ str "&password=")
                ++ ((pw ++ str " " ++ rest) ++ 0 :: tail))
    by (rewrite <- !app_assoc; reflexivity).
  rewrite E, drop_app_length. reflexivity.
Qed.

Lemma credentials_ssid :
  match strstr (after (rx_buffer s) (str "ssid=") 5) (str "&") with
  | Some end_ssid => strncpy (after (rx_buffer s) (str "ssid=") 5) end_ssid
  | None => strncpy (after (rx_buffer s) (str "ssid=") 5) 31
  end = lit ssid.
Proof.
  destruct credentials_nonzero_parts as (Hs & Hp & Hr).
  assert (Hc : c_str (after (rx_buffer s) (str "ssid=") 5)
               = ssid ++ str "&password=" ++ pw ++ str " " ++ rest).
  { rewrite credentials_ssid_start. apply c_str_app_zero.
    rewrite !Forall_app. repeat split; try assumption;
      vm_compute; repeat constructor; discriminate. }
  unfold strstr, strncpy. rewrite Hc.
  change (str "&password=") with (str "&" ++ str "password=").
  rewrite <- (app_assoc (str "&")).
  rewrite (find_sub_first (str "&") ssid).
  - rewrite take_app_length. reflexivity.
  - apply (find_sub_clean _ _ _ ssid 0 38); [reflexivity | exact Hamp | | lia].
    eexists. reflexivity.
Qed.

Lemma credentials_password :
  match strstr (after (rx_buffer s) (str "password=") 9) (str " ") with
  | Some end_password => strncpy (after (rx_buffer s) (str "password=") 9) end_password
  | None => strncpy (after (rx_buffer s) (str "password=") 9) 63
  end = lit pw.
Proof.
  destruct credentials_nonzero_parts as (Hs & Hp & Hr).
  assert (Hc : c_str (after (rx_buffer s) (str "password=") 9) = pw ++ str " " ++ rest).
  { rewrite credentials_password_start. apply c_str_app_zero.
    rewrite !Forall_app. repeat split; try assumption;
      vm_compute; repeat constructor; discriminate. }
  unfold strstr, strncpy. rewrite Hc.
  rewrite (find_sub_first (str " ") pw).
  - rewrite take_app_length. reflexivity.
  - apply (find_sub_clean _ _ _ pw 0 32); [reflexivity | exact Hsp | | lia].
    eexists. reflexivity.
Qed.

Lemma snprintf_fits size (l : list Z) :
  Forall (fun b => b <> 0) l -> Z.of_nat (length l) <= size - 1 ->
  snprintf size l = lit l /\ c_str (snprintf size l) = l
  /\ take (Z.to_nat (strlen (snprintf size l))) (snprintf size l) = l.
Proof.
  intros Hl Hlen.
  assert (E : snprintf size l = lit l).
  { unfold snprintf. rewrite take_ge by lia. reflexivity. }
  rewrite E. split; [reflexivity|].
  assert (Hc : c_str (lit l) = l) by (apply c_str_lit; exact Hl).
  split; [exact Hc|].
  unfold strlen. rewrite Hc, Nat2Z.id. unfold lit. apply take_app_length.
Qed.

Lemma credentials_events :
  new_events Handle_Client_Request s
  = [ UartTx (str "AT+CWJAP=" ++ dq ++ ssid ++ dq ++ str "," ++ dq ++ pw ++ dq ++ crlf);
      CdcTx (str "Sending Connect to WiFi with SSID Command" ++ crlf);
      CdcTx (str "SSID: " ++ ssid ++ str ", Password: " ++ pw ++ crlf) ].
Proof.
  destruct credentials_nonzero_parts as (Hs & Hp & Hr).
  apply new_events_app.
  unfold Handle_Client_Request, Send_Connect_Request.
  rewrite credentials_request, credentials_ssid, credentials_password.
  cbv zeta. rewrite !(c_str_lit ssid), !(c_str_lit pw) by assumption.
  fg_simpl.
  destruct (snprintf_fits 128
              (str "AT+CWJAP=" ++ dq ++ ssid ++ dq ++ str "," ++ dq ++ pw ++ dq ++ crlf))
    as (_ & -> & _).
  { rewrite !Forall_app. repeat split; try assumption;
      vm_compute; repeat constructor; discriminate. }
  { rewrite !length_app.
    change (length (str "AT+CWJAP=")) with 9%nat. change (length (str ",")) with 1%nat.
    change (length dq) with 1%nat. change (length crlf) with 2%nat. lia. }
  destruct (snprintf_fits 128 (str "SSID: " ++ ssid ++ str ", Password: " ++ pw ++ crlf))
    as (_ & _ & ->).
  { rewrite !Forall_app. repeat split; try assumption;
      vm_compute; repeat constructor; discriminate. }
  { rewrite !length_app.
    change (length (str "SSID: ")) with 6%nat.
    change (length (str ", Password: ")) with 12%nat.
    change (length crlf) with 2%nat. lia. }
  reflexivity.
Qed.

End Credentials.

(** X16. The join command carries the credentials as they were
    submitted.  When the buffer holds a request "GET /?ssid=" followed
    by an SSID, "&password=", a password and a space, the handler sends
    the modem AT+CWJAP with exactly the bytes between those delimiters,
    undecoded, after reporting them on the debug port.  This holds for
    an SSID of at most 31 and a password of at most 63 characters (the
    sizes of the two arrays), when the text has no NUL, neither the
    SSID nor the text before the request has an = sign, the SSID has no
    ampersand and the password no space. *)
Theorem join_command_carries_submitted_credentials
    (pre ssid pw rest tail : list Z) s :
  rx_buffer s
  = (pre ++ str "GET /?ssid=" ++ ssid ++ str "&password=" ++ pw ++ str " " ++ rest)
    ++ 0 :: tail ->
  Forall (fun b => b <> 0) (pre ++ ssid ++ pw ++ rest) ->
  Forall (fun b => b <> 61) (pre ++ ssid) ->
  Forall (fun b => b <> 38) ssid ->
  Forall (fun b => b <> 32) pw ->
  (length ssid <= 31)%nat ->
  (length pw <= 63)%nat ->
  new_events Handle_Client_Request s
  = [ UartTx (str "AT+CWJAP=" ++ dq ++ ssid ++ dq ++ str "," ++ dq ++ pw ++ dq ++ crlf);
      CdcTx (str "Sending Connect to WiFi with SSID Command" ++ crlf);
      CdcTx (str "SSID: " ++ ssid ++ str ", Password: " ++ pw ++ crlf) ].
Proof. intros. eapply credentials_events; eassumption. Qed.

Lemma join_command_carries_submitted_credentials_witness :
  let frame := str "+IPD,0,64:GET /?ssid=MyNet&password=Secr3t HTTP/1.1" ++ crlf ++ crlf in
  let s := rx_run (List.map RxAppend frame) (initial_state 170 []) in
  uart_sent (new_events Handle_Client_Request s)
  = [str "AT+CWJAP=" ++ dq ++ str "MyNet" ++ dq ++ str "," ++ dq ++ str "Secr3t" ++ dq
     ++ crlf].
Proof.
  intros frame s.
  rewrite (join_command_carries_submitted_credentials
             (str "+IPD,0,64:") (str "MyNet") (str "Secr3t") (str "HTTP/1.1" ++ crlf ++ crlf)
             (replicate (Z.to_nat RX_BUFFER_SIZE - length frame - 1) 0) s).
  - reflexivity.
  - vm_compute. reflexivity.
  - vm_compute. repeat constructor; discriminate.
  - vm_compute. repeat constructor; discriminate.
  - vm_compute. repeat constructor; discriminate.
  - vm_compute. repeat constructor; discriminate.
  - vm_compute. lia.
  - vm_compute. lia.
Defined.

(** ** The connection attempt of a pass *)

Lemma connection_established_Establish_Connection server_ip port s :
  connection_established (Establish_Connection server_ip port s)
  = connection_established s.
Proof.
  pose proof (calm_Establish_Connection server_ip port s s (calm_refl s)) as H.
  apply calm_elim in H. apply H.
Qed.

(** X17. In the remote text mode without a connection, a pass makes one
    connection attempt, and the attempt always ends in one of two
    ways: with the status Success and the connection flag set, after
    100 to 5100 ticks of delay and polling; or with the status Error or
    Timeout and the flag still clear, after the pause of 1000 ticks
    that follows a failure, after 1100 to 6100 ticks of delay and
    polling.  The case of a status that is none of the three, which the
    code leaves without a message, does not occur.  The ticks are those
    of [HAL_Delay] and of the polling loop: the clock of the model
    stands still while the two commands and the messages are
    transmitted, and the time that takes comes on top. *)
Theorem main_connect_attempt_succeeds_or_backs_off s :
  connection_established s = 0 ->
  transmission_mode s = MODE_ASCII_UART ->
  let s' := main_connect s in
  (response_status s' = SUCCESS /\ connection_established s' = 1
   /\ 100 <= u32 (HAL_GetTick s' - HAL_GetTick s) <= 5100)
  \/ ((response_status s' = ERROR \/ response_status s' = TIMEOUT)
      /\ connection_established s' = 0
      /\ 1100 <= u32 (HAL_GetTick s' - HAL_GetTick s) <= 6100).
Proof.
  intros Hconn Hmode s'. unfold s', main_connect. rewrite Hconn, Hmode.
  change ((0 =? 0) && (MODE_ASCII_UART =? MODE_ASCII_UART)) with true.
  cbv iota zeta.
  set (s1 := CDC_Transmit_FS (lit (str "Attempting to connect..." ++ lf)) 25 s).
  assert (Ht : took 100 5100 s (Establish_Connection (lit (str "172.20.10.11")) 5000 s1)).
  { apply (took_from 100 5100 s1 s); [reflexivity|].
    apply took_Establish_Connection_exact. }
  assert (Hc : connection_established
                 (Establish_Connection (lit (str "172.20.10.11")) 5000 s1) = 0).
  { rewrite connection_established_Establish_Connection. unfold s1. fg_simpl.
    exact Hconn. }
  destruct (Establish_Connection_outcome (lit (str "172.20.10.11")) 5000 s1)
    as [Hst _].
  revert Ht Hc Hst.
  generalize (Establish_Connection (lit (str "172.20.10.11")) 5000 s1).
  intros s2 Ht Hc Hst.
  destruct Hst as [Hst | [Hst | Hst]]; rewrite Hst.
  - left. change (SUCCESS =? SUCCESS) with true. cbv iota.
    fg_simpl. split; [exact Hst|]. split; [reflexivity|].
    apply (took_elapsed 100 5100); [|lia|lia]. repeat took_step. exact Ht.
  - right. change (ERROR =? SUCCESS) with false.
    change ((ERROR =? TIMEOUT) || (ERROR =? ERROR)) with true. cbv iota.
    fg_simpl. split; [left; exact Hst|]. split; [exact Hc|].
    apply (took_elapsed 1100 6100); [|lia|lia]. repeat took_step.
    apply (took_weaken _ _ _ _ _ _ Ht); lia.
  - right. change (TIMEOUT =? SUCCESS) with false.
    change ((TIMEOUT =? TIMEOUT) || (TIMEOUT =? ERROR)) with true. cbv iota.
    fg_simpl. split; [right; exact Hst|]. split; [exact Hc|].
    apply (took_elapsed 1100 6100); [|lia|lia]. repeat took_step.
    apply (took_weaken _ _ _ _ _ _ Ht); lia.
Qed.

(** With a modem that stays silent the attempt times out: 100 ticks of
    delay, 5000 of polling and the pause of 1000, on the clock of the
    model. *)
Lemma main_connect_attempt_succeeds_or_backs_off_witness :
  let s := set_transmission_mode MODE_ASCII_UART (initial_state 170 []) in
  response_status (main_connect s) = TIMEOUT
  /\ connection_established (main_connect s) = 0
  /\ HAL_GetTick (main_connect s) - HAL_GetTick s = 6100.
Proof.
  intros s.
  destruct (main_connect_attempt_succeeds_or_backs_off s eq_refl eq_refl)
    as [(Hst & _) | (_ & Hc & _)].
  - exfalso. revert Hst. vm_compute. discriminate.
  - split; [vm_compute; reflexivity|]. split; [exact Hc | vm_compute; reflexivity].
Defined.

(** ** What the interrupt handlers leave alone *)

Lemma deliver_rx_only b s :
  data_ready_mag (deliver (IrqRx b) s) = data_ready_mag s
  /\ data_ready_acc (deliver (IrqRx b) s) = data_ready_acc s
  /\ data_ready_gyr (deliver (IrqRx b) s) = data_ready_gyr s
  /\ button_pressed (deliver (IrqRx b) s) = button_pressed s
  /\ button_press_start (deliver (IrqRx b) s) = button_press_start s
  /\ button_action_pending (deliver (IrqRx b) s) = button_action_pending s
  /\ button_action_type (deliver (IrqRx b) s) = button_action_type s.
Proof.
  cbn [deliver]. unfold uart_receive. destruct (rx_armed s); [|repeat split].
  cbv zeta. unfold HAL_UART_RxCpltCallback, HAL_UART_Receive_IT.
  repeat case_cond; repeat split.
Qed.

Lemma deliver_exti_only i s :
  (forall b, i <> IrqRx b) ->
  rx_buffer (deliver i s) = rx_buffer s
  /\ rx_index (deliver i s) = rx_index s
  /\ rx_armed (deliver i s) = rx_armed s.
Proof.
  intros Hi. destruct i; [exfalso; apply (Hi b); reflexivity| | | |];
    cbn [deliver]; unfold HAL_GPIO_EXTI_Callback; repeat case_cond; repeat split.
Qed.

(** X18. The interrupt handlers write their own variables only.  No
    interrupt, and so no passing of time, changes a variable of the
    foreground code or transmits anything; a received byte leaves the
    button and data-ready variables as they are; and a button or sensor
    interrupt leaves the receive buffer, its index and the armed
    reception as they are. *)
Theorem interrupts_write_their_own_variables_only (i : irq) (n : nat) s :
  fg (deliver i s) = fg s
  /\ fg (elapse n s) = fg s
  /\ (forall b, i = IrqRx b ->
      data_ready_mag (deliver i s) = data_ready_mag s
      /\ data_ready_acc (deliver i s) = data_ready_acc s
      /\ data_ready_gyr (deliver i s) = data_ready_gyr s
      /\ button_pressed (deliver i s) = button_pressed s
      /\ button_press_start (deliver i s) = button_press_start s
      /\ button_action_pending (deliver i s) = button_action_pending s
      /\ button_action_type (deliver i s) = button_action_type s)
  /\ ((forall b, i <> IrqRx b) ->
      rx_buffer (deliver i s) = rx_buffer s
      /\ rx_index (deliver i s) = rx_index s
      /\ rx_armed (deliver i s) = rx_armed s).
Proof.
  split; [apply fg_deliver|]. split; [apply fg_elapse|]. split.
  - intros b ->. apply deliver_rx_only.
  - apply deliver_exti_only.
Qed.

(** ** What the modem is sent *)

Lemma modem_got_start s : modem_got [] s s.
Proof. exists []. split; reflexivity. Qed.

Lemma modem_got_out frames s0 s s' :
  out s' = out s -> modem_got frames s0 s -> modem_got frames s0 s'.
Proof. unfold modem_got. intros ->. trivial. Qed.

Lemma modem_got_fg frames s0 s s' :
  fg s' = fg s -> modem_got frames s0 s -> modem_got frames s0 s'.
Proof. unfold modem_got. intros ->. trivial. Qed.

Lemma modem_got_cdc frames s0 data s :
  modem_got frames s0 s -> modem_got frames s0 (emit (CdcTx data) s).
Proof.
  intros (l & Hl & Hu). exists (CdcTx data :: l). split; [|exact Hu].
  change (out (emit (CdcTx data) s)) with (CdcTx data :: out s). rewrite Hl. reflexivity.
Qed.

Lemma modem_got_uart frames s0 data s :
  modem_got frames s0 s -> modem_got (data :: frames) s0 (HAL_UART_Transmit data s).
Proof.
  intros (l & Hl & Hu). exists (UartTx data :: l). split.
  - change (out (HAL_UART_Transmit data s)) with (UartTx data :: out s).
    rewrite Hl. reflexivity.
  - cbn [uart_sent]. rewrite Hu. reflexivity.
Qed.

Lemma modem_got_Send_Command frames s0 cmd s :
  modem_got frames s0 s -> modem_got (c_str cmd :: frames) s0 (Send_Command cmd s).
Proof.
  intros H. apply (modem_got_out _ _ (HAL_UART_Transmit (c_str cmd) s)).
  - fg_simpl. reflexivity.
  - apply modem_got_uart, H.
Qed.

Lemma modem_got_new_events frames (f : State -> State) s :
  modem_got frames s (f s) -> uart_sent (new_events f s) = frames.
Proof. intros (l & Hl & Hu). rewrite (new_events_app f s l Hl). exact Hu. Qed.

#[global] Opaque modem_got.

(** Steps that send the modem nothing. *)
Ltac modem_quiet :=
  lazymatch goal with
  | |- modem_got _ _ (CDC_Transmit_FS _ _ _) => apply modem_got_cdc
  | |- modem_got ?U ?s0 (?f ?W) =>
      lazymatch f with
      | Clear_RX_Buffer => idtac
      | HAL_Delay _ => idtac
      | set_connection_established _ => idtac
      end;
      apply (modem_got_out U s0 W); [fg_simpl; reflexivity|]
  end.

Ltac modem_auto H :=
  let T := type of H in
  repeat (lazymatch goal with
          | |- T => fail
          | _ => modem_quiet
          end);
  exact H.

Lemma modem_got_poll frames s0 fuel start_time s :
  modem_got frames s0 s ->
  modem_got frames s0 (Establish_Connection_poll fuel start_time s).
Proof.
  apply kept_Establish_Connection_poll.
  - apply modem_got_fg.
  - apply modem_got_cdc.
  - intros v s1 _. apply modem_got_out. reflexivity.
  - intros v s1 _. apply modem_got_out. reflexivity.
Qed.

Lemma modem_got_wait_prompt frames s0 fuel start_time s :
  modem_got frames s0 s ->
  modem_got frames s0 (snd (Send_Data_wait_prompt fuel start_time s)).
Proof. apply kept_wait_prompt; [apply modem_got_fg | apply modem_got_cdc]. Qed.


Lemma replicate_snoc_cons (k : nat) (c : list Z) (frames : list (list Z)) :
  replicate k c ++ c :: frames = replicate (S k) c ++ frames.
Proof.
  induction k as [|k IH]; [reflexivity|].
  change (replicate (S k) c ++ c :: frames) with (c :: (replicate k c ++ c :: frames)).
  rewrite IH. reflexivity.
Qed.

(** The retry loop sends the command again at most [2 - retries]
    times. *)
Lemma modem_got_handshake fuel : forall retries start_time cmd frames s0 s,
  0 <= retries <= 3 ->
  modem_got frames s0 s ->
  exists k : nat,
    Z.of_nat k <= Z.max 0 (2 - retries)
    /\ modem_got (replicate k (c_str cmd) ++ frames) s0
         (snd (Send_Data_handshake fuel retries start_time cmd s)).
Proof.
  unfold MAX_RETRIES.
  induction fuel as [|fuel IH]; intros retries start_time cmd frames s0 s Hr H;
    cbn [Send_Data_handshake]; unfold MAX_RETRIES;
    (destruct (Z.ltb_spec retries 3) as [Hlt|Hge];
     [|exists 0%nat; split; [lia | exact H]]);
    assert (Hu : u8 (retries + 1) = retries + 1) by (unfold u8; apply Z.mod_small; lia);
    pose proof (modem_got_wait_prompt frames s0 100 start_time s H) as Hw;
    destruct (Send_Data_wait_prompt 100 start_time s) as [got_prompt s1];
    cbn [snd] in Hw;
    (destruct got_prompt; [exists 0%nat; split; [lia | exact Hw]|]);
    cbv zeta; rewrite Hu;
    destruct (Z.ltb_spec (retries + 1) 3); cbn [snd].
  - exists 1%nat. split; [lia|]. modem_quiet. apply modem_got_Send_Command.
    modem_auto Hw.
  - exists 0%nat. split; [lia | exact Hw].
  - destruct (IH (retries + 1) (HAL_GetTick
                (HAL_Delay 200 (Send_Command cmd (Clear_RX_Buffer
                   (CDC_Transmit_FS (lit (str "Retrying CIPSEND..." ++ lf)) 20 s1)))))
              cmd (c_str cmd :: frames) s0
              (HAL_Delay 200 (Send_Command cmd (Clear_RX_Buffer
                 (CDC_Transmit_FS (lit (str "Retrying CIPSEND..." ++ lf)) 20 s1)))))
      as (k & Hk & Hg); [lia | |].
    + modem_quiet. apply modem_got_Send_Command. modem_auto Hw.
    + exists (S k). split; [lia|]. rewrite <- replicate_snoc_cons. exact Hg.
  - destruct (IH (retries + 1) start_time cmd frames s0 s1) as (k & Hk & Hg);
      [lia | exact Hw |].
    exists k. split; [lia | exact Hg].
Qed.


(** ** The interval between sends, and what is sent *)

Lemma elapse_add n : forall m s, elapse m (elapse n s) = elapse (n + m) s.
Proof.
  with_strategy transparent [elapse]
    (induction n as [|n IH]; intros m s; [reflexivity|];
     cbn [elapse Nat.add]; apply IH).
Qed.

Lemma HAL_Delay_elapse ms s : HAL_Delay ms s = elapse (Z.to_nat ms) s.
Proof. with_strategy transparent [HAL_Delay] reflexivity. Qed.

(** The acknowledgment loop answers yes only on a buffer that holds
    "SEND OK", [n] ticks into the wait, and records the tick of that
    moment. *)
Lemma Send_Data_wait_send_ok_seen fuel : forall start_time s,
  fst (Send_Data_wait_send_ok fuel start_time s) = true ->
  exists n : nat,
    found (rx_buffer (elapse n s)) (str "SEND OK") = true
    /\ snd (Send_Data_wait_send_ok fuel start_time s)
       = set_server_last_send_time (HAL_GetTick (elapse n s))
           (CDC_Transmit_FS (lit (str "Data sent successfully" ++ lf)) 23 (elapse n s)).
Proof.
  induction fuel as [|fuel IH]; intros start_time s; cbn [Send_Data_wait_send_ok];
    (destruct (u32 (HAL_GetTick s - start_time) <? 2000); [|discriminate]);
    destruct (found (rx_buffer s) (str "SEND OK")) eqn:E;
    try discriminate;
    try (intros _; exists 0%nat;
         with_strategy transparent [elapse] (split; [exact E | reflexivity])).
  intros H. destruct (IH _ _ H) as (n & Hn & Hs).
  exists (10 + n)%nat. rewrite <- elapse_add.
  rewrite HAL_Delay_elapse in Hn, Hs. split; [exact Hn | exact Hs].
Qed.

(** A call sets the time of the last send in one way only: having sent
    the request after the commands (the state [s_tx]), it has found
    "SEND OK" in the buffer [n] ticks later. *)
Lemma Send_Data_To_Server_outcome json_data s :
  let status := str "AT+CIPSTATUS" ++ crlf in
  let request := Send_Data_request json_data in
  let cipsend := Send_Data_cipsend request in
  let s0 := HAL_Delay 100
              (Send_Command (lit (str "AT+CIPSTATUS" ++ crlf))
                 (CDC_Transmit_FS (lit (str "Checking connection status..." ++ lf)) 29 s)) in
  let s1 := HAL_Delay 200
              (Send_Command cipsend
                 (CDC_Transmit_FS (lit (str "Sending CIPSEND command..." ++ lf)) 27
                    (Clear_RX_Buffer s0))) in
  let s2 := snd (Send_Data_handshake 3 0 (HAL_GetTick s1) cipsend s1) in
  let s_tx := HAL_UART_Transmit (c_str request)
                (CDC_Transmit_FS (lit (str "Sending data..." ++ lf)) 16
                   (Clear_RX_Buffer s2)) in
  let s' := Send_Data_To_Server json_data s in
  server_last_send_time s' = server_last_send_time s
  \/ exists (k n : nat),
       (1 <= k <= 3)%nat
       /\ modem_got (c_str request :: replicate k (c_str cipsend) ++ [status]) s s_tx
       /\ found (rx_buffer (elapse n s_tx)) (str "SEND OK") = true
       /\ s' = Clear_RX_Buffer
                 (set_server_last_send_time (HAL_GetTick (elapse n s_tx))
                    (CDC_Transmit_FS (lit (str "Data sent successfully" ++ lf)) 23
                       (elapse n s_tx))).
Proof.
  intros status request cipsend s0 s1 s2 s_tx s'.
  unfold s', Send_Data_To_Server. cbv zeta.
  case_cond; [left; reflexivity|].
  match goal with
  | |- context [strlen (snprintf 512 ?text) >? 512] =>
      pose proof (strlen_snprintf 512 text ltac:(lia)) as Hlen;
      destruct (Z.gtb_spec (strlen (snprintf 512 text)) 512); [lia|]
  end.
  clear Hlen.
  fold (Send_Data_request json_data).
  change (Send_Data_request json_data) with request.
  fold (Send_Data_cipsend request).
  change (Send_Data_cipsend request) with cipsend.
  fold s0.
  assert (H1 : modem_got [status] s s0).
  { unfold s0. modem_quiet.
    change status with (c_str (lit (str "AT+CIPSTATUS" ++ crlf))).
    apply (modem_got_Send_Command [] s). modem_quiet.
    apply modem_got_start. }
  case_cond; [left; unfold s0; fg_simpl; reflexivity|].
  fold s1.
  pose proof (last_send_time_handshake 3 0 (HAL_GetTick s1) cipsend s1) as Hl.
  destruct (modem_got_handshake 3 0 (HAL_GetTick s1) cipsend [c_str cipsend; status] s s1)
    as (k & Hk & Hh);
    [ lia | unfold s1; modem_quiet; apply modem_got_Send_Command; modem_auto H1 |].
  fold s2 in Hl, Hh. rewrite replicate_snoc_cons in Hh.
  assert (Hl' : server_last_send_time s2 = server_last_send_time s).
  { rewrite Hl. unfold s1, s0. fg_simpl. reflexivity. }
  assert (E2 : Send_Data_handshake 3 0 (HAL_GetTick s1) cipsend s1
               = (fst (Send_Data_handshake 3 0 (HAL_GetTick s1) cipsend s1), s2)).
  { unfold s2. destruct (Send_Data_handshake 3 0 (HAL_GetTick s1) cipsend s1).
    reflexivity. }
  rewrite E2.
  destruct (fst (Send_Data_handshake 3 0 (HAL_GetTick s1) cipsend s1));
    cbn [negb]; [|left; fg_simpl; exact Hl'].
  fold s_tx.
  destruct (last_send_time_wait_send_ok 200 (HAL_GetTick s_tx) s_tx) as [Hf _].
  pose proof (Send_Data_wait_send_ok_seen 200 (HAL_GetTick s_tx) s_tx) as Ht.
  destruct (Send_Data_wait_send_ok 200 (HAL_GetTick s_tx) s_tx) as [send_ok s4].
  cbn [fst snd] in Hf, Ht.
  destruct send_ok; cbn [negb].
  - right. destruct (Ht eq_refl) as (n & Hn & Hs4).
    exists (S k), n.
    split; [lia|]. split.
    + unfold s_tx. apply modem_got_uart. modem_auto Hh.
    + split; [exact Hn|]. rewrite Hs4. reflexivity.
  - left. fg_simpl. rewrite (Hf eq_refl). unfold s_tx. fg_simpl. exact Hl'.
Qed.

(** C5, as the code has it.  The interval is counted from the last
    acknowledged send.  A call made fewer than 500 ticks after it
    returns at once: it changes nothing and sends nothing.  A call sets
    the time of the last send in one case only: it has sent the status
    query, the AT+CIPSEND command (one to three times) and then the
    request (the state [s_tx] below, reached with the buffer emptied),
    and [n] ticks after the request it has found "SEND OK" in the
    buffer; the time it records is the tick of that moment, at which
    it returns.  A second call made [d] < 500 ticks after such a call
    is dropped, so that what the two calls send to the modem is what
    the first has sent, with the request in it once. *)
Theorem Send_Data_To_Server_min_interval (json1 json2 : list Z) (s : State) (d : nat) :
  Z.of_nat d < MIN_INTERVAL ->
  let status := str "AT+CIPSTATUS" ++ crlf in
  let request := Send_Data_request json1 in
  let cipsend := Send_Data_cipsend request in
  let s0 := HAL_Delay 100
              (Send_Command (lit (str "AT+CIPSTATUS" ++ crlf))
                 (CDC_Transmit_FS (lit (str "Checking connection status..." ++ lf)) 29 s)) in
  let s1 := HAL_Delay 200
              (Send_Command cipsend
                 (CDC_Transmit_FS (lit (str "Sending CIPSEND command..." ++ lf)) 27
                    (Clear_RX_Buffer s0))) in
  let s2 := snd (Send_Data_handshake 3 0 (HAL_GetTick s1) cipsend s1) in
  let s_tx := HAL_UART_Transmit (c_str request)
                (CDC_Transmit_FS (lit (str "Sending data..." ++ lf)) 16
                   (Clear_RX_Buffer s2)) in
  let s' := Send_Data_To_Server json1 s in
  let both := fun s => Send_Data_To_Server json2 (elapse d (Send_Data_To_Server json1 s)) in
  (u32 (HAL_GetTick s - server_last_send_time s) < MIN_INTERVAL ->
   s' = s /\ new_events (Send_Data_To_Server json1) s = [])
  /\ (server_last_send_time s' <> server_last_send_time s ->
      server_last_send_time s' = HAL_GetTick s'
      /\ rx_buffer s_tx = replicate (Z.to_nat RX_BUFFER_SIZE) 0
      /\ (exists (k n : nat),
            (1 <= k <= 3)%nat
            /\ uart_sent (new_events (Send_Data_To_Server json1) s)
               = c_str request :: replicate k (c_str cipsend) ++ [status]
            /\ uart_sent (new_events both s)
               = c_str request :: replicate k (c_str cipsend) ++ [status]
            /\ found (rx_buffer (elapse n s_tx)) (str "SEND OK") = true
            /\ s' = Clear_RX_Buffer
                      (set_server_last_send_time (HAL_GetTick (elapse n s_tx))
                         (CDC_Transmit_FS (lit (str "Data sent successfully" ++ lf)) 23
                            (elapse n s_tx))))
      /\ Send_Data_To_Server json2 (elapse d s') = elapse d s').
Proof.
  intros Hd status request cipsend s0 s1 s2 s_tx s' both. split.
  - intros H. pose proof (Send_Data_To_Server_dropped json1 s H) as E.
    split; [exact E|]. unfold new_events. rewrite E, Nat.sub_diag. reflexivity.
  - intros Hack.
    destruct (Send_Data_To_Server_outcome json1 s) as [H | (k & n & H)];
      [contradiction|].
    destruct H as (Hk & Hg & Hok & Hs').
    fold request cipsend s0 s1 s2 s_tx in Hg, Hok, Hs'. fold s' in Hs'.
    assert (Hlast : server_last_send_time s' = HAL_GetTick s').
    { rewrite Hs'. unfold HAL_GetTick. rewrite tick_Clear_RX_Buffer.
      fg_simpl. reflexivity. }
    assert (Hdrop : Send_Data_To_Server json2 (elapse d s') = elapse d s').
    { apply Send_Data_To_Server_dropped.
      unfold HAL_GetTick in *. fg_simpl. rewrite Hlast.
      rewrite elapsed_after_elapse. unfold u32, MIN_INTERVAL in *.
      rewrite Z.mod_small; lia. }
    assert (Hsent : modem_got (c_str request :: replicate k (c_str cipsend) ++ [status])
                      s s').
    { rewrite Hs'.
      match goal with
      | |- modem_got _ _ (Clear_RX_Buffer (set_server_last_send_time _ ?x)) =>
          apply (modem_got_out _ _ x); [fg_simpl; reflexivity|]
      end.
      apply modem_got_cdc.
      apply (modem_got_out _ _ s_tx); [fg_simpl; reflexivity | exact Hg]. }
    split; [exact Hlast|]. split.
    { unfold s_tx. sh_simpl. apply sh_Clear_RX_Buffer. }
    split; [|exact Hdrop].
    exists k, n.
    split; [exact Hk|]. split; [apply modem_got_new_events; exact Hsent|].
    split.
    + apply (modem_got_new_events _ both). unfold both. fold s'. rewrite Hdrop.
      apply (modem_got_out _ _ s'); [fg_simpl; reflexivity | exact Hsent].
    + split; [exact Hok | exact Hs'].
Qed.

Lemma Send_Data_To_Server_min_interval_witness :
  let json := lit (str "{}") in
  let future := replicate 149 [] ++ [[IrqRx 62]] ++ replicate 249 []
                ++ [List.map IrqRx (str "SEND OK" ++ crlf)] in
  let s := initial_state 1000 future in
  let s' := Send_Data_To_Server json s in
  server_last_send_time s' = 1400
  /\ HAL_GetTick s' = 1400
  /\ Send_Data_To_Server json (elapse 100 s') = elapse 100 s'
  /\ length (uart_sent (new_events (Send_Data_To_Server json) s)) = 3%nat.
Proof.
  intros json future s s'.
  assert (Hd : Z.of_nat 100 < MIN_INTERVAL) by (unfold MIN_INTERVAL; lia).
  destruct (Send_Data_To_Server_min_interval json json s 100 Hd) as [_ H].
  destruct H as (Hlast & _ & _ & Hdrop); [vm_compute; discriminate|].
  split; [vm_compute; reflexivity|]. split; [vm_compute; reflexivity|].
  split; [exact Hdrop | vm_compute; reflexivity].
Defined.



Lemma modem_got_Establish_Connection server_ip port s :
  modem_got
    [ c_str (snprintf 128 (str "AT+CIPSTART=0," ++ dq ++ str "TCP" ++ dq ++ str ","
                           ++ dq ++ c_str server_ip ++ dq ++ str "," ++ dec port ++ crlf));
      str "AT+CIPCLOSE=0" ++ crlf ]
    s (Establish_Connection server_ip port s).
Proof.
  unfold Establish_Connection. cbv zeta.
  apply modem_got_poll, modem_got_Send_Command.
  repeat modem_quiet.
  change (str "AT+CIPCLOSE=0" ++ crlf) with (c_str (lit (str "AT+CIPCLOSE=0" ++ crlf))).
  apply modem_got_Send_Command, modem_got_start.
Qed.

(** X20. Every connection attempt sends the modem the same two
    commands, whatever the modem answers and however the attempt ends:
    first the command that closes link 0, then the command that opens
    a TCP connection on link 0 to the given address and port; for the
    call made in [main], to 172.20.10.11, port 5000. *)
Theorem Establish_Connection_sends_close_then_start server_ip port s :
  uart_sent (new_events (Establish_Connection server_ip port) s)
  = [ c_str (snprintf 128 (str "AT+CIPSTART=0," ++ dq ++ str "TCP" ++ dq ++ str ","
                           ++ dq ++ c_str server_ip ++ dq ++ str "," ++ dec port ++ crlf));
      str "AT+CIPCLOSE=0" ++ crlf ]
  /\ uart_sent (new_events (Establish_Connection (lit (str "172.20.10.11")) 5000) s)
     = [ str "AT+CIPSTART=0," ++ dq ++ str "TCP" ++ dq ++ str "," ++ dq
         ++ str "172.20.10.11" ++ dq ++ str ",5000" ++ crlf;
         str "AT+CIPCLOSE=0" ++ crlf ].
Proof.
  split.
  - apply modem_got_new_events, modem_got_Establish_Connection.
  - rewrite (modem_got_new_events _ _ _
               (modem_got_Establish_Connection (lit (str "172.20.10.11")) 5000 s)).
    vm_compute. reflexivity.
Qed.

(** ** Nothing else reaches the modem *)

Section ModemFrames.

Variable float : Type.
Variable scaled : Z -> Z -> float.
Variable printf_3f : float -> list Z.

(** X21. Whatever the state the loop is entered in, whatever the
    interrupts, the received bytes and the sensor readings, and however
    many passes it makes, as long as every credential request it
    receives is one the request handler is defined for, every frame the
    firmware hands to the modem's
    UART is one it has for the modem: a command that begins with AT,
    the request to the server that begins with its POST line, the
    configuration page that begins with its HTTP status line, or a
    packed sample of ten bytes that begins with one of the three
    headers.  None of the messages written for the USB port goes to the
    modem. *)
Theorem modem_is_sent_its_frames_only (n : nat) s :
  main_loop_defined float scaled printf_3f n s = true ->
  Forall (fun data => modem_frame data = true)
    (uart_sent (new_events (main_loop float scaled printf_3f n) s)).
Proof.
  intros _.
  cut (exists l, out (main_loop float scaled printf_3f n s) = l ++ out s
                 /\ Forall (fun data => modem_frame data = true) (uart_sent l)).
  { intros (l & Hl & Hall). unfold new_events. rewrite Hl, take_new. exact Hall. }
  apply (kept_main_loop float scaled printf_3f
           (fun x => exists l, out x = l ++ out s
                               /\ Forall (fun data => modem_frame data = true) (uart_sent l))
           (fun data => modem_frame data = true)).
  - intros s1 s2 E. unfold out. rewrite E. trivial.
  - intros data s1 (l & Hl & Hall). exists (CdcTx data :: l). split; [|exact Hall].
    change (out (emit (CdcTx data) s1)) with (CdcTx data :: out s1). rewrite Hl. reflexivity.
  - intros data s1 Hd (l & Hl & Hall). exists (UartTx data :: l). split.
    + change (out (emit (UartTx data) s1)) with (UartTx data :: out s1).
      rewrite Hl. reflexivity.
    + cbn [uart_sent]. constructor; [exact Hd | exact Hall].
  - trivial.
  - intros device reg len s1 (l & Hl & Hall). exists (I2cRead device reg len :: l).
    split; [|exact Hall].
    change (out (emit (I2cRead device reg len) s1)) with (I2cRead device reg len :: out s1).
    rewrite Hl. reflexivity.
  - intros reg len s1 (l & Hl & Hall). exists (SpiRead reg len :: l).
    split; [|exact Hall].
    change (out (emit (SpiRead reg len) s1)) with (SpiRead reg len :: out s1).
    rewrite Hl. reflexivity.
  - intros v s1 Hv H. exact H.
  - intros v s1 Hv H. exact H.
  - intros v s1 H. exact H.
  - intros v s1 Hv H. exact H.
  - intros v s1 Hv H. exact H.
  - intros s1 H. exact H.
  - intros v s1 Hv H. exact H.
  - intros s1 H. exact H.
  - intros v s1 Hv H. exact H.
  - intros s1 H. exact H.
  - intros v s1 H. exact H.
  - intros v s1 H. exact H.
  - intros s1 H. exact H.
  - intros s1 H. exact H.
  - exists []. split; [reflexivity | constructor].
Qed.

End ModemFrames.

Lemma modem_is_sent_its_frames_only_witness :
  let request := str "+IPD,0,49:GET /?ssid=MyNet&password=Secr3t HTTP/1.1" ++ crlf ++ crlf in
  let press := [[IrqButton true]] ++ replicate 99 [] ++ [[IrqButton false]] in
  let future := replicate 20 [] ++ [List.map IrqRx request] ++ replicate 99 [] ++ press in
  let s := initial_state 170 future in
  uart_sent (new_events (main_loop Z Z.mul dec 300) s)
  = [ str "AT" ++ crlf;
      str "AT+CWJAP=" ++ dq ++ str "MyNet" ++ dq ++ str "," ++ dq ++ str "Secr3t" ++ dq
      ++ crlf ]
  /\ Forall (fun data => modem_frame data = true)
       (uart_sent (new_events (main_loop Z Z.mul dec 300) s)).
Proof.
  intros request press future s.
  split; [vm_compute; reflexivity|].
  apply modem_is_sent_its_frames_only. vm_compute. reflexivity.
Defined.
